(** * InsertRestoreOpPass: a shallow embedding and its properties

    Source: tensorflow/compiler/mlir/quantization/tensorflow/passes/insert_restore_op.cc

    The pass rewrites the "restore_op" initializer function of a saved model:
    every [tf.AssignVariableOp(tf.VarHandleOp, tf.Const)] pattern of the
    function body is stripped and replaced by one [tf.RestoreV2] whose
    results are assigned to the same variable handles.

    The IR is modelled as MLIR has it: operations carry an identity (the
    address of the C++ object, here a number), values are either block
    arguments or results of an operation named by its identity, a region is a
    list of blocks and a block a list of operations whose last one is the
    terminator.  A function body is mutated in place; here the body is
    passed along and returned.  Code that asserts or dereferences a null
    pointer ends the process; it is modelled by the [Fatal] outcome of an
    error monad.

    Outline: the data model and the library primitives the pass calls; the
    pass, function by function; what the pass computes, stated without the
    loop and the builder ([stripped], [with_restore], [transformed]); the
    proof that the pass computes it; the properties C1 to C10. *)

From Stdlib Require Import String ZArith Bool Arith Lia PeanoNat List Permutation.
Import ListNotations.

Set Warnings "-register-all".

(* ================================================================== *)
(** ** Outcomes of fallible code *)

Module Outcome.

(** [Ok a]: the call returns [a].  [Fatal]: an assertion fails or a null
    pointer is dereferenced; nothing is returned. *)
Inductive result (A : Type) : Type :=
  | Ok (a : A)
  | Fatal.
Arguments Ok {A} a.
Arguments Fatal {A}.

Definition bind {A B : Type} (r : result A) (k : A -> result B) : result B :=
  match r with
  | Ok a => k a
  | Fatal => Fatal
  end.

End Outcome.
Export Outcome.

Declare Scope outcome_scope.
Delimit Scope outcome_scope with outcome.
Notation "x <- c ;; k" := (bind c (fun x => k))
  (at level 61, c at next level, right associativity) : outcome_scope.
Notation "' pat <- c ;; k" := (bind c (fun x => match x with pat => k end))
  (at level 61, pat pattern, c at next level, right associativity) : outcome_scope.
Open Scope outcome_scope.

(* ================================================================== *)
(** ** Machine integers used by the pass *)

Module MachineInt.
Local Open Scope Z_scope.

Definition INT_MAX : Z := 2147483647.

Definition UINT_MAX : Z := 4294967295.

(** Conversion of a non-negative count to [int] (32 bits, two's
    complement), as in [const int size = tensor_names.size()]. *)
Definition to_int (z : Z) : Z :=
  let r := z mod 4294967296 in
  if r <=? INT_MAX then r else r - 4294967296.

(** Conversion of an [int] to [unsigned] (32 bits). *)
Definition to_unsigned (z : Z) : Z := z mod 4294967296.

(** Conversion to [int64_t], as in [static_cast<int64_t>(str_values.size())]. *)
Definition to_int64 (z : Z) : Z :=
  let r := z mod 18446744073709551616 in
  if r <=? 9223372036854775807 then r else r - 18446744073709551616.

End MachineInt.
Export MachineInt.

(* ================================================================== *)
(** ** The IR data model *)

Definition OpId := nat.

Inductive ElementType : Type :=
| f32 | f64 | i1 | i32 | i64
| tf_string      (* !tf_type.string *)
| tf_resource.   (* !tf_type.resource *)

Inductive TensorType : Type :=
| RankedTensorType (shape : list Z) (elementType : ElementType)
| UnrankedTensorType (elementType : ElementType).

Inductive Location : Type :=
| UnknownLoc
| NameLoc (name : string)
| FileLineColLoc (file : string) (line col : nat).

Inductive Attribute : Type :=
| StringAttr (s : string)
| ArrayAttr (elems : list Attribute)
| UnitAttr.

(** A dictionary attribute, as a list of named attributes. *)
Definition DictionaryAttr := list (string * Attribute).

Inductive ElementsAttr : Type :=
| DenseStringElementsAttr (type : TensorType) (values : list string)
| DenseElementsAttr (type : TensorType) (raw : list Z).

(** Which block owns a block argument: the entry block of the enclosing
    function, or some other block. *)
Inductive BlockRef : Type :=
| EntryBlock
| OtherBlock (n : nat).

Inductive Value : Type :=
| BlockArgument (owner : BlockRef) (arg_no : nat)
| OpResult (owner : OpId) (result_no : nat).

Record VarHandleOp : Type := {
  vh_id : OpId;
  vh_loc : Location;
  getSharedName : string;
  (** [tensor<1xf32>] for a handle of type
      [tensor<!tf_type.resource<tensor<1xf32>>>] *)
  resource_subtype : TensorType
}.

Record ConstOp : Type := {
  const_id : OpId;
  const_loc : Location;
  const_value : ElementsAttr
}.

Record AssignVariableOp : Type := {
  assign_id : OpId;
  assign_loc : Location;
  assign_resource : Value;   (* operand 0 *)
  assign_value : Value       (* operand 1 *)
}.

Record RestoreV2Op : Type := {
  restore_id : OpId;
  restore_loc : Location;
  restore_tensors : list TensorType;   (* the result types *)
  restore_prefix : Value;
  restore_tensor_names : Value;
  restore_shape_and_slices : Value
}.

(** Operations.  The four TensorFlow operations the pass names have their
    own constructor; [OtherOp] is any other operation (tf.If, tf.AddV2,
    func.return, ...), with its regions. *)
Inductive Operation : Type :=
| OpVarHandle (op : VarHandleOp)
| OpConst (op : ConstOp)
| OpAssignVariable (op : AssignVariableOp)
| OpRestoreV2 (op : RestoreV2Op)
| OtherOp (id : OpId) (loc : Location) (name : string)
          (operands : list Value) (result_types : list TensorType)
          (regions : list (list (list Operation)))
          (is_terminator : bool).

Definition Block := list Operation.
Definition Region := list Block.

Record Argument : Type := {
  arg_type : TensorType;
  arg_attrs : DictionaryAttr;
  arg_loc : Location
}.

Record FuncOp : Type := {
  sym_name : string;
  func_loc : Location;
  func_arguments : list Argument;
  func_result_types : list TensorType;
  func_attrs : DictionaryAttr;
  getBody : Region;
  (** Allocation mark of the model: operations created in this function
      get the identities from this number on, so that a new operation is
      distinct from every operation the function has or had. *)
  next_op_id : OpId
}.

Definition ModuleOp := list FuncOp.

(* ------------------------------------------------------------------ *)
(** *** Accessors *)

Definition op_id (o : Operation) : OpId :=
  match o with
  | OpVarHandle op => vh_id op
  | OpConst op => const_id op
  | OpAssignVariable op => assign_id op
  | OpRestoreV2 op => restore_id op
  | OtherOp id _ _ _ _ _ _ => id
  end.

Definition getOperands (o : Operation) : list Value :=
  match o with
  | OpVarHandle _ => []
  | OpConst _ => []
  | OpAssignVariable op => [assign_resource op; assign_value op]
  | OpRestoreV2 op =>
      [restore_prefix op; restore_tensor_names op; restore_shape_and_slices op]
  | OtherOp _ _ _ operands _ _ _ => operands
  end.

Definition getNumResults (o : Operation) : nat :=
  match o with
  | OpVarHandle _ => 1
  | OpConst _ => 1
  | OpAssignVariable _ => 0
  | OpRestoreV2 op => length (restore_tensors op)
  | OtherOp _ _ _ _ result_types _ _ => length result_types
  end.

(** The trait [OpTrait::IsTerminator]. *)
Definition isTerminator (o : Operation) : bool :=
  match o with
  | OtherOp _ _ _ _ _ _ t => t
  | _ => false
  end.

Definition isAssignVariableOp (o : Operation) : bool :=
  match o with OpAssignVariable _ => true | _ => false end.

Definition isConstOp (o : Operation) : bool :=
  match o with OpConst _ => true | _ => false end.

Definition isRestoreV2Op (o : Operation) : bool :=
  match o with OpRestoreV2 _ => true | _ => false end.

(** Is [v] a result of the operation [id]? *)
Definition is_result_of (id : OpId) (v : Value) : bool :=
  match v with
  | OpResult owner _ => owner =? id
  | BlockArgument _ _ => false
  end.

Definition sum_map {A : Type} (f : A -> nat) (l : list A) : nat :=
  list_sum (map f l).

(** Number of operand slots, in [o] and in every operation nested in its
    regions, that hold a result of the operation [id]: the contribution of
    [o] to the use list of [id]. *)
Fixpoint op_uses (id : OpId) (o : Operation) : nat :=
  match o with
  | OtherOp _ _ _ operands _ regions _ =>
      length (filter (is_result_of id) operands)
      + sum_map (sum_map (sum_map (op_uses id))) regions
  | _ => length (filter (is_result_of id) (getOperands o))
  end.

(** Largest identity among [o] and the operations nested in it. *)
Fixpoint op_max_id (o : Operation) : nat :=
  match o with
  | OtherOp id _ _ _ _ regions _ =>
      Nat.max id
        (list_max (map (fun r => list_max (map (fun b => list_max (map op_max_id b)) r))
                       regions))
  | _ => op_id o
  end.

(** All operations directly in the blocks of a region, in order
    ([Region::getOps()]); operations nested in the regions of these are not
    among them. *)
Definition region_ops (r : Region) : list Operation := concat r.

Definition region_uses (id : OpId) (r : Region) : nat :=
  sum_map (op_uses id) (region_ops r).

Definition region_max_id (r : Region) : nat :=
  list_max (map op_max_id (region_ops r)).

(* ================================================================== *)
(** ** Primitives of the IR library the pass calls *)

(** [Operation::erase()]: the operation is unlinked from its block and
    destroyed.  It may have no use left; the pass erases an
    [AssignVariableOp], which has no result, and a [ConstOp] it has found
    [use_empty].  Both stand directly in a block of the function body. *)
Definition erase (id : OpId) (r : Region) : Region :=
  map (filter (fun o => negb (op_id o =? id))) r.

(** [Value::getDefiningOp()]: the operation a value is a result of, and a
    null pointer for a block argument.  An operand of an operation in the
    body of a function is defined in that body. *)
Definition getDefiningOp (r : Region) (v : Value) : option Operation :=
  match v with
  | BlockArgument _ _ => None
  | OpResult owner _ => find (fun o => op_id o =? owner) (region_ops r)
  end.

(** [llvm::dyn_cast<TF::VarHandleOp>] on an operation pointer.  [dyn_cast] requires a
    non-null pointer ("dyn_cast on a non-existent value"); the null-tolerant
    variants are [dyn_cast_or_null] and [dyn_cast_if_present], which the pass
    does not use.  The cast itself yields a null op on a kind mismatch. *)
Definition dyn_cast_VarHandleOp (o : option Operation) : result (option VarHandleOp) :=
  match o with
  | None => Fatal
  | Some (OpVarHandle op) => Ok (Some op)
  | Some _ => Ok None
  end.

(** [llvm::dyn_cast<TF::ConstOp>] on an operation pointer. *)
Definition dyn_cast_ConstOp (o : option Operation) : result (option ConstOp) :=
  match o with
  | None => Fatal
  | Some (OpConst op) => Ok (Some op)
  | Some _ => Ok None
  end.

(** [Operation::use_empty()]: no operand anywhere holds a result of the
    operation.  Uses of a value of a function body lie in that body, at any
    nesting depth. *)
Definition use_empty (id : OpId) (r : Region) : bool :=
  region_uses id r =? 0.

(** [func_op.getOps<TF::AssignVariableOp>()]: the operations of that kind
    directly in the blocks of the function body, in order. *)
Definition as_AssignVariableOp (o : Operation) : list AssignVariableOp :=
  match o with OpAssignVariable a => [a] | _ => [] end.

Definition getOps_AssignVariableOp (r : Region) : list AssignVariableOp :=
  flat_map as_AssignVariableOp (region_ops r).

Definition setBody (f : FuncOp) (r : Region) : FuncOp :=
  {| sym_name := sym_name f;
     func_loc := func_loc f;
     func_arguments := func_arguments f;
     func_result_types := func_result_types f;
     func_attrs := func_attrs f;
     getBody := r;
     next_op_id := next_op_id f |}.

Definition setArguments (f : FuncOp) (args : list Argument) : FuncOp :=
  {| sym_name := sym_name f;
     func_loc := func_loc f;
     func_arguments := args;
     func_result_types := func_result_types f;
     func_attrs := func_attrs f;
     getBody := getBody f;
     next_op_id := next_op_id f |}.

(** [func_op.getNumArguments()], an [unsigned]. *)
Definition getNumArguments (f : FuncOp) : Z :=
  to_unsigned (Z.of_nat (length (func_arguments f))).

(** [func_op.insertArgument(argIndex, argType, argAttrs, argLoc)].  The index
    may not exceed the number of arguments.  MLIR renumbers the block
    arguments at or after the index; the pass inserts at the end, where
    there is none. *)
Definition insertArgument (f : FuncOp) (argIndex : Z)
           (argType : TensorType) (argAttrs : DictionaryAttr) (argLoc : Location)
  : result FuncOp :=
  let n := Z.to_nat argIndex in
  if (argIndex <? 0)%Z || (length (func_arguments f) <? n) then Fatal
  else Ok (setArguments f
             (firstn n (func_arguments f)
              ++ {| arg_type := argType; arg_attrs := argAttrs; arg_loc := argLoc |}
              :: skipn n (func_arguments f))).

(** [func_op.getArgument(idx)]. *)
Definition getArgument (f : FuncOp) (idx : Z) : result Value :=
  let n := Z.to_nat idx in
  if (idx <? 0)%Z || (length (func_arguments f) <=? n) then Fatal
  else Ok (BlockArgument EntryBlock n).

(** An [OpBuilder] is an insertion point: new operations go into block
    number [ip_block] of the function body, immediately before the operation
    [ip_before]. *)
Record OpBuilder : Type := {
  ip_block : nat;
  ip_before : OpId
}.

(** [Block::getTerminator()]: the last operation, which must be a
    terminator. *)
Definition getTerminator (b : Block) : result Operation :=
  match rev b with
  | t :: _ => if isTerminator t then Ok t else Fatal
  | [] => Fatal
  end.

(** [OpBuilder::atBlockTerminator(&region.front())]. *)
Definition atBlockTerminator_front (r : Region) : result OpBuilder :=
  match r with
  | [] => Fatal
  | front :: _ =>
      terminator <- getTerminator front ;;
      Ok {| ip_block := 0; ip_before := op_id terminator |}
  end.

Fixpoint insert_before (ip : OpId) (new : Operation) (b : Block) : Block :=
  match b with
  | [] => [new]
  | o :: rest =>
      if op_id o =? ip then new :: o :: rest
      else o :: insert_before ip new rest
  end.

Fixpoint insert_in_block (n : nat) (ip : OpId) (new : Operation) (r : Region) : Region :=
  match r, n with
  | [], _ => []
  | b :: bs, 0 => insert_before ip new b :: bs
  | b :: bs, S n' => b :: insert_in_block n' ip new bs
  end.

(** [builder.create<OpTy>(...)]: allocates the operation described by
    [make], inserts it at the insertion point (which stays before the same
    operation) and returns it.  [as_op] is the conversion of an [OpTy] to
    [Operation]. *)
Definition create {OpTy : Type} (as_op : OpTy -> Operation) (builder : OpBuilder)
           (make : OpId -> OpTy) (f : FuncOp) : FuncOp * OpTy :=
  let new := make (next_op_id f) in
  ({| sym_name := sym_name f;
      func_loc := func_loc f;
      func_arguments := func_arguments f;
      func_result_types := func_result_types f;
      func_attrs := func_attrs f;
      getBody := insert_in_block (ip_block builder) (ip_before builder)
                                 (as_op new) (getBody f);
      next_op_id := S (next_op_id f) |},
   new).

(* ================================================================== *)
(** ** Names declared in tf_saved_model.h *)

(** Modelled from the spec: [kTfSavedModelInitializerTypeAttr] is declared
    in tf_saved_model.h, which is not part of the sources at hand.  It is the
    "initializer kind" attribute of a function; the description string of
    the pass spells it [tf_saved_model.initializer_type]. *)
Definition kTfSavedModelInitializerTypeAttr : string :=
  "tf_saved_model.initializer_type".

(** Modelled from the spec: [kTfSavedModelInitializerRestoreType] is
    declared in tf_saved_model.h; the reserved value is "restore_op". *)
Definition kTfSavedModelInitializerRestoreType : string := "restore_op".

(** Modelled from the spec: [kTfSavedModelIndexPathAttr] is declared in
    tf_saved_model.h; it is the key of the path-indexing metadata of an
    argument. *)
Definition kTfSavedModelIndexPathAttr : string := "tf_saved_model.index_path".

Fixpoint dict_get (d : DictionaryAttr) (key : string) : option Attribute :=
  match d with
  | [] => None
  | (k, a) :: rest => if String.eqb k key then Some a else dict_get rest key
  end.

Definition has_initializer_type (initializer_type : string) (f : FuncOp) : bool :=
  match dict_get (func_attrs f) kTfSavedModelInitializerTypeAttr with
  | Some (StringAttr s) => String.eqb s initializer_type
  | _ => false
  end.

Fixpoint find_indexed {A : Type} (p : A -> bool) (l : list A) : option (nat * A) :=
  match l with
  | [] => None
  | x :: rest =>
      if p x then Some (0, x)
      else match find_indexed p rest with
           | Some (i, y) => Some (S i, y)
           | None => None
           end
  end.

(** Modelled from the spec: [GetInitializerFunction] is defined in
    tf_saved_model.cc, which is not part of the sources at hand.  Given the
    module and a key it searches the functions of the module for one whose
    initializer-type attribute equals the key, and returns it or a not-found
    value.  The function returned is a handle into the module: its position
    together with the function found there. *)
Definition GetInitializerFunction (module_op : ModuleOp) (initializer_type : string)
  : option (nat * FuncOp) :=
  find_indexed (has_initializer_type initializer_type) module_op.

Fixpoint replace_nth {A : Type} (n : nat) (x : A) (l : list A) : list A :=
  match l, n with
  | [], _ => []
  | _ :: rest, 0 => x :: rest
  | y :: rest, S n' => y :: replace_nth n' x rest
  end.

(* ================================================================== *)
(** ** The pass *)

Module InsertRestoreOp.

(** State of the scan: the body of the initializer function, mutated in
    place, and [var_handle_ops]. *)
Definition StripState : Type := (Region * list VarHandleOp)%type.

(** Body of the loop of [RemoveAssignVariableOpsAndConstOps] for one
    [assign_variable_op]. *)
Definition strip_one (st : StripState) (assign_variable_op : AssignVariableOp)
  : result StripState :=
  let '(body, var_handle_ops) := st in
  let resource_operand := assign_resource assign_variable_op in
  var_handle_op <- dyn_cast_VarHandleOp (getDefiningOp body resource_operand) ;;
  match var_handle_op with
  | None => Ok st                                   (* continue *)
  | Some var_handle_op =>
      let assigned_value_operand := assign_value assign_variable_op in
      const_op <- dyn_cast_ConstOp (getDefiningOp body assigned_value_operand) ;;
      match const_op with
      | None => Ok st                               (* continue *)
      | Some const_op =>
          let var_handle_ops := var_handle_ops ++ [var_handle_op] in
          let body := erase (assign_id assign_variable_op) body in
          let body :=
            if use_empty (const_id const_op) body
            then erase (const_id const_op) body
            else body in
          Ok (body, var_handle_ops)
      end
  end.

(** The loop over [llvm::make_early_inc_range(getOps<AssignVariableOp>())].
    The early-increment iterator has moved on to the next
    [AssignVariableOp] before the loop body runs, and the loop body erases
    only the current [AssignVariableOp] and a [ConstOp]; the operations
    visited are therefore the [AssignVariableOp]s present at the start, in
    order. *)
Fixpoint strip_loop (range : list AssignVariableOp) (st : StripState)
  : result StripState :=
  match range with
  | [] => Ok st
  | assign_variable_op :: rest =>
      st' <- strip_one st assign_variable_op ;;
      strip_loop rest st'
  end.

Definition RemoveAssignVariableOpsAndConstOps (session_init_func : FuncOp)
  : result (FuncOp * list VarHandleOp) :=
  '(body, var_handle_ops) <-
     strip_loop (getOps_AssignVariableOp (getBody session_init_func))
                (getBody session_init_func, []) ;;
  Ok (setBody session_init_func body, var_handle_ops).

(** Creates a [ConstOp] of 1-dimensional [TF::StringType] out of
    [str_values]. *)
Definition Create1DStringConst (str_values : list string) (loc : Location)
         (builder : OpBuilder) (func_op : FuncOp) : FuncOp * ConstOp :=
  let tensor_type :=
    RankedTensorType [to_int64 (Z.of_nat (length str_values))] tf_string in
  let make id :=
    {| const_id := id;
       const_loc := loc;
       const_value := DenseStringElementsAttr tensor_type str_values |} in
  create OpConst builder make func_op.

(** Creates a new argument for [func_op] that accepts a string tensor
    containing the checkpoint file's prefix. *)
Definition InsertFilePrefixArgument (func_op : FuncOp) (builder : OpBuilder)
  : result (FuncOp * Value) :=
    let filename_op_type := RankedTensorType [] tf_string in
    let file_prefix_attr := StringAttr "file_prefix" in
    let arg_attrs : DictionaryAttr :=
      [(kTfSavedModelIndexPathAttr, ArrayAttr [file_prefix_attr])] in
    let insert_idx := to_int (getNumArguments func_op) in
    func_op <- insertArgument func_op (to_unsigned insert_idx)
                 filename_op_type arg_attrs (NameLoc "file_prefix") ;;
    arg <- getArgument func_op (to_unsigned insert_idx) ;;
    Ok (func_op, arg).

Definition CreateTensorNamesConst (tensor_names : list string)
         (builder : OpBuilder) (func_op : FuncOp) : FuncOp * ConstOp :=
  let loc := NameLoc "tensor_names" in
  Create1DStringConst tensor_names loc builder func_op.

(** [SmallVector<std::string>(size, "")]: the [int] is converted to
    [size_t]; a negative one becomes a count no allocation can serve. *)
Definition filled_vector (size : Z) (value : string) : result (list string) :=
  if (size <? 0)%Z then Fatal else Ok (repeat value (Z.to_nat size)).

(** It will be filled with [size] empty strings. *)
Definition CreateShapeAndSlicesConst (size : Z) (builder : OpBuilder)
         (func_op : FuncOp) : result (FuncOp * ConstOp) :=
  shape_and_slices_values <- filled_vector size "" ;;
  let loc := NameLoc "shape_and_slices" in
  Ok (Create1DStringConst shape_and_slices_values loc builder func_op).

(** The single result of an operation, as a value. *)
Definition result_of (id : OpId) : Value := OpResult id 0.

(** [restore_op.getResults()]. *)
Definition getResults (restore_op : RestoreV2Op) : list Value :=
  map (OpResult (restore_id restore_op))
      (seq 0 (length (restore_tensors restore_op))).

(** [llvm::enumerate]. *)
Definition enumerate {A : Type} (l : list A) : list (nat * A) :=
  combine (seq 0 (length l)) l.

(** The loop that creates one [AssignVariableOp] per result of the
    [RestoreV2Op]. *)
Fixpoint assign_results (builder : OpBuilder) (loc : Location)
       (target_var_handle_ops : list VarHandleOp)
       (results : list (nat * Value)) (func_op : FuncOp) : result FuncOp :=
  match results with
  | [] => Ok func_op
  | (idx, restore_result) :: rest =>
      match nth_error target_var_handle_ops idx with
      | None => Fatal
      | Some var_handle_op =>
          let make id :=
            {| assign_id := id;
               assign_loc := loc;
               assign_resource := result_of (vh_id var_handle_op);
               assign_value := restore_result |} in
          let '(func_op, _) := create OpAssignVariable builder make func_op in
          assign_results builder loc target_var_handle_ops rest func_op
      end
  end.

(** Creates a [tf.RestoreV2Op] that loads the variable values from the
    checkpoint file. *)
Definition CreateRestoreV2Op (target_var_handle_ops : list VarHandleOp)
         (session_init_func : FuncOp) : result FuncOp :=
  let tensor_names := map getSharedName target_var_handle_ops in
  let tensor_types := map resource_subtype target_var_handle_ops in
  builder <- atBlockTerminator_front (getBody session_init_func) ;;
  '(session_init_func, filename_arg) <-
     InsertFilePrefixArgument session_init_func builder ;;
  let '(session_init_func, tensor_names_const) :=
    CreateTensorNamesConst tensor_names builder session_init_func in
  '(session_init_func, shape_and_slices_const) <-
     CreateShapeAndSlicesConst (to_int (Z.of_nat (length tensor_names)))
                               builder session_init_func ;;
  let make id :=
    {| restore_id := id;
       restore_loc := func_loc session_init_func;
       restore_tensors := tensor_types;
       restore_prefix := filename_arg;
       restore_tensor_names := result_of (const_id tensor_names_const);
       restore_shape_and_slices := result_of (const_id shape_and_slices_const) |} in
  let '(session_init_func, restore_op) :=
    create OpRestoreV2 builder make session_init_func in
  assign_results builder (restore_loc restore_op) target_var_handle_ops
                 (enumerate (getResults restore_op)) session_init_func.

(** [InsertRestoreOpPass::runOnOperation].  The module is mutated in
    place; the outcome is the module after the pass. *)
Definition runOnOperation (module_op : ModuleOp) : result ModuleOp :=
  match GetInitializerFunction module_op kTfSavedModelInitializerRestoreType with
  | None => Ok module_op
  | Some (fn, session_init_func) =>
      '(session_init_func, target_var_handle_ops) <-
         RemoveAssignVariableOpsAndConstOps session_init_func ;;
      match target_var_handle_ops with
      | [] => Ok (replace_nth fn session_init_func module_op)
      | _ :: _ =>
          session_init_func <-
            CreateRestoreV2Op target_var_handle_ops session_init_func ;;
          Ok (replace_nth fn session_init_func module_op)
      end
  end.

End InsertRestoreOp.

Import InsertRestoreOp.

(* ================================================================== *)
(** ** Preconditions on the input *)

(** An operand of an operation of the body is a block argument or an
    existing result of an operation of the body. *)
Definition operand_defined (r : Region) (v : Value) : bool :=
  match v with
  | BlockArgument _ _ => true
  | OpResult _ result_no =>
      match getDefiningOp r v with
      | Some d => result_no <? getNumResults d
      | None => false
      end
  end.

Fixpoint nodupb (l : list nat) : bool :=
  match l with
  | [] => true
  | x :: rest => negb (existsb (Nat.eqb x) rest) && nodupb rest
  end.

Definition block_terminated (b : Block) : bool :=
  match rev b with
  | t :: _ => isTerminator t
  | [] => false
  end.

(** What every function body handed to a pass satisfies: operations are
    distinct objects, every operand has a definition, every block ends in a
    terminator. *)
Definition verified_body (r : Region) : bool :=
  nodupb (map op_id (region_ops r))
  && forallb (fun o => forallb (operand_defined r) (getOperands o)) (region_ops r)
  && forallb block_terminated r.

(** The body is as above and the allocation mark lies above every
    operation of the function. *)
Definition verified (f : FuncOp) : bool :=
  verified_body (getBody f) && (region_max_id (getBody f) <? next_op_id f).

Definition is_block_argument (v : Value) : bool :=
  match v with BlockArgument _ _ => true | OpResult _ _ => false end.

(** No [dyn_cast] of the scan is applied to the null defining operation of
    a block argument: operand 0 of every [AssignVariableOp] of the body is an
    operation result, and so is operand 1 when operand 0 is a variable
    handle. *)
Definition casts_defined (r : Region) : bool :=
  forallb
    (fun a =>
       negb (is_block_argument (assign_resource a))
       && match getDefiningOp r (assign_resource a) with
          | Some (OpVarHandle _) => negb (is_block_argument (assign_value a))
          | _ => true
          end)
    (getOps_AssignVariableOp r).

(** The condition of [casts_defined] for one [AssignVariableOp]. *)
Definition cast_defined (r : Region) (a : AssignVariableOp) : bool :=
  negb (is_block_argument (assign_resource a))
  && match getDefiningOp r (assign_resource a) with
     | Some (OpVarHandle _) => negb (is_block_argument (assign_value a))
     | _ => true
     end.

(* ------------------------------------------------------------------ *)
(** *** Definitions before uses *)

(** The operands of [o] and of every operation nested in its regions, at
    any depth: every operand slot the use lists of the module know of. *)
Fixpoint deep_operands (o : Operation) : list Value :=
  match o with
  | OtherOp _ _ _ operands _ regions _ =>
      operands ++ flat_map (flat_map (flat_map deep_operands)) regions
  | _ => getOperands o
  end.

(** The identities of the operations nested in the regions of [o]. *)
Fixpoint nested_ids (o : Operation) : list OpId :=
  match o with
  | OtherOp _ _ _ _ _ regions _ =>
      flat_map (flat_map (flat_map (fun o' => op_id o' :: nested_ids o'))) regions
  | _ => []
  end.

(** May the operation [o], or an operation nested in it, use the value
    [v], when [o] stands in the entry block of a function with [nargs]
    arguments after the operations [seen]?  An argument of the entry block
    must exist; a result must be an existing result of an operation of the
    block that stands before [o], or belong to an operation inside [o]. *)
Definition available (nargs : nat) (seen : list Operation) (o : Operation)
           (v : Value) : bool :=
  match v with
  | BlockArgument EntryBlock n => n <? nargs
  | BlockArgument (OtherBlock _) _ => true
  | OpResult owner k =>
      match find (fun d => op_id d =? owner) seen with
      | Some d => k <? getNumResults d
      | None => false
      end
      || existsb (Nat.eqb owner) (nested_ids o)
  end.

(** Every operation of the block [b], standing after [seen], uses only
    values available to it. *)
Fixpoint dominated_from (nargs : nat) (seen : list Operation) (b : Block) : bool :=
  match b with
  | [] => true
  | o :: rest =>
      forallb (available nargs seen o) (deep_operands o)
      && dominated_from nargs (seen ++ [o]) rest
  end.

(** Definitions dominate uses, for a function whose body is one block:
    there dominance is the order of the block.  A body of several blocks
    needs the control flow between them, which is not modelled; the
    predicate is false for it. *)
Definition dominated (f : FuncOp) : bool :=
  match getBody f with
  | [b] => dominated_from (length (func_arguments f)) [] b
  | _ => false
  end.

(* ================================================================== *)
(** ** The patterns of a body, stated from the description of the pass *)

(** [tf.AssignVariableOp(tf.VarHandleOp, tf.Const)]: operand 0 is defined
    by a [VarHandleOp] and operand 1 by a [ConstOp]. *)
Definition pattern_of (r : Region) (a : AssignVariableOp)
  : option (VarHandleOp * ConstOp) :=
  match getDefiningOp r (assign_resource a), getDefiningOp r (assign_value a) with
  | Some (OpVarHandle h), Some (OpConst c) => Some (h, c)
  | _, _ => None
  end.

Record Pattern : Type := {
  pat_assign : AssignVariableOp;
  pat_handle : VarHandleOp;
  pat_const : ConstOp
}.

Definition as_pattern (r : Region) (a : AssignVariableOp) : list Pattern :=
  match pattern_of r a with
  | Some (h, c) => [{| pat_assign := a; pat_handle := h; pat_const := c |}]
  | None => []
  end.

(** The qualifying patterns among the [AssignVariableOp]s [range], in
    order. *)
Definition patterns_in (r : Region) (range : list AssignVariableOp) : list Pattern :=
  flat_map (as_pattern r) range.

Definition patterns (r : Region) : list Pattern :=
  patterns_in r (getOps_AssignVariableOp r).

(** [a] is the assignment of a qualifying pattern of [r]. *)
Definition is_pattern (r : Region) (a : AssignVariableOp) : bool :=
  match pattern_of r a with Some _ => true | None => false end.

(** The sizes the pass converts to [int] and [unsigned] are representable. *)
Definition within_limits (f : FuncOp) : bool :=
  (Z.of_nat (length (func_arguments f)) <=? UINT_MAX)%Z
  && (Z.of_nat (length (patterns (getBody f))) <=? INT_MAX)%Z.

(* ------------------------------------------------------------------ *)
(** *** The body after the scan, stated without the scan *)

Definition keep_ops (p : Operation -> bool) (r : Region) : Region :=
  map (filter p) r.

Definition has_assign_id (id : OpId) (a : AssignVariableOp) : bool :=
  assign_id a =? id.

(** [o] is a qualifying [AssignVariableOp] among [done]. *)
Definition stripped_assign (r : Region) (done : list AssignVariableOp)
           (o : Operation) : bool :=
  match o with
  | OpAssignVariable a =>
      existsb (has_assign_id (assign_id a)) done
      && match pattern_of r a with Some _ => true | None => false end
  | _ => false
  end.

Definition after_assigns (r : Region) (done : list AssignVariableOp) : Region :=
  keep_ops (fun o => negb (stripped_assign r done o)) r.

Definition consumes (r : Region) (id : OpId) (a : AssignVariableOp) : bool :=
  match pattern_of r a with
  | Some (_, c) => const_id c =? id
  | None => false
  end.

(** [o] is a [ConstOp] that feeds a qualifying [AssignVariableOp] among
    [done] and has no use left once these are gone. *)
Definition stripped_const (r : Region) (done : list AssignVariableOp)
           (o : Operation) : bool :=
  match o with
  | OpConst c =>
      existsb (consumes r (const_id c)) done
      && (region_uses (const_id c) (after_assigns r done) =? 0)
  | _ => false
  end.

Definition state_after (r : Region) (done : list AssignVariableOp) : Region :=
  keep_ops (fun o => negb (stripped_const r done o)) (after_assigns r done).

(** The body once every qualifying pattern is stripped. *)
Definition stripped (r : Region) : Region :=
  state_after r (getOps_AssignVariableOp r).

(* ================================================================== *)
(** ** What [CreateRestoreV2Op] builds, stated without the builder *)

(** The argument [InsertFilePrefixArgument] adds. *)
Definition file_prefix_argument : Argument :=
  {| arg_type := RankedTensorType [] tf_string;
     arg_attrs := [(kTfSavedModelIndexPathAttr, ArrayAttr [StringAttr "file_prefix"])];
     arg_loc := NameLoc "file_prefix" |}.

Definition string_const (id : OpId) (loc : Location) (values : list string) : ConstOp :=
  {| const_id := id;
     const_loc := loc;
     const_value :=
       DenseStringElementsAttr
         (RankedTensorType [Z.of_nat (length values)] tf_string) values |}.

Definition new_tensor_names (id0 : OpId) (hs : list VarHandleOp) : ConstOp :=
  string_const id0 (NameLoc "tensor_names") (map getSharedName hs).

Definition new_shape_and_slices (id0 : OpId) (hs : list VarHandleOp) : ConstOp :=
  string_const (S id0) (NameLoc "shape_and_slices") (repeat ""%string (length hs)).

Definition new_restore (id0 : OpId) (loc : Location) (prefix_arg : nat)
           (hs : list VarHandleOp) : RestoreV2Op :=
  {| restore_id := S (S id0);
     restore_loc := loc;
     restore_tensors := map resource_subtype hs;
     restore_prefix := BlockArgument EntryBlock prefix_arg;
     restore_tensor_names := result_of id0;
     restore_shape_and_slices := result_of (S id0) |}.

(** The assignments of results [i], [i+1], ... of the operation [rid] to
    the handles [hs], with identities [id], [id+1], ... *)
Fixpoint new_assigns_from (rid : OpId) (loc : Location) (id : OpId) (i : nat)
         (hs : list VarHandleOp) : list AssignVariableOp :=
  match hs with
  | [] => []
  | h :: rest =>
      {| assign_id := id;
         assign_loc := loc;
         assign_resource := result_of (vh_id h);
         assign_value := OpResult rid i |}
        :: new_assigns_from rid loc (S id) (S i) rest
  end.

Definition new_assigns (id0 : OpId) (loc : Location) (hs : list VarHandleOp)
  : list AssignVariableOp :=
  new_assigns_from (S (S id0)) loc (S (S (S id0))) 0 hs.

Definition new_ops (id0 : OpId) (loc : Location) (prefix_arg : nat)
           (hs : list VarHandleOp) : list Operation :=
  OpConst (new_tensor_names id0 hs)
  :: OpConst (new_shape_and_slices id0 hs)
  :: OpRestoreV2 (new_restore id0 loc prefix_arg hs)
  :: map OpAssignVariable (new_assigns id0 loc hs).

(** The function [CreateRestoreV2Op] leaves, when the entry block of [f] is
    [init ++ [t]] with terminator [t]. *)
Definition with_restore (f : FuncOp) (init : Block) (t : Operation)
           (others : list Block) (hs : list VarHandleOp) : FuncOp :=
  {| sym_name := sym_name f;
     func_loc := func_loc f;
     func_arguments := func_arguments f ++ [file_prefix_argument];
     func_result_types := func_result_types f;
     func_attrs := func_attrs f;
     getBody :=
       (init
        ++ new_ops (next_op_id f) (func_loc f) (length (func_arguments f)) hs
        ++ [t]) :: others;
     next_op_id := next_op_id f + 3 + length hs |}.

(** No operation of [l] is the operation [t]. *)
Definition away_from_terminator (t : Operation) (l : Block) : Prop :=
  Forall (fun o => op_id o <> op_id t) l.

(** The body without its qualifying assignments. *)
Definition without_patterns (r : Region) : Region :=
  after_assigns r (getOps_AssignVariableOp r).

(** The handles [RemoveAssignVariableOpsAndConstOps] collects. *)
Definition collected (r : Region) : list VarHandleOp :=
  map pat_handle (patterns r).

(** The initializer function after a mutating run. *)
Definition transformed (f : FuncOp) : FuncOp :=
  let f1 := setBody f (stripped (getBody f)) in
  match getBody f1 with
  | [] => f1
  | front :: others =>
      match rev front with
      | [] => f1
      | t :: rinit => with_restore f1 (rev rinit) t others (collected (getBody f))
      end
  end.

(** What the scan keeps of the body of [f]. *)
Definition kept (f : FuncOp) (o : Operation) : bool :=
  negb (stripped_assign (getBody f) (getOps_AssignVariableOp (getBody f)) o)
  && negb (stripped_const (getBody f) (getOps_AssignVariableOp (getBody f)) o).

(** The operations of [f'] the pass created: those whose identity lies at
    or above the allocation mark of the input [f]. *)
Definition created (f f' : FuncOp) : list Operation :=
  filter (fun o => next_op_id f <=? op_id o) (region_ops (getBody f')).


(** Occurrences of the handle with identity [id] in a list of handles. *)
Definition occurrences (id : OpId) (hs : list VarHandleOp) : nat :=
  length (filter (fun h => vh_id h =? id) hs).

(** The [RestoreV2Op]s of a module. *)
Definition restore_ops (m : ModuleOp) : list Operation :=
  filter isRestoreV2Op (flat_map (fun f => region_ops (getBody f)) m).

(* ================================================================== *)
(** ** Example modules *)

Module Examples.

Definition t1xf32 : TensorType := RankedTensorType [1%Z] f32.
Definition t2xf32 : TensorType := RankedTensorType [2%Z] f32.

Definition var_handle (id : OpId) (name : string) (t : TensorType) : VarHandleOp :=
  {| vh_id := id; vh_loc := UnknownLoc; getSharedName := name; resource_subtype := t |}.

Definition const (id : OpId) (t : TensorType) (raw : list Z) : ConstOp :=
  {| const_id := id; const_loc := UnknownLoc; const_value := DenseElementsAttr t raw |}.

Definition assign (id : OpId) (resource value : Value) : AssignVariableOp :=
  {| assign_id := id; assign_loc := UnknownLoc;
     assign_resource := resource; assign_value := value |}.

Definition func_return (id : OpId) : Operation :=
  OtherOp id UnknownLoc "func.return" [] [] [] true.

Definition init_func (args : list Argument) (body : Region) (mark : OpId) : FuncOp :=
  {| sym_name := "init_func_restore_op";
     func_loc := NameLoc "init";
     func_arguments := args;
     func_result_types := [];
     func_attrs := [(kTfSavedModelInitializerTypeAttr, StringAttr "restore_op")];
     getBody := body;
     next_op_id := mark |}.

Definition main_func : FuncOp :=
  {| sym_name := "main";
     func_loc := NameLoc "main";
     func_arguments := [];
     func_result_types := [];
     func_attrs := [];
     getBody := [[func_return 1]];
     next_op_id := 2 |}.

(** Two variables: handle "w1" (1-element float vector) assigned from a
    constant, handle "w2" (2-element float vector) assigned from another. *)
Definition w1 : VarHandleOp := var_handle 1 "w1" t1xf32.
Definition w2 : VarHandleOp := var_handle 4 "w2" t2xf32.
Definition assign_w1 : AssignVariableOp := assign 3 (OpResult 1 0) (OpResult 2 0).
Definition assign_w2 : AssignVariableOp := assign 6 (OpResult 4 0) (OpResult 5 0).

Definition two_vars_init : FuncOp :=
  init_func []
    [[ OpVarHandle w1; OpConst (const 2 t1xf32 [1%Z]); OpAssignVariable assign_w1;
       OpVarHandle w2; OpConst (const 5 t2xf32 [2%Z; 3%Z]); OpAssignVariable assign_w2;
       func_return 7 ]]
    8.

Definition two_vars : ModuleOp := [main_func; two_vars_init].

(** The module with two variables after one run of the pass. *)
Definition two_vars_restored_init : FuncOp :=
  {| sym_name := "init_func_restore_op";
     func_loc := NameLoc "init";
     func_arguments := [file_prefix_argument];
     func_result_types := [];
     func_attrs := [(kTfSavedModelInitializerTypeAttr, StringAttr "restore_op")];
     getBody :=
       [[ OpVarHandle w1; OpVarHandle w2;
          OpConst (string_const 8 (NameLoc "tensor_names") ["w1"%string; "w2"%string]);
          OpConst (string_const 9 (NameLoc "shape_and_slices") [EmptyString; EmptyString]);
          OpRestoreV2
            {| restore_id := 10;
               restore_loc := NameLoc "init";
               restore_tensors := [t1xf32; t2xf32];
               restore_prefix := BlockArgument EntryBlock 0;
               restore_tensor_names := OpResult 8 0;
               restore_shape_and_slices := OpResult 9 0 |};
          OpAssignVariable
            {| assign_id := 11; assign_loc := NameLoc "init";
               assign_resource := OpResult 1 0; assign_value := OpResult 10 0 |};
          OpAssignVariable
            {| assign_id := 12; assign_loc := NameLoc "init";
               assign_resource := OpResult 4 0; assign_value := OpResult 10 1 |};
          func_return 7 ]];
     next_op_id := 13 |}.

Definition two_vars_restored : ModuleOp := [main_func; two_vars_restored_init].

(** One constant feeding the assignments of two handles. *)
Definition shared_const : ConstOp := const 3 t1xf32 [1%Z].
Definition assign_a : AssignVariableOp := assign 4 (OpResult 1 0) (OpResult 3 0).
Definition assign_b : AssignVariableOp := assign 5 (OpResult 2 0) (OpResult 3 0).

Definition shared_init : FuncOp :=
  init_func []
    [[ OpVarHandle (var_handle 1 "a" t1xf32); OpVarHandle (var_handle 2 "b" t1xf32);
       OpConst shared_const;
       OpAssignVariable assign_a; OpAssignVariable assign_b;
       func_return 6 ]]
    7.

(** One handle assigned twice. *)
Definition twice_init : FuncOp :=
  init_func []
    [[ OpVarHandle w1;
       OpConst (const 2 t1xf32 [1%Z]); OpAssignVariable (assign 3 (OpResult 1 0) (OpResult 2 0));
       OpConst (const 4 t1xf32 [5%Z]); OpAssignVariable (assign 5 (OpResult 1 0) (OpResult 4 0));
       func_return 6 ]]
    7.

(** The resource of the assignment is an argument of the function. *)
Definition resource_arg : Argument :=
  {| arg_type := RankedTensorType [] tf_resource; arg_attrs := []; arg_loc := UnknownLoc |}.

Definition assign_arg : AssignVariableOp :=
  assign 2 (BlockArgument EntryBlock 0) (OpResult 1 0).

Definition arg_init : FuncOp :=
  init_func [resource_arg]
    [[ OpConst (const 1 t1xf32 [1%Z]); OpAssignVariable assign_arg; func_return 3 ]]
    4.

Definition arg_module : ModuleOp := [arg_init].

(** The value assigned to a variable handle is an argument of the
    function. *)
Definition value_arg : Argument :=
  {| arg_type := t1xf32; arg_attrs := []; arg_loc := UnknownLoc |}.

Definition value_arg_init : FuncOp :=
  init_func [value_arg]
    [[ OpVarHandle w1;
       OpAssignVariable (assign 2 (OpResult 1 0) (BlockArgument EntryBlock 0));
       func_return 3 ]]
    4.

Definition value_arg_module : ModuleOp := [value_arg_init].

(** A pattern at the top and a pattern inside the region of a
    conditional. *)
Definition nested_if : Operation :=
  OtherOp 7 UnknownLoc "tf.IfRegion" [] []
    [ [[ OpVarHandle (var_handle 4 "inner" t1xf32);
         OpConst (const 5 t1xf32 [9%Z]);
         OpAssignVariable (assign 6 (OpResult 4 0) (OpResult 5 0));
         OtherOp 8 UnknownLoc "tf.Yield" [] [] [] true ]];
      [[ OtherOp 9 UnknownLoc "tf.Yield" [] [] [] true ]] ]
    false.

Definition nested_init : FuncOp :=
  init_func []
    [[ OpVarHandle w1; OpConst (const 2 t1xf32 [1%Z]); OpAssignVariable assign_w1;
       nested_if; func_return 10 ]]
    11.

Definition nested_module : ModuleOp := [nested_init; main_func].

(** No pattern: the value assigned is computed. *)
Definition computed_init : FuncOp :=
  init_func []
    [[ OpVarHandle w1;
       OtherOp 2 UnknownLoc "tf.RandomUniform" [] [t1xf32] [] false;
       OpAssignVariable (assign 3 (OpResult 1 0) (OpResult 2 0));
       func_return 4 ]]
    5.

Definition computed_module : ModuleOp := [computed_init].

(** A pattern whose constant is also read inside a region. *)
Definition nested_reader : Operation :=
  OtherOp 5 UnknownLoc "tf.IfRegion" [] []
    [ [ [ OtherOp 4 UnknownLoc "tf.Identity" [OpResult 2 0] [t1xf32] [] false;
          OtherOp 6 UnknownLoc "tf.Yield" [] [] [] true ] ] ]
    false.

Definition nested_use_init : FuncOp :=
  init_func []
    [[ OpVarHandle w1; OpConst (const 2 t1xf32 [1%Z]); OpAssignVariable assign_w1;
       nested_reader; func_return 7 ]]
    8.

Definition nested_use_module : ModuleOp := [nested_use_init].

(** The variable is created and initialised in a second block. *)
Definition two_block_init : FuncOp :=
  init_func []
    [ [ OtherOp 1 UnknownLoc "cf.br" [] [] [] true ];
      [ OpVarHandle (var_handle 2 "w1" t1xf32); OpConst (const 3 t1xf32 [1%Z]);
        OpAssignVariable (assign 4 (OpResult 2 0) (OpResult 3 0));
        func_return 5 ] ]
    6.

Definition two_block_module : ModuleOp := [two_block_init].

End Examples.
Import Examples.

(* ================================================================== *)
(** ** Facts about the integer conversions *)

Section MachineIntFacts.
Local Open Scope Z_scope.

Lemma to_int_small z : 0 <= z <= INT_MAX -> to_int z = z.
Proof.
  intros H. unfold to_int, INT_MAX in *.
  rewrite Z.mod_small by lia.
  destruct (z <=? 2147483647) eqn:E; [reflexivity|].
  apply Z.leb_gt in E. lia.
Qed.

Lemma to_int64_small z : 0 <= z <= INT_MAX -> to_int64 z = z.
Proof.
  intros H. unfold to_int64, INT_MAX in *.
  rewrite Z.mod_small by lia.
  destruct (z <=? 9223372036854775807) eqn:E; [reflexivity|].
  apply Z.leb_gt in E. lia.
Qed.

Lemma to_unsigned_small z : 0 <= z <= UINT_MAX -> to_unsigned z = z.
Proof.
  intros H. unfold to_unsigned, UINT_MAX in *. apply Z.mod_small. lia.
Qed.

(** An [unsigned] stored in an [int] and read back as [unsigned] is
    unchanged. *)
Lemma to_unsigned_to_int z : to_unsigned (to_int z) = to_unsigned z.
Proof.
  unfold to_unsigned, to_int.
  destruct (z mod 4294967296 <=? INT_MAX).
  - apply Z.mod_mod. lia.
  - replace (z mod 4294967296 - 4294967296)
      with (z mod 4294967296 + (-1) * 4294967296) by lia.
    rewrite Z.mod_add by lia. apply Z.mod_mod. lia.
Qed.

End MachineIntFacts.

(* ================================================================== *)
(** ** Facts about lists *)

Section ListFacts.
Context {A : Type}.

Lemma existsb_eqb_false (x : nat) (l : list nat) :
  existsb (Nat.eqb x) l = false <-> ~ In x l.
Proof.
  induction l as [|y l IH]; simpl.
  - tauto.
  - rewrite orb_false_iff, IH, Nat.eqb_neq. intuition congruence.
Qed.

Lemma nodupb_NoDup (l : list nat) : nodupb l = true -> NoDup l.
Proof.
  induction l as [|x l IH]; simpl; intros H.
  - constructor.
  - apply andb_true_iff in H as [Hx Hl].
    constructor; [|auto].
    apply existsb_eqb_false, negb_true_iff, Hx.
Qed.

Lemma NoDup_nodupb (l : list nat) : NoDup l -> nodupb l = true.
Proof.
  induction 1 as [|x l Hx _ IH]; simpl; [reflexivity|].
  rewrite IH, andb_true_r. apply negb_true_iff, existsb_eqb_false, Hx.
Qed.

Lemma NoDup_map_eq (f : A -> nat) (l : list A) (x y : A) :
  NoDup (map f l) -> In x l -> In y l -> f x = f y -> x = y.
Proof.
  induction l as [|z l IH]; simpl; intros Hnd Hx Hy Hf; [tauto|].
  inversion Hnd as [|? ? Hz Hl]; subst.
  destruct Hx as [->|Hx], Hy as [->|Hy]; auto.
  - exfalso. apply Hz. rewrite Hf. now apply in_map.
  - exfalso. apply Hz. rewrite <- Hf. now apply in_map.
Qed.

Lemma NoDup_map_filter (f : A -> nat) (p : A -> bool) (l : list A) :
  NoDup (map f l) -> NoDup (map f (filter p l)).
Proof.
  induction l as [|z l IH]; simpl; intros Hnd; [constructor|].
  inversion Hnd as [|? ? Hz Hl]; subst.
  destruct (p z); simpl; auto.
  constructor; auto.
  intros Hin. apply Hz.
  apply in_map_iff in Hin as (y & Hy & Hin).
  apply filter_In in Hin as [Hin _].
  rewrite <- Hy. now apply in_map.
Qed.

Lemma find_filter (f p : A -> bool) (l : list A) (d : A) :
  find f l = Some d -> p d = true -> find f (filter p l) = Some d.
Proof.
  induction l as [|x l IH]; simpl; intros Hf Hp; [discriminate|].
  destruct (f x) eqn:Efx.
  - injection Hf as ->. rewrite Hp. simpl. now rewrite Efx.
  - destruct (p x); simpl; [rewrite Efx|]; auto.
Qed.

Lemma find_filter_none (f p : A -> bool) (l : list A) :
  find f l = None -> find f (filter p l) = None.
Proof.
  induction l as [|x l IH]; simpl; intros Hf; [reflexivity|].
  destruct (f x) eqn:Efx; [discriminate|].
  destruct (p x); simpl; [rewrite Efx|]; auto.
Qed.

Lemma filter_filter (p q : A -> bool) (l : list A) :
  filter p (filter q l) = filter (fun x => q x && p x) l.
Proof.
  induction l as [|x l IH]; simpl; [reflexivity|].
  destruct (q x); simpl; [destruct (p x)|]; simpl; now rewrite IH.
Qed.

Lemma filter_all (p : A -> bool) (l : list A) :
  (forall x, In x l -> p x = true) -> filter p l = l.
Proof.
  induction l as [|x l IH]; simpl; intros H; [reflexivity|].
  rewrite (H x) by auto. f_equal. auto.
Qed.

Lemma concat_map_filter (p : A -> bool) (ll : list (list A)) :
  concat (map (filter p) ll) = filter p (concat ll).
Proof.
  induction ll as [|l ll IH]; simpl; [reflexivity|].
  now rewrite filter_app, IH.
Qed.

Lemma sum_map_app (f : A -> nat) (l1 l2 : list A) :
  sum_map f (l1 ++ l2) = sum_map f l1 + sum_map f l2.
Proof. unfold sum_map. now rewrite map_app, list_sum_app. Qed.

Lemma sum_map_filter_le (f : A -> nat) (p : A -> bool) (l : list A) :
  sum_map f (filter p l) <= sum_map f l.
Proof.
  unfold sum_map.
  induction l as [|x l IH]; simpl; [lia|].
  destruct (p x); simpl; lia.
Qed.

Lemma sum_map_filter_eq (f : A -> nat) (p : A -> bool) (l : list A) :
  (forall x, In x l -> p x = false -> f x = 0) ->
  sum_map f (filter p l) = sum_map f l.
Proof.
  unfold sum_map.
  induction l as [|x l IH]; simpl; intros H; [reflexivity|].
  destruct (p x) eqn:E; simpl.
  - rewrite IH; auto.
  - rewrite (H x), IH; auto.
Qed.

Lemma sum_map_in (f : A -> nat) (l : list A) (x : A) :
  In x l -> f x <= sum_map f l.
Proof.
  unfold sum_map.
  induction l as [|y l IH]; simpl; intros H; [tauto|].
  destruct H as [->|H]; [lia|]. specialize (IH H). lia.
Qed.

Lemma NoDup_app_disjoint (l1 l2 : list nat) (x : nat) :
  NoDup (l1 ++ l2) -> In x l1 -> In x l2 -> False.
Proof.
  induction l1 as [|y l1 IH]; simpl; intros Hnd H1 H2; [exact H1|].
  inversion Hnd as [|? ? Hy Hl]; subst.
  destruct H1 as [->|H1]; [|now apply IH].
  apply Hy. apply in_or_app. now right.
Qed.

Lemma nth_error_middle (pre suf : list A) (x : A) :
  nth_error (pre ++ x :: suf) (length pre) = Some x.
Proof. induction pre as [|y pre IH]; simpl; auto. Qed.

Lemma list_max_in (f : A -> nat) (l : list A) (x : A) :
  In x l -> f x <= list_max (map f l).
Proof.
  induction l as [|y l IH]; simpl; intros H; [tauto|].
  destruct H as [->|H]; [lia|]. specialize (IH H). lia.
Qed.

End ListFacts.

(* ================================================================== *)
(** ** Facts about regions *)

Section RegionFacts.

Lemma region_ops_keep (p : Operation -> bool) (r : Region) :
  region_ops (keep_ops p r) = filter p (region_ops r).
Proof. apply concat_map_filter. Qed.

Lemma erase_keep (id : OpId) (r : Region) :
  erase id r = keep_ops (fun o => negb (op_id o =? id)) r.
Proof. reflexivity. Qed.

Lemma keep_keep (p q : Operation -> bool) (r : Region) :
  keep_ops p (keep_ops q r) = keep_ops (fun o => q o && p o) r.
Proof.
  unfold keep_ops. rewrite map_map.
  apply map_ext. intros b. apply filter_filter.
Qed.

Lemma in_region_ops (r : Region) (b : Block) (o : Operation) :
  In b r -> In o b -> In o (region_ops r).
Proof.
  intros Hb Ho. unfold region_ops. apply in_concat. eauto.
Qed.

Lemma keep_ext_in (p q : Operation -> bool) (r : Region) :
  (forall o, In o (region_ops r) -> p o = q o) ->
  keep_ops p r = keep_ops q r.
Proof.
  intros H. unfold keep_ops.
  apply map_ext_in. intros b Hb.
  apply filter_ext_in. intros o Ho.
  apply H. eapply in_region_ops; eauto.
Qed.

Lemma keep_all (p : Operation -> bool) (r : Region) :
  (forall o, In o (region_ops r) -> p o = true) -> keep_ops p r = r.
Proof.
  intros H. unfold keep_ops.
  rewrite <- (map_id r) at 2.
  apply map_ext_in. intros b Hb.
  apply filter_all. intros o Ho. apply H. eapply in_region_ops; eauto.
Qed.

Lemma in_keep (p : Operation -> bool) (r : Region) (o : Operation) :
  In o (region_ops (keep_ops p r)) <-> In o (region_ops r) /\ p o = true.
Proof. rewrite region_ops_keep. apply filter_In. Qed.

Lemma region_uses_keep_le (id : OpId) (p : Operation -> bool) (r : Region) :
  region_uses id (keep_ops p r) <= region_uses id r.
Proof.
  unfold region_uses. rewrite region_ops_keep. apply sum_map_filter_le.
Qed.

Lemma region_uses_keep_eq (id : OpId) (p : Operation -> bool) (r : Region) :
  (forall o, In o (region_ops r) -> p o = false -> op_uses id o = 0) ->
  region_uses id (keep_ops p r) = region_uses id r.
Proof.
  intros H. unfold region_uses. rewrite region_ops_keep.
  now apply sum_map_filter_eq.
Qed.

Lemma region_uses_in (id : OpId) (r : Region) (o : Operation) :
  In o (region_ops r) -> op_uses id o <= region_uses id r.
Proof. apply sum_map_in. Qed.

Lemma getDefiningOp_in (r : Region) (v : Value) (d : Operation) :
  getDefiningOp r v = Some d ->
  In d (region_ops r) /\ exists k, v = OpResult (op_id d) k.
Proof.
  destruct v as [b n|owner k]; simpl; [discriminate|].
  intros H. apply find_some in H as [Hin Hid].
  apply Nat.eqb_eq in Hid. subst. eauto.
Qed.

Lemma getDefiningOp_keep (p : Operation -> bool) (r : Region) (v : Value)
      (d : Operation) :
  getDefiningOp r v = Some d -> p d = true ->
  getDefiningOp (keep_ops p r) v = Some d.
Proof.
  destruct v as [b n|owner k]; simpl; [discriminate|].
  rewrite region_ops_keep. apply find_filter.
Qed.

Lemma in_getOps_AssignVariableOp (r : Region) (a : AssignVariableOp) :
  In a (getOps_AssignVariableOp r) <-> In (OpAssignVariable a) (region_ops r).
Proof.
  unfold getOps_AssignVariableOp. rewrite in_flat_map. split.
  - intros (o & Ho & Ha). destruct o; simpl in Ha; try tauto.
    destruct Ha as [->|[]]. exact Ho.
  - intros H. exists (OpAssignVariable a). simpl. auto.
Qed.

Lemma assign_ids_sub (l : list Operation) :
  map assign_id (flat_map as_AssignVariableOp l)
  = map op_id (filter isAssignVariableOp l).
Proof.
  induction l as [|o l IH]; simpl; [reflexivity|].
  destruct o; simpl; rewrite ?IH; reflexivity.
Qed.

End RegionFacts.

(* ================================================================== *)
(** ** The scan computes [stripped] *)

Section Strip.
Variable r0 : Region.
Hypothesis Hnd : NoDup (map op_id (region_ops r0)).
Hypothesis Hdef :
    forall o v, In o (region_ops r0) -> In v (getOperands o) ->
                operand_defined r0 v = true.

Lemma same_id (o o' : Operation) :
  In o (region_ops r0) -> In o' (region_ops r0) -> op_id o = op_id o' -> o = o'.
Proof. apply NoDup_map_eq, Hnd. Qed.

Lemma assign_ids_NoDup : NoDup (map assign_id (getOps_AssignVariableOp r0)).
Proof.
  unfold getOps_AssignVariableOp. rewrite assign_ids_sub.
  apply NoDup_map_filter, Hnd.
Qed.

Lemma pattern_of_some (a : AssignVariableOp) (h : VarHandleOp) (c : ConstOp) :
  pattern_of r0 a = Some (h, c) ->
  getDefiningOp r0 (assign_resource a) = Some (OpVarHandle h)
  /\ getDefiningOp r0 (assign_value a) = Some (OpConst c).
Proof.
  unfold pattern_of.
  destruct (getDefiningOp r0 (assign_resource a)) as [[]|]; try discriminate.
  destruct (getDefiningOp r0 (assign_value a)) as [[]|]; try discriminate.
  intros H. injection H as -> ->. auto.
Qed.

Lemma op_uses_assign (id : OpId) (a : AssignVariableOp) :
  op_uses id (OpAssignVariable a)
  = (if is_result_of id (assign_resource a) then 1 else 0)
    + (if is_result_of id (assign_value a) then 1 else 0).
Proof.
  simpl. destruct (is_result_of id (assign_resource a)),
           (is_result_of id (assign_value a)); reflexivity.
Qed.

Lemma is_result_of_def (v : Value) (d : Operation) (id : OpId) :
  getDefiningOp r0 v = Some d -> is_result_of id v = (op_id d =? id).
Proof.
  intros H. apply getDefiningOp_in in H as (_ & k & ->). reflexivity.
Qed.

(** A qualifying assignment uses its constant once and no other
    constant. *)
Lemma op_uses_pattern (a : AssignVariableOp) (h : VarHandleOp) (c c' : ConstOp) :
  pattern_of r0 a = Some (h, c) ->
  In (OpConst c') (region_ops r0) ->
  op_uses (const_id c') (OpAssignVariable a)
  = if const_id c =? const_id c' then 1 else 0.
Proof.
  intros Hp Hc'. apply pattern_of_some in Hp as [Hh Hc].
  rewrite op_uses_assign.
  rewrite (is_result_of_def _ _ (const_id c') Hh), (is_result_of_def _ _ (const_id c') Hc). simpl.
  destruct (vh_id h =? const_id c') eqn:E; [|reflexivity].
  apply Nat.eqb_eq in E.
  apply getDefiningOp_in in Hh as [Hh _].
  assert (OpVarHandle h = OpConst c') by (apply same_id; auto).
  discriminate.
Qed.

Section Step.
Variable done : list AssignVariableOp.
Variable a : AssignVariableOp.
Hypothesis Hin : In a (getOps_AssignVariableOp r0).
Hypothesis Hnew : existsb (has_assign_id (assign_id a)) done = false.

Lemma current_assign_kept :
  In (OpAssignVariable a) (region_ops (after_assigns r0 done)).
Proof.
  apply in_keep. split.
  - now apply in_getOps_AssignVariableOp.
  - simpl. now rewrite Hnew.
Qed.

Lemma defs_stable (v : Value) :
  In v (getOperands (OpAssignVariable a)) ->
  getDefiningOp (state_after r0 done) v = getDefiningOp r0 v.
Proof.
  intros Hv.
  assert (Ha : In (OpAssignVariable a) (region_ops r0))
    by now apply in_getOps_AssignVariableOp.
  pose proof (Hdef _ _ Ha Hv) as Hd.
  destruct v as [b n|owner k]; [reflexivity|].
  unfold operand_defined in Hd.
  destruct (getDefiningOp r0 (OpResult owner k)) as [d|] eqn:Ed;
    [|discriminate].
  apply Nat.ltb_lt in Hd.
  pose proof (getDefiningOp_in _ _ _ Ed) as (_ & k' & Ek).
  injection Ek as -> ->.
  unfold state_after, after_assigns.
  apply getDefiningOp_keep; [apply getDefiningOp_keep; [exact Ed|]|].
  - destruct d; simpl in Hd |- *; try reflexivity. lia.
  - destruct d as [| c | | |]; try reflexivity.
    cbn [stripped_const].
    apply negb_true_iff, andb_false_iff. right.
    apply Nat.eqb_neq.
    pose proof (region_uses_in (const_id c) _ _ current_assign_kept) as Hu.
    assert (1 <= op_uses (const_id c) (OpAssignVariable a)); [|lia].
    rewrite op_uses_assign. cbn [op_id] in Hv.
    destruct Hv as [E|[E|[]]]; rewrite E; cbn [is_result_of];
      rewrite Nat.eqb_refl; repeat destruct (is_result_of _ _); lia.
Qed.

Lemma after_assigns_snoc_skip :
  pattern_of r0 a = None ->
  after_assigns r0 (done ++ [a]) = after_assigns r0 done.
Proof.
  intros Hp. apply keep_ext_in. intros o Ho. f_equal.
  destruct o as [| | a' | |]; simpl; try reflexivity.
  rewrite existsb_app. simpl. rewrite orb_false_r.
  unfold has_assign_id at 2.
  destruct (assign_id a =? assign_id a') eqn:E;
    [|now rewrite orb_false_r].
  apply Nat.eqb_eq in E.
  assert (OpAssignVariable a = OpAssignVariable a') as Heq.
  { apply same_id; auto. now apply in_getOps_AssignVariableOp. }
  injection Heq as <-. rewrite Hp. now rewrite !andb_false_r.
Qed.

Lemma after_assigns_snoc (h : VarHandleOp) (c : ConstOp) :
  pattern_of r0 a = Some (h, c) ->
  after_assigns r0 (done ++ [a]) = erase (assign_id a) (after_assigns r0 done).
Proof.
  intros Hp. rewrite erase_keep. unfold after_assigns. rewrite keep_keep.
  apply keep_ext_in. intros o Ho.
  assert (Ha : In (OpAssignVariable a) (region_ops r0))
    by now apply in_getOps_AssignVariableOp.
  destruct (op_id o =? assign_id a) eqn:E.
  - apply Nat.eqb_eq in E.
    assert (o = OpAssignVariable a) as -> by (apply same_id; auto).
    simpl. rewrite existsb_app. simpl. unfold has_assign_id at 2.
    rewrite Nat.eqb_refl, Hp, Hnew. reflexivity.
  - rewrite andb_true_r. f_equal.
    destruct o as [| | a' | |]; simpl in *; try reflexivity.
    rewrite existsb_app. simpl. unfold has_assign_id at 2.
    rewrite Nat.eqb_sym, E. now rewrite !orb_false_r.
Qed.

Lemma state_after_snoc_skip :
  pattern_of r0 a = None ->
  state_after r0 (done ++ [a]) = state_after r0 done.
Proof.
  intros Hp. unfold state_after.
  rewrite (after_assigns_snoc_skip Hp).
  apply keep_ext_in. intros o _. f_equal.
  destruct o as [| c' | | |]; try reflexivity.
  cbn [stripped_const].
  rewrite existsb_app. cbn [existsb].
  unfold consumes at 2. rewrite Hp.
  rewrite (after_assigns_snoc_skip Hp). now rewrite !orb_false_r.
Qed.

Section Qualifying.
Variable h : VarHandleOp.
Variable c : ConstOp.
Hypothesis Hp : pattern_of r0 a = Some (h, c).

Let AA := after_assigns r0 done.
Let AA' := after_assigns r0 (done ++ [a]).

Lemma const_of_pattern_in : In (OpConst c) (region_ops r0).
Proof.
  apply pattern_of_some in Hp as [_ Hc].
  now apply getDefiningOp_in in Hc as [Hc _].
Qed.

Lemma erase_current :
  erase (assign_id a) (state_after r0 done)
  = keep_ops (fun o => negb (stripped_const r0 done o)) AA'.
Proof.
  unfold AA'. rewrite (after_assigns_snoc _ _ Hp).
  unfold state_after. rewrite !erase_keep, !keep_keep.
  apply keep_ext_in. intros o _. apply andb_comm.
Qed.

Lemma uses_after_erase_current (id : OpId) :
  region_uses id (erase (assign_id a) (state_after r0 done))
  = region_uses id AA'.
Proof.
  rewrite erase_current. apply region_uses_keep_eq.
  intros o _ Ho. apply negb_false_iff in Ho.
  destruct o; simpl in Ho; try discriminate. reflexivity.
Qed.

Lemma uses_other_const (c' : ConstOp) :
  In (OpConst c') (region_ops r0) ->
  (const_id c =? const_id c') = false ->
  region_uses (const_id c') AA' = region_uses (const_id c') AA.
Proof.
  intros Hc' Hne. unfold AA'. rewrite (after_assigns_snoc _ _ Hp).
  rewrite erase_keep. apply region_uses_keep_eq.
  intros o Ho Hid. apply negb_false_iff, Nat.eqb_eq in Hid.
  apply in_keep in Ho as [Ho _].
  assert (o = OpAssignVariable a) as ->.
  { apply same_id; auto. now apply in_getOps_AssignVariableOp. }
  rewrite (op_uses_pattern _ _ _ _ Hp Hc'). now rewrite Hne.
Qed.

Lemma uses_le_before (id : OpId) :
  region_uses id AA' <= region_uses id AA.
Proof.
  unfold AA'. rewrite (after_assigns_snoc _ _ Hp), erase_keep.
  apply region_uses_keep_le.
Qed.

Lemma stripped_const_snoc (o : Operation) :
  In o (region_ops r0) ->
  stripped_const r0 (done ++ [a]) o
  = if op_id o =? const_id c
    then region_uses (const_id c) AA' =? 0
    else stripped_const r0 done o.
Proof.
  intros Ho.
  destruct (op_id o =? const_id c) eqn:E.
  - apply Nat.eqb_eq in E.
    assert (o = OpConst c) as ->
        by (apply same_id; auto using const_of_pattern_in).
    cbn [stripped_const]. rewrite existsb_app. cbn [existsb].
    unfold consumes at 2. rewrite Hp, Nat.eqb_refl.
    now rewrite orb_true_l, orb_true_r.
  - destruct o as [| c' | | |]; try reflexivity.
    cbn [stripped_const op_id] in *.
    rewrite existsb_app. cbn [existsb].
    unfold consumes at 2. rewrite Hp, (Nat.eqb_sym (const_id c)), E.
    rewrite !orb_false_r.
    fold AA AA'. rewrite uses_other_const; auto.
    now rewrite Nat.eqb_sym.
Qed.

Lemma state_after_snoc :
  (if use_empty (const_id c) (erase (assign_id a) (state_after r0 done))
   then erase (const_id c) (erase (assign_id a) (state_after r0 done))
   else erase (assign_id a) (state_after r0 done))
  = state_after r0 (done ++ [a]).
Proof.
  unfold use_empty. rewrite uses_after_erase_current.
  rewrite erase_current.
  change (state_after r0 (done ++ [a]))
    with (keep_ops (fun o => negb (stripped_const r0 (done ++ [a]) o)) AA').
  destruct (region_uses (const_id c) AA' =? 0) eqn:U.
  - rewrite erase_keep, keep_keep.
    apply keep_ext_in. intros o Ho.
    apply in_keep in Ho as [Ho _].
    rewrite (stripped_const_snoc _ Ho), U.
    destruct (op_id o =? const_id c); simpl;
      [apply andb_false_r | apply andb_true_r].
  - apply keep_ext_in. intros o Ho.
    apply in_keep in Ho as [Ho _].
    rewrite (stripped_const_snoc _ Ho), U.
    destruct (op_id o =? const_id c) eqn:E; [|reflexivity].
    apply Nat.eqb_eq in E.
    assert (o = OpConst c) as ->
        by (apply same_id; auto using const_of_pattern_in).
    cbn [stripped_const]. fold AA.
    apply Nat.eqb_neq in U. pose proof (uses_le_before (const_id c)).
    replace (region_uses (const_id c) AA =? 0) with false
      by (symmetry; apply Nat.eqb_neq; lia).
    now rewrite andb_false_r.
Qed.

End Qualifying.
End Step.
Hypothesis Hcast : casts_defined r0 = true.

Lemma state_after_nil : state_after r0 [] = r0.
Proof.
  unfold state_after, after_assigns.
  rewrite keep_keep. apply keep_all.
  intros o _. destruct o; reflexivity.
Qed.

Lemma operand_resolves (o : Operation) (v : Value) :
  In o (region_ops r0) -> In v (getOperands o) ->
  is_block_argument v = false ->
  exists d, getDefiningOp r0 v = Some d.
Proof.
  intros Ho Hv Hb. pose proof (Hdef _ _ Ho Hv) as Hd.
  destruct v as [b n|owner k]; [discriminate|].
  unfold operand_defined in Hd.
  destruct (getDefiningOp r0 (OpResult owner k)) as [d|]; [eauto|discriminate].
Qed.

Lemma strip_one_spec (done : list AssignVariableOp) (a : AssignVariableOp)
      (hs : list VarHandleOp) :
  In a (getOps_AssignVariableOp r0) ->
  existsb (has_assign_id (assign_id a)) done = false ->
  strip_one (state_after r0 done, hs) a
  = Ok (state_after r0 (done ++ [a]), hs ++ map pat_handle (as_pattern r0 a)).
Proof.
  intros Hin Hnew.
  assert (Ha : In (OpAssignVariable a) (region_ops r0))
    by now apply in_getOps_AssignVariableOp.
  pose proof Hcast as Hc. unfold casts_defined in Hc.
  rewrite forallb_forall in Hc. specialize (Hc a Hin).
  apply andb_true_iff in Hc as [Hres Hval].
  apply negb_true_iff in Hres.
  destruct (operand_resolves _ (assign_resource a) Ha) as [d Ed];
    [simpl; auto | exact Hres |].
  unfold strip_one.
  rewrite (defs_stable done a Hin Hnew (assign_resource a)) by (simpl; auto).
  rewrite (defs_stable done a Hin Hnew (assign_value a)) by (simpl; auto).
  rewrite Ed in Hval |- *.
  assert (Hskip : pattern_of r0 a = None ->
                  Ok (state_after r0 done, hs)
                  = Ok (state_after r0 (done ++ [a]),
                        hs ++ map pat_handle (as_pattern r0 a))).
  { intros Hp. rewrite (state_after_snoc_skip done a Hin Hp).
    unfold as_pattern. rewrite Hp. simpl. now rewrite app_nil_r. }
  destruct d as [h| | | |]; simpl;
    try (apply Hskip; unfold pattern_of; rewrite Ed; reflexivity).
  apply negb_true_iff in Hval.
  destruct (operand_resolves _ (assign_value a) Ha) as [d' Ed'];
    [simpl; auto | exact Hval |].
  rewrite Ed'.
  destruct d' as [|c| | |]; simpl;
    try (apply Hskip; unfold pattern_of; rewrite Ed, Ed'; reflexivity).
  assert (Hp : pattern_of r0 a = Some (h, c))
    by (unfold pattern_of; rewrite Ed, Ed'; reflexivity).
  rewrite (state_after_snoc done a Hin Hnew h c Hp).
  unfold as_pattern. rewrite Hp. reflexivity.
Qed.

Lemma strip_loop_spec (range : list AssignVariableOp) :
  forall (done : list AssignVariableOp) (hs : list VarHandleOp),
    (forall a, In a range -> In a (getOps_AssignVariableOp r0)) ->
    NoDup (map assign_id (done ++ range)) ->
    strip_loop range (state_after r0 done, hs)
    = Ok (state_after r0 (done ++ range),
          hs ++ map pat_handle (patterns_in r0 range)).
Proof.
  induction range as [|a rest IH]; intros done hs Hsub Hnd'.
  - simpl. now rewrite !app_nil_r.
  - cbn [strip_loop].
    rewrite strip_one_spec.
    + cbn [bind]. rewrite IH.
      * rewrite <- !app_assoc. cbn [app patterns_in flat_map].
        unfold patterns_in. now rewrite map_app.
      * intros a' Ha'. apply Hsub. now right.
      * now rewrite <- app_assoc.
    + apply Hsub. now left.
    + rewrite map_app in Hnd'. cbn [map] in Hnd'.
      apply NoDup_remove_2 in Hnd'.
      destruct (existsb (has_assign_id (assign_id a)) done) eqn:E; [|reflexivity].
      exfalso. apply Hnd'. apply in_or_app. left.
      apply existsb_exists in E as (a' & Ha' & E).
      apply Nat.eqb_eq in E. rewrite <- E. now apply in_map.
Qed.

(** The scan returns: it leaves the body [stripped r0] and collects the
    handles of the qualifying patterns, in order. *)
Lemma strip_spec :
  strip_loop (getOps_AssignVariableOp r0) (r0, [])
  = Ok (stripped r0, map pat_handle (patterns r0)).
Proof.
  rewrite <- state_after_nil at 2.
  rewrite strip_loop_spec; auto.
  simpl. apply assign_ids_NoDup.
Qed.

End Strip.



(* ================================================================== *)
(** ** [CreateRestoreV2Op] builds [with_restore] *)

Section Creation.
Variable t : Operation.
Variable others : list Block.

Let builder := {| ip_block := 0; ip_before := op_id t |}.

Lemma insert_before_terminator (x : Operation) (l : Block) :
  away_from_terminator t l ->
  insert_before (op_id t) x (l ++ [t]) = l ++ [x; t].
Proof.
  induction 1 as [|o l Ho _ IH]; simpl.
  - now rewrite Nat.eqb_refl.
  - apply Nat.eqb_neq in Ho. now rewrite Ho, IH.
Qed.

Lemma away_snoc (l : Block) (x : Operation) :
  away_from_terminator t l -> op_id x <> op_id t ->
  away_from_terminator t (l ++ [x]).
Proof.
  intros Hl Hx. apply Forall_app. split; [exact Hl|].
  constructor; [exact Hx|constructor].
Qed.

Lemma create_spec {OpTy : Type} (as_op : OpTy -> Operation)
      (make : OpId -> OpTy) (f : FuncOp) (l : Block) :
  getBody f = (l ++ [t]) :: others ->
  away_from_terminator t l ->
  create as_op builder make f
  = ({| sym_name := sym_name f;
        func_loc := func_loc f;
        func_arguments := func_arguments f;
        func_result_types := func_result_types f;
        func_attrs := func_attrs f;
        getBody := ((l ++ [as_op (make (next_op_id f))]) ++ [t]) :: others;
        next_op_id := S (next_op_id f) |},
     make (next_op_id f)).
Proof.
  intros Hb Hl. unfold create. rewrite Hb. simpl.
  rewrite insert_before_terminator by exact Hl.
  now rewrite <- app_assoc.
Qed.

Lemma assign_results_spec (rid : OpId) (loc : Location) (suf : list VarHandleOp) :
  forall (pre : list VarHandleOp) (f : FuncOp) (l : Block),
    getBody f = (l ++ [t]) :: others ->
    away_from_terminator t l ->
    op_id t < next_op_id f ->
    assign_results builder loc (pre ++ suf)
      (combine (seq (length pre) (length suf))
               (map (OpResult rid) (seq (length pre) (length suf)))) f
    = Ok {| sym_name := sym_name f;
            func_loc := func_loc f;
            func_arguments := func_arguments f;
            func_result_types := func_result_types f;
            func_attrs := func_attrs f;
            getBody :=
              ((l ++ map OpAssignVariable
                       (new_assigns_from rid loc (next_op_id f) (length pre) suf))
               ++ [t]) :: others;
            next_op_id := next_op_id f + length suf |}.
Proof.
  induction suf as [|h suf IH]; intros pre f l Hb Hl Ht.
  - simpl. rewrite app_nil_r, Nat.add_0_r, <- Hb. now destruct f.
  - cbn [length seq map combine assign_results].
    rewrite nth_error_middle.
    erewrite create_spec by eassumption.
    replace (pre ++ h :: suf) with ((pre ++ [h]) ++ suf)
      by now rewrite <- app_assoc.
    replace (S (length pre)) with (length (pre ++ [h]))
      by (rewrite length_app; simpl; lia).
    erewrite (IH _ _ (l ++ [_]));
      cbn [getBody next_op_id sym_name func_loc func_arguments
           func_result_types func_attrs]; [| reflexivity | |].
    + f_equal. f_equal; [|lia].
      cbn [new_assigns_from map].
      rewrite length_app, Nat.add_1_r. cbn [length].
      now rewrite <- !app_assoc.
    + apply away_snoc; [exact Hl|]. simpl. lia.
    + lia.
Qed.

Lemma getTerminator_snoc (init : Block) :
  isTerminator t = true -> getTerminator (init ++ [t]) = Ok t.
Proof.
  intros Ht. unfold getTerminator. rewrite rev_app_distr. simpl. now rewrite Ht.
Qed.

Lemma InsertFilePrefixArgument_spec (f : FuncOp) (b : OpBuilder) :
  (Z.of_nat (length (func_arguments f)) <= UINT_MAX)%Z ->
  InsertFilePrefixArgument f b
  = Ok (setArguments f (func_arguments f ++ [file_prefix_argument]),
        BlockArgument EntryBlock (length (func_arguments f))).
Proof.
  intros Hn. unfold InsertFilePrefixArgument, getNumArguments.
  rewrite to_unsigned_to_int.
  rewrite !to_unsigned_small
    by (try rewrite to_unsigned_small; split; try exact Hn; apply Nat2Z.is_nonneg).
  unfold insertArgument, getArgument.
  rewrite Nat2Z.id.
  replace (Z.of_nat (length (func_arguments f)) <? 0)%Z with false
    by (symmetry; apply Z.ltb_ge, Nat2Z.is_nonneg).
  rewrite Nat.ltb_irrefl. cbn [orb bind].
  rewrite firstn_all, skipn_all. cbn [setArguments func_arguments].
  rewrite length_app. cbn [length].
  replace (length (func_arguments f) + 1 <=? length (func_arguments f)) with false
    by (symmetry; apply Nat.leb_gt; lia).
  reflexivity.
Qed.

(** [CreateRestoreV2Op] returns, and what it returns is [with_restore]. *)
Lemma CreateRestoreV2Op_spec (hs : list VarHandleOp) (f : FuncOp) (init : Block) :
  getBody f = (init ++ [t]) :: others ->
  isTerminator t = true ->
  away_from_terminator t init ->
  op_id t < next_op_id f ->
  (Z.of_nat (length (func_arguments f)) <= UINT_MAX)%Z ->
  (Z.of_nat (length hs) <= INT_MAX)%Z ->
  CreateRestoreV2Op hs f = Ok (with_restore f init t others hs).
Proof.
  intros Hb Ht Hl Hlt Hargs Hn.
  unfold CreateRestoreV2Op.
  unfold atBlockTerminator_front. rewrite Hb.
  rewrite (getTerminator_snoc init Ht). cbn [bind].
  rewrite (InsertFilePrefixArgument_spec f _ Hargs). cbn [bind].
  unfold CreateTensorNamesConst, CreateShapeAndSlicesConst, Create1DStringConst.
  fold builder.
  erewrite create_spec; [| exact Hb | exact Hl].
  rewrite length_map.
  rewrite to_int_small, to_int64_small by (split; [apply Nat2Z.is_nonneg | exact Hn]).
  unfold filled_vector.
  replace (Z.of_nat (length hs) <? 0)%Z with false
    by (symmetry; apply Z.ltb_ge, Nat2Z.is_nonneg).
  cbn [bind]. rewrite Nat2Z.id.
  erewrite create_spec;
    [| cbn [getBody]; reflexivity
     | apply away_snoc; [exact Hl | simpl; lia]].
  rewrite repeat_length.
  rewrite to_int64_small by (split; [apply Nat2Z.is_nonneg | exact Hn]).
  erewrite create_spec;
    [| cbn [getBody]; reflexivity
     | repeat apply away_snoc; try exact Hl; simpl; lia].
  cbn [restore_loc func_loc setArguments next_op_id const_id
       sym_name func_arguments func_result_types func_attrs getBody].
  unfold enumerate, getResults. cbn [restore_id restore_tensors].
  rewrite !length_map, length_seq.
  erewrite (assign_results_spec _ _ hs []);
    cbn [getBody next_op_id sym_name func_loc func_arguments
         func_result_types func_attrs length];
    [| reflexivity
     | repeat apply away_snoc; try exact Hl; simpl; lia
     | lia].
  unfold with_restore, new_ops, new_assigns, new_restore, new_tensor_names,
    new_shape_and_slices, string_const.
  rewrite length_map, repeat_length.
  f_equal. f_equal; [|lia].
  f_equal. rewrite <- !app_assoc. reflexivity.
Qed.

End Creation.

(* ================================================================== *)
(** ** The pass as a whole *)

Section ModuleFacts.
Context {A : Type}.

Lemma find_indexed_some (p : A -> bool) (l : list A) (i : nat) (x : A) :
  find_indexed p l = Some (i, x) -> nth_error l i = Some x /\ p x = true.
Proof.
  revert i. induction l as [|y l IH]; simpl; intros i H; [discriminate|].
  destruct (p y) eqn:E.
  - injection H as <- <-. auto.
  - destruct (find_indexed p l) as [[j z]|]; [|discriminate].
    injection H as <- <-. simpl. auto.
Qed.

Lemma find_indexed_none (p : A -> bool) (l : list A) :
  find_indexed p l = None <-> forall x, In x l -> p x = false.
Proof.
  induction l as [|y l IH]; simpl.
  - split; [intros _ x []|reflexivity].
  - destruct (p y) eqn:E.
    + split; [discriminate|]. intros H. rewrite (H y) in E by auto. discriminate.
    + destruct (find_indexed p l) as [[j z]|].
      * split; [discriminate|]. intros H.
        assert (Some (j, z) = None) by (apply IH; intros x Hx; apply H; auto).
        discriminate.
      * split; [|reflexivity]. intros _ x [<-|Hx]; [exact E|].
        apply IH; auto.
Qed.

Lemma replace_nth_same (l : list A) (i : nat) (x : A) :
  nth_error l i = Some x -> replace_nth i x l = l.
Proof.
  revert i. induction l as [|y l IH]; intros [|i]; simpl; intros H;
    try discriminate.
  - now injection H as ->.
  - now rewrite IH.
Qed.

Lemma nth_error_replace_nth_other (l : list A) (i j : nat) (x : A) :
  i <> j -> nth_error (replace_nth i x l) j = nth_error l j.
Proof.
  revert i j. induction l as [|y l IH]; intros [|i] [|j] H; simpl; auto.
  congruence.
Qed.

Lemma nth_error_replace_nth_same (l : list A) (i : nat) (x y : A) :
  nth_error l i = Some y -> nth_error (replace_nth i x l) i = Some x.
Proof.
  revert i. induction l as [|z l IH]; intros [|i]; simpl; intros H;
    try discriminate; auto.
Qed.

Lemma length_replace_nth (l : list A) (i : nat) (x : A) :
  length (replace_nth i x l) = length l.
Proof.
  revert i. induction l as [|z l IH]; intros [|i]; simpl; auto.
Qed.

End ModuleFacts.

Lemma setBody_same (f : FuncOp) : setBody f (getBody f) = f.
Proof. now destruct f. Qed.

Section Preconditions.
Variable f : FuncOp.
Hypothesis Hver : verified f = true.

Let r0 := getBody f.

Lemma verified_NoDup : NoDup (map op_id (region_ops r0)).
Proof.
  unfold verified, verified_body in Hver.
  repeat (apply andb_true_iff in Hver as [Hver ?]).
  now apply nodupb_NoDup.
Qed.

Lemma verified_defined (o : Operation) (v : Value) :
  In o (region_ops r0) -> In v (getOperands o) -> operand_defined r0 v = true.
Proof.
  unfold verified, verified_body in Hver.
  repeat (apply andb_true_iff in Hver as [Hver ?]).
  intros Ho Hv.
  match goal with H : forallb _ (region_ops _) = true |- _ =>
    rewrite forallb_forall in H; specialize (H o Ho);
    rewrite forallb_forall in H; exact (H v Hv) end.
Qed.

Lemma verified_terminated (b : Block) :
  In b r0 -> exists init t, b = init ++ [t] /\ isTerminator t = true.
Proof.
  unfold verified, verified_body in Hver.
  repeat (apply andb_true_iff in Hver as [Hver ?]).
  intros Hb.
  match goal with H : forallb block_terminated _ = true |- _ =>
    rewrite forallb_forall in H; specialize (H b Hb) end.
  unfold block_terminated in *.
  destruct (rev b) as [|t rinit] eqn:E; [discriminate|].
  exists (rev rinit), t. split; [|assumption].
  rewrite <- (rev_involutive b), E. reflexivity.
Qed.

Lemma verified_below_mark (o : Operation) :
  In o (region_ops r0) -> op_id o < next_op_id f.
Proof.
  unfold verified in Hver. apply andb_true_iff in Hver as [_ Hm].
  apply Nat.ltb_lt in Hm. intros Ho.
  pose proof (list_max_in op_max_id _ _ Ho) as Hle.
  fold (region_max_id r0) in Hle.
  assert (op_id o <= op_max_id o); [|unfold r0 in *; lia].
  destruct o; simpl; lia.
Qed.

Hypothesis Hcast : casts_defined r0 = true.

Lemma RemoveAssignVariableOpsAndConstOps_spec :
  RemoveAssignVariableOpsAndConstOps f
  = Ok (setBody f (stripped r0), collected r0).
Proof.
  unfold RemoveAssignVariableOpsAndConstOps. fold r0.
  rewrite (strip_spec r0 verified_NoDup verified_defined Hcast).
  reflexivity.
Qed.

Lemma no_patterns (a : AssignVariableOp) :
  patterns r0 = [] -> In a (getOps_AssignVariableOp r0) -> pattern_of r0 a = None.
Proof.
  unfold patterns, patterns_in. intros Hp Ha.
  destruct (pattern_of r0 a) as [[h c]|] eqn:E; [|reflexivity].
  exfalso.
  assert (Hin : In {| pat_assign := a; pat_handle := h; pat_const := c |}
                   (flat_map (as_pattern r0) (getOps_AssignVariableOp r0))).
  { apply in_flat_map. exists a. split; [exact Ha|].
    unfold as_pattern. rewrite E. now left. }
  rewrite Hp in Hin. exact Hin.
Qed.

Lemma no_patterns_stripped : patterns r0 = [] -> stripped r0 = r0.
Proof.
  intros Hp. unfold stripped, state_after, after_assigns.
  rewrite keep_keep. apply keep_all. intros o Ho.
  apply andb_true_iff. split; apply negb_true_iff.
  - destruct o as [| | a | |]; try reflexivity.
    cbn [stripped_assign].
    rewrite (no_patterns a Hp) by now apply in_getOps_AssignVariableOp.
    apply andb_false_r.
  - destruct o as [| c | | |]; try reflexivity.
    cbn [stripped_const].
    apply andb_false_iff. left.
    destruct (existsb _ _) eqn:E; [|reflexivity].
    apply existsb_exists in E as (a & Ha & E).
    unfold consumes in E. rewrite (no_patterns a Hp Ha) in E. discriminate.
Qed.

Lemma stripped_kept : stripped r0 = keep_ops (kept f) r0.
Proof. unfold stripped, state_after, after_assigns. apply keep_keep. Qed.

Lemma terminator_kept (t : Operation) : isTerminator t = true -> kept f t = true.
Proof. destruct t; simpl; try discriminate. reflexivity. Qed.

Hypothesis Hlim : within_limits f = true.

Lemma CreateRestoreV2Op_stripped :
  patterns r0 <> [] ->
  CreateRestoreV2Op (collected r0) (setBody f (stripped r0)) = Ok (transformed f).
Proof.
  intros Hp.
  destruct r0 as [|front others] eqn:Er.
  { exfalso. apply Hp. reflexivity. }
  destruct (verified_terminated front) as (init & t & -> & Ht).
  { rewrite Er. now left. }
  unfold transformed. fold r0. rewrite Er, <- Er at 1.
  rewrite <- Er, stripped_kept, Er.
  cbn [setBody getBody keep_ops map].
  rewrite filter_app. cbn [filter]. rewrite (terminator_kept t Ht).
  rewrite rev_app_distr. cbn [rev app]. rewrite rev_involutive.
  unfold within_limits in Hlim. apply andb_true_iff in Hlim as [Hargs Hn].
  apply Z.leb_le in Hargs, Hn. fold r0 in Hn.
  apply CreateRestoreV2Op_spec; cbn [getBody next_op_id func_arguments setBody];
    try assumption.
  - reflexivity.
  - pose proof verified_NoDup as Hnd. rewrite Er in Hnd.
    unfold region_ops in Hnd. cbn [concat] in Hnd.
    rewrite <- app_assoc, map_app in Hnd. cbn [app map] in Hnd.
    apply NoDup_remove_2 in Hnd.
    apply Forall_forall. intros o Ho Hid.
    apply filter_In in Ho as [Ho _].
    apply Hnd. apply in_or_app. left. rewrite <- Hid. now apply in_map.
  - apply verified_below_mark. rewrite Er.
    unfold region_ops. cbn [concat]. apply in_or_app. left.
    apply in_or_app. right. now left.
  - unfold collected. now rewrite length_map, <- Er.
Qed.

End Preconditions.

(** The pass returns on an admissible module; the initializer function is
    replaced by [transformed] when there are patterns and left as it is
    otherwise. *)
Lemma runOnOperation_spec (m : ModuleOp) (fn : nat) (f : FuncOp) :
  GetInitializerFunction m kTfSavedModelInitializerRestoreType = Some (fn, f) ->
  verified f = true ->
  casts_defined (getBody f) = true ->
  within_limits f = true ->
  runOnOperation m
  = Ok (match patterns (getBody f) with
        | [] => m
        | _ :: _ => replace_nth fn (transformed f) m
        end).
Proof.
  intros Hget Hver Hcast Hlim.
  unfold runOnOperation. rewrite Hget.
  rewrite (RemoveAssignVariableOpsAndConstOps_spec f Hver Hcast). cbn [bind].
  apply find_indexed_some in Hget as [Hnth _].
  unfold collected at 1.
  destruct (patterns (getBody f)) as [|p ps] eqn:Ep.
  - cbn [map]. rewrite (no_patterns_stripped f Ep), setBody_same.
    now rewrite replace_nth_same.
  - cbn [map].
    rewrite (CreateRestoreV2Op_stripped f Hver Hcast Hlim) by (rewrite Ep; discriminate).
    reflexivity.
Qed.

(* ================================================================== *)
(** ** The shape of the transformed function *)

Lemma new_assigns_from_length (rid : OpId) (loc : Location) (hs : list VarHandleOp) :
  forall id i, length (new_assigns_from rid loc id i hs) = length hs.
Proof. induction hs as [|h hs IH]; intros id i; simpl; auto. Qed.

Lemma new_assigns_from_ids (rid : OpId) (loc : Location) (hs : list VarHandleOp) :
  forall id i a, In a (new_assigns_from rid loc id i hs) -> id <= assign_id a.
Proof.
  induction hs as [|h hs IH]; intros id i a; simpl; [tauto|].
  intros [<-|H]; simpl; [lia|]. apply IH in H. lia.
Qed.

Lemma new_assigns_from_nth (rid : OpId) (loc : Location) (hs : list VarHandleOp) :
  forall id i k h,
    nth_error hs k = Some h ->
    nth_error (new_assigns_from rid loc id i hs) k
    = Some {| assign_id := id + k;
              assign_loc := loc;
              assign_resource := result_of (vh_id h);
              assign_value := OpResult rid (i + k) |}.
Proof.
  induction hs as [|h0 hs IH]; intros id i [|k] h; simpl; try discriminate.
  - intros H. injection H as ->. now rewrite !Nat.add_0_r.
  - intros H. rewrite (IH (S id) (S i) k h H).
    now rewrite <- !plus_n_Sm.
Qed.

Lemma new_ops_ids (id0 : OpId) (loc : Location) (n : nat) (hs : list VarHandleOp)
      (o : Operation) :
  In o (new_ops id0 loc n hs) -> id0 <= op_id o.
Proof.
  unfold new_ops. intros [<-|[<-|[<-|H]]]; simpl; try lia.
  apply in_map_iff in H as (a & <- & Ha).
  apply new_assigns_from_ids in Ha. simpl. lia.
Qed.

Lemma new_ops_restore (id0 : OpId) (loc : Location) (n : nat) (hs : list VarHandleOp) :
  filter isRestoreV2Op (new_ops id0 loc n hs)
  = [OpRestoreV2 (new_restore id0 loc n hs)].
Proof.
  unfold new_ops. cbn [filter isRestoreV2Op]. f_equal.
  induction (new_assigns id0 loc hs) as [|a l IH]; simpl; auto.
Qed.

Lemma new_ops_assigns (id0 : OpId) (loc : Location) (n : nat) (hs : list VarHandleOp) :
  filter isAssignVariableOp (new_ops id0 loc n hs)
  = map OpAssignVariable (new_assigns id0 loc hs).
Proof.
  unfold new_ops. cbn [filter isAssignVariableOp].
  induction (new_assigns id0 loc hs) as [|a l IH]; simpl; [reflexivity|].
  now rewrite IH.
Qed.

Section Transformed.
Variable f : FuncOp.
Hypothesis Hver : verified f = true.
Hypothesis Hpat : patterns (getBody f) <> [].

Let r0 := getBody f.

Lemma transformed_eq :
  exists init t others,
    r0 = (init ++ [t]) :: others
    /\ isTerminator t = true
    /\ stripped r0 = (filter (kept f) init ++ [t]) :: map (filter (kept f)) others
    /\ transformed f
       = with_restore (setBody f (stripped r0)) (filter (kept f) init) t
                      (map (filter (kept f)) others) (collected r0).
Proof.
  destruct r0 as [|front others] eqn:Er.
  { exfalso. apply Hpat. fold r0. rewrite Er. reflexivity. }
  destruct (verified_terminated f Hver front) as (init & t & -> & Ht).
  { fold r0. rewrite Er. now left. }
  exists init, t, others. split; [reflexivity|]. split; [exact Ht|].
  assert (Hs : stripped r0
               = (filter (kept f) init ++ [t]) :: map (filter (kept f)) others).
  { unfold r0. rewrite stripped_kept. fold r0. rewrite Er.
    cbn [keep_ops map]. rewrite filter_app. cbn [filter].
    now rewrite (terminator_kept f t Ht). }
  rewrite <- Er. split; [exact Hs|].
  unfold transformed. fold r0. cbn [setBody getBody]. rewrite Hs.
  rewrite rev_app_distr. cbn [rev app]. now rewrite rev_involutive.
Qed.

Lemma transformed_ops :
  exists l1 l2,
    region_ops (stripped r0) = l1 ++ l2
    /\ region_ops (getBody (transformed f))
       = l1 ++ new_ops (next_op_id f) (func_loc f) (length (func_arguments f))
                       (collected r0) ++ l2.
Proof.
  destruct transformed_eq as (init & t & others & _ & _ & Hs & ->).
  exists (filter (kept f) init), (t :: concat (map (filter (kept f)) others)).
  rewrite Hs. unfold region_ops, with_restore. cbn [getBody concat setBody
    next_op_id func_loc func_arguments].
  rewrite <- !app_assoc. split; reflexivity.
Qed.

Lemma stripped_below_mark (o : Operation) :
  In o (region_ops (stripped r0)) -> op_id o < next_op_id f.
Proof.
  unfold r0. rewrite stripped_kept. intros Ho. apply in_keep in Ho as [Ho _].
  now apply verified_below_mark.
Qed.

Lemma created_transformed :
  created f (transformed f)
  = new_ops (next_op_id f) (func_loc f) (length (func_arguments f)) (collected r0).
Proof.
  destruct transformed_ops as (l1 & l2 & Hs & Ht).
  unfold created. rewrite Ht, !filter_app.
  assert (Hold : forall l, (forall o, In o l -> In o (region_ops (stripped r0))) ->
                           filter (fun o => next_op_id f <=? op_id o) l = []).
  { intros l Hl. induction l as [|o l IH]; [reflexivity|]. simpl.
    replace (next_op_id f <=? op_id o) with false.
    - apply IH. intros o' Ho'. apply Hl. now right.
    - symmetry. apply Nat.leb_gt, stripped_below_mark, Hl. now left. }
  rewrite (Hold l1), (Hold l2); rewrite ?Hs; auto using in_or_app.
  rewrite app_nil_r. cbn [app].
  apply filter_all. intros o Ho. apply Nat.leb_le. eapply new_ops_ids, Ho.
Qed.

Lemma in_transformed (o : Operation) :
  In o (region_ops (getBody (transformed f)))
  <-> In o (region_ops (stripped r0))
      \/ In o (new_ops (next_op_id f) (func_loc f) (length (func_arguments f))
                       (collected r0)).
Proof.
  destruct transformed_ops as (l1 & l2 & Hs & Ht).
  rewrite Ht, Hs, !in_app_iff. tauto.
Qed.

End Transformed.

(* ================================================================== *)
(** ** What the scan removes and what it leaves *)

Section Removed.
Variable f : FuncOp.
Hypothesis Hver : verified f = true.

Let r0 := getBody f.

Lemma in_patterns (p : Pattern) :
  In p (patterns r0)
  <-> In (pat_assign p) (getOps_AssignVariableOp r0)
      /\ pattern_of r0 (pat_assign p) = Some (pat_handle p, pat_const p).
Proof.
  unfold patterns, patterns_in. rewrite in_flat_map. split.
  - intros (a & Ha & Hp). unfold as_pattern in Hp.
    destruct (pattern_of r0 a) as [[h c]|] eqn:E; [|destruct Hp].
    destruct Hp as [<-|[]]. simpl. auto.
  - intros [Ha Hp]. exists (pat_assign p). split; [exact Ha|].
    unfold as_pattern. rewrite Hp. left. now destruct p.
Qed.

Lemma in_assigns_existsb (a : AssignVariableOp) :
  In a (getOps_AssignVariableOp r0) ->
  existsb (has_assign_id (assign_id a)) (getOps_AssignVariableOp r0) = true.
Proof.
  intros Ha. apply existsb_exists. exists a. split; [exact Ha|].
  apply Nat.eqb_refl.
Qed.

Lemma id_in_stripped (o : Operation) :
  In o (region_ops r0) ->
  In (op_id o) (map op_id (region_ops (stripped r0))) <-> kept f o = true.
Proof.
  intros Ho. unfold r0. rewrite stripped_kept. fold r0. split.
  - intros Hin. apply in_map_iff in Hin as (o' & Hid & Ho').
    apply in_keep in Ho' as [Ho' Hk].
    assert (o' = o) as <-; [|exact Hk].
    eapply NoDup_map_eq; eauto using verified_NoDup.
  - intros Hk. apply in_map. apply in_keep. auto.
Qed.

(** A qualifying assignment is gone after the scan. *)
Lemma pattern_assign_stripped (p : Pattern) :
  In p (patterns r0) ->
  ~ In (assign_id (pat_assign p)) (map op_id (region_ops (stripped r0))).
Proof.
  intros Hp Hin. apply in_patterns in Hp as [Ha Hp].
  change (assign_id (pat_assign p)) with (op_id (OpAssignVariable (pat_assign p))) in Hin.
  apply id_in_stripped in Hin; [|now apply in_getOps_AssignVariableOp].
  unfold kept in Hin. cbn [stripped_assign] in Hin.
  fold r0 in Hin. rewrite (in_assigns_existsb _ Ha), Hp in Hin. discriminate.
Qed.

(** The constant of a qualifying pattern is left by the scan exactly when
    it has a use once the qualifying assignments are gone. *)
Lemma pattern_const_stripped (p : Pattern) :
  In p (patterns r0) ->
  In (const_id (pat_const p)) (map op_id (region_ops (stripped r0)))
  <-> region_uses (const_id (pat_const p)) (without_patterns r0) <> 0.
Proof.
  intros Hp. apply in_patterns in Hp as [Ha Hp].
  pose proof (const_of_pattern_in r0 _ _ _ Hp) as Hc.
  change (const_id (pat_const p)) with (op_id (OpConst (pat_const p))) at 1.
  rewrite (id_in_stripped _ Hc).
  unfold kept. cbn [stripped_assign stripped_const negb andb].
  fold r0. fold (without_patterns r0).
  assert (He : existsb (consumes r0 (const_id (pat_const p)))
                       (getOps_AssignVariableOp r0) = true).
  { apply existsb_exists. exists (pat_assign p). split; [exact Ha|].
    unfold consumes. rewrite Hp. apply Nat.eqb_refl. }
  rewrite He. cbn [andb].
  rewrite negb_true_iff, Nat.eqb_neq. tauto.
Qed.

(** Operations that are neither an assignment nor a constant stay, with
    their regions. *)
Lemma other_ops_stripped (o : Operation) :
  In o (region_ops r0) ->
  isAssignVariableOp o = false -> isConstOp o = false ->
  In o (region_ops (stripped r0)).
Proof.
  intros Ho Ha Hc. unfold r0. rewrite stripped_kept. apply in_keep.
  split; [exact Ho|]. destruct o; simpl in *; try discriminate; reflexivity.
Qed.

End Removed.

(* ================================================================== *)
(** ** Properties of the pass, C1 to C10 *)

Lemma getTerminator_app (l1 l2 : Block) :
  l2 <> [] -> getTerminator (l1 ++ l2) = getTerminator l2.
Proof.
  intros H. unfold getTerminator. rewrite rev_app_distr.
  destruct (rev l2) as [|x l] eqn:E; [|reflexivity].
  exfalso. apply H. rewrite <- (rev_involutive l2), E. reflexivity.
Qed.

(** C1.  For every module whose "restore_op" initializer function holds
    N >= 1 qualifying [AssignVariableOp(VarHandleOp, ConstOp)] patterns, the
    pass returns and leaves that function with one more argument, appended
    last, of scalar string type and tagged "file_prefix"; among the
    operations it created there is exactly one [RestoreV2Op], with N
    results, and exactly N [AssignVariableOp]s; every qualifying
    [AssignVariableOp] of the input is gone, and the [ConstOp] of a pattern
    is gone exactly when no use of it is left once the qualifying
    assignments are removed.  The input is a verified function within the
    integer ranges of the pass, none of whose scanned operands is a block
    argument. *)
Theorem C1_restore_replaces_patterns (m : ModuleOp) (fn : nat) (f : FuncOp) :
  GetInitializerFunction m kTfSavedModelInitializerRestoreType = Some (fn, f) ->
  verified f = true ->
  casts_defined (getBody f) = true ->
  within_limits f = true ->
  1 <= length (patterns (getBody f)) ->
  exists (f' : FuncOp) (restore_op : RestoreV2Op),
    runOnOperation m = Ok (replace_nth fn f' m)
    /\ func_arguments f'
       = func_arguments f
         ++ [{| arg_type := RankedTensorType [] tf_string;
                arg_attrs := [(kTfSavedModelIndexPathAttr,
                               ArrayAttr [StringAttr "file_prefix"])];
                arg_loc := NameLoc "file_prefix" |}]
    /\ filter isRestoreV2Op (created f f') = [OpRestoreV2 restore_op]
    /\ length (restore_tensors restore_op) = length (patterns (getBody f))
    /\ length (filter isAssignVariableOp (created f f'))
       = length (patterns (getBody f))
    /\ (forall p, In p (patterns (getBody f)) ->
          ~ In (assign_id (pat_assign p)) (map op_id (region_ops (getBody f'))))
    /\ (forall p, In p (patterns (getBody f)) ->
          In (const_id (pat_const p)) (map op_id (region_ops (getBody f')))
          <-> region_uses (const_id (pat_const p)) (without_patterns (getBody f)) <> 0).
Proof.
  intros Hget Hver Hcast Hlim Hn.
  assert (Hpat : patterns (getBody f) <> [])
    by (intros E; rewrite E in Hn; simpl in Hn; lia).
  exists (transformed f),
    (new_restore (next_op_id f) (func_loc f) (length (func_arguments f))
                 (collected (getBody f))).
  assert (Hold : forall id,
             id < next_op_id f ->
             In id (map op_id (region_ops (getBody (transformed f))))
             <-> In id (map op_id (region_ops (stripped (getBody f))))).
  { intros id Hid. rewrite !in_map_iff. split.
    - intros (o & <- & Ho). apply (in_transformed f Hver Hpat) in Ho as [Ho|Ho].
      + eauto.
      + apply new_ops_ids in Ho. lia.
    - intros (o & <- & Ho). exists o. split; [reflexivity|].
      apply (in_transformed f Hver Hpat). now left. }
  split; [|split; [|split; [|split; [|split; [|split]]]]].
  - rewrite (runOnOperation_spec m fn f Hget Hver Hcast Hlim).
    destruct (patterns (getBody f)); [contradiction|reflexivity].
  - destruct (transformed_eq f Hver Hpat) as (init & t & others & _ & _ & _ & ->).
    reflexivity.
  - rewrite (created_transformed f Hver Hpat). apply new_ops_restore.
  - unfold new_restore, collected. cbn [restore_tensors]. now rewrite !length_map.
  - rewrite (created_transformed f Hver Hpat), new_ops_assigns, length_map.
    unfold new_assigns, collected.
    now rewrite new_assigns_from_length, length_map.
  - intros p Hp Hin.
    assert (Hlt : assign_id (pat_assign p) < next_op_id f).
    { apply (verified_below_mark f Hver (OpAssignVariable (pat_assign p))).
      apply in_getOps_AssignVariableOp. now apply (in_patterns f). }
    apply (Hold _ Hlt) in Hin.
    exact (pattern_assign_stripped f Hver p Hp Hin).
  - intros p Hp.
    assert (Hlt : const_id (pat_const p) < next_op_id f).
    { apply (verified_below_mark f Hver (OpConst (pat_const p))).
      apply (in_patterns f) in Hp as [_ Hp].
      exact (const_of_pattern_in _ _ _ _ Hp). }
    rewrite (Hold _ Hlt).
    exact (pattern_const_stripped f Hver p Hp).
Qed.

Lemma C1_witness :
  GetInitializerFunction two_vars kTfSavedModelInitializerRestoreType
  = Some (1, two_vars_init)
  /\ verified two_vars_init = true
  /\ casts_defined (getBody two_vars_init) = true
  /\ within_limits two_vars_init = true
  /\ 1 <= length (patterns (getBody two_vars_init))
  /\ exists (f' : FuncOp) (restore_op : RestoreV2Op),
      runOnOperation two_vars = Ok (replace_nth 1 f' two_vars)
      /\ func_arguments f' = [file_prefix_argument]
      /\ filter isRestoreV2Op (created two_vars_init f') = [OpRestoreV2 restore_op]
      /\ length (restore_tensors restore_op) = 2.
Proof.
  assert (H1 : GetInitializerFunction two_vars kTfSavedModelInitializerRestoreType
               = Some (1, two_vars_init)) by reflexivity.
  assert (H2 : verified two_vars_init = true) by reflexivity.
  assert (H3 : casts_defined (getBody two_vars_init) = true) by reflexivity.
  assert (H4 : within_limits two_vars_init = true) by reflexivity.
  assert (H5 : 1 <= length (patterns (getBody two_vars_init))) by (simpl; lia).
  repeat (split; [assumption|]).
  destruct (C1_restore_replaces_patterns two_vars 1 two_vars_init H1 H2 H3 H4 H5)
    as (f' & r & Hrun & Hargs & Hr & Hn & _).
  exists f', r. repeat split; assumption.
Defined.

(** C2.  The scan collects the handles [hs]; [CreateRestoreV2Op] then
    builds, in this order, the tensor-names constant, the shape-and-slices
    constant, the [RestoreV2Op] and one [AssignVariableOp] per result.  For
    every index [i] below the number of handles: element [i] of the
    tensor-names constant is the shared name of handle [i], declared result
    type [i] of the [RestoreV2Op] is the resource subtype of handle [i], and
    the [i]-th new [AssignVariableOp] assigns result [i] of the
    [RestoreV2Op] to handle [i].  There are as many result types and new
    assignments as handles: no result is dropped, none is reordered. *)
Theorem C2_results_follow_handles (f : FuncOp) :
  verified f = true ->
  casts_defined (getBody f) = true ->
  within_limits f = true ->
  1 <= length (patterns (getBody f)) ->
  exists (f1 : FuncOp) (hs : list VarHandleOp) (f' : FuncOp)
         (names_const shapes_const : ConstOp) (restore_op : RestoreV2Op)
         (assigns : list AssignVariableOp)
         (names_type : TensorType) (names : list string),
    RemoveAssignVariableOpsAndConstOps f = Ok (f1, hs)
    /\ CreateRestoreV2Op hs f1 = Ok f'
    /\ created f f'
       = OpConst names_const :: OpConst shapes_const :: OpRestoreV2 restore_op
         :: map OpAssignVariable assigns
    /\ restore_tensor_names restore_op = OpResult (const_id names_const) 0
    /\ const_value names_const = DenseStringElementsAttr names_type names
    /\ length names = length hs
    /\ length (restore_tensors restore_op) = length hs
    /\ length assigns = length hs
    /\ forall (i : nat) (h : VarHandleOp),
        nth_error hs i = Some h ->
        nth_error names i = Some (getSharedName h)
        /\ nth_error (restore_tensors restore_op) i = Some (resource_subtype h)
        /\ exists a,
            nth_error assigns i = Some a
            /\ assign_resource a = OpResult (vh_id h) 0
            /\ assign_value a = OpResult (restore_id restore_op) i.
Proof.
  intros Hver Hcast Hlim Hn.
  assert (Hpat : patterns (getBody f) <> [])
    by (intros E; rewrite E in Hn; simpl in Hn; lia).
  set (hs := collected (getBody f)).
  set (id0 := next_op_id f).
  exists (setBody f (stripped (getBody f))), hs, (transformed f),
    (new_tensor_names id0 hs), (new_shape_and_slices id0 hs),
    (new_restore id0 (func_loc f) (length (func_arguments f)) hs),
    (new_assigns id0 (func_loc f) hs),
    (RankedTensorType [Z.of_nat (length (map getSharedName hs))] tf_string),
    (map getSharedName hs).
  split; [apply (RemoveAssignVariableOpsAndConstOps_spec f Hver Hcast)|].
  split; [apply (CreateRestoreV2Op_stripped f Hver Hcast Hlim Hpat)|].
  split; [apply (created_transformed f Hver Hpat)|].
  split; [reflexivity|]. split; [reflexivity|].
  split; [apply length_map|]. split; [apply length_map|].
  split; [apply new_assigns_from_length|].
  intros i h Hi. split; [|split].
  - now rewrite nth_error_map, Hi.
  - cbn [new_restore restore_tensors]. now rewrite nth_error_map, Hi.
  - eexists. split; [apply new_assigns_from_nth, Hi|].
    split; reflexivity.
Qed.

Lemma C2_witness :
  verified two_vars_init = true
  /\ casts_defined (getBody two_vars_init) = true
  /\ within_limits two_vars_init = true
  /\ 1 <= length (patterns (getBody two_vars_init))
  /\ exists (f1 : FuncOp) (hs : list VarHandleOp) (f' : FuncOp)
            (restore_op : RestoreV2Op) (assigns : list AssignVariableOp)
            (names : list string),
      RemoveAssignVariableOpsAndConstOps two_vars_init = Ok (f1, hs)
      /\ CreateRestoreV2Op hs f1 = Ok f'
      /\ length names = length hs
      /\ length (restore_tensors restore_op) = length hs
      /\ length assigns = length hs
      /\ forall (i : nat) (h : VarHandleOp),
          nth_error hs i = Some h ->
          nth_error names i = Some (getSharedName h)
          /\ nth_error (restore_tensors restore_op) i = Some (resource_subtype h)
          /\ exists a,
              nth_error assigns i = Some a
              /\ assign_resource a = OpResult (vh_id h) 0
              /\ assign_value a = OpResult (restore_id restore_op) i.
Proof.
  assert (H1 : verified two_vars_init = true) by reflexivity.
  assert (H2 : casts_defined (getBody two_vars_init) = true) by reflexivity.
  assert (H3 : within_limits two_vars_init = true) by reflexivity.
  assert (H4 : 1 <= length (patterns (getBody two_vars_init))) by (simpl; lia).
  repeat (split; [assumption|]).
  destruct (C2_results_follow_handles two_vars_init H1 H2 H3 H4)
    as (f1 & hs & f' & nc & sc & r & assigns & ty & names
        & Hs & Hc & _ & _ & _ & Hl1 & Hl2 & Hl3 & Hi).
  exists f1, hs, f', r, assigns, names. repeat split; try assumption; apply Hi; assumption.
Defined.

(** C7.  In a mutating run the operations the pass creates - the
    tensor-names constant, the shape-and-slices constant, the [RestoreV2Op]
    and the N new [AssignVariableOp]s - stand in this order immediately
    before the terminator of the entry block of the initializer function:
    the block is what the scan left of it, then these, then the terminator
    it had, which stays its last operation. *)
Theorem C7_inserted_before_terminator (m : ModuleOp) (fn : nat) (f : FuncOp) :
  GetInitializerFunction m kTfSavedModelInitializerRestoreType = Some (fn, f) ->
  verified f = true ->
  casts_defined (getBody f) = true ->
  within_limits f = true ->
  1 <= length (patterns (getBody f)) ->
  exists (f' : FuncOp) (front0 front : Block) (t : Operation)
         (others0 others : list Block)
         (names_const shapes_const : ConstOp) (restore_op : RestoreV2Op)
         (assigns : list AssignVariableOp),
    runOnOperation m = Ok (replace_nth fn f' m)
    /\ getBody f = (front0 ++ [t]) :: others0
    /\ isTerminator t = true
    /\ stripped (getBody f) = (front ++ [t]) :: others
    /\ getBody f'
       = (front
          ++ [OpConst names_const; OpConst shapes_const; OpRestoreV2 restore_op]
          ++ map OpAssignVariable assigns
          ++ [t]) :: others
    /\ created f f'
       = [OpConst names_const; OpConst shapes_const; OpRestoreV2 restore_op]
         ++ map OpAssignVariable assigns
    /\ const_loc names_const = NameLoc "tensor_names"
    /\ const_loc shapes_const = NameLoc "shape_and_slices"
    /\ length assigns = length (patterns (getBody f))
    /\ (forall entry, hd_error (getBody f') = Some entry -> getTerminator entry = Ok t).
Proof.
  intros Hget Hver Hcast Hlim Hn.
  assert (Hpat : patterns (getBody f) <> [])
    by (intros E; rewrite E in Hn; simpl in Hn; lia).
  destruct (transformed_eq f Hver Hpat) as (init & t & others & Hb & Ht & Hs & Htr).
  set (hs := collected (getBody f)).
  set (id0 := next_op_id f).
  exists (transformed f), init, (filter (kept f) init), t, others,
    (map (filter (kept f)) others),
    (new_tensor_names id0 hs), (new_shape_and_slices id0 hs),
    (new_restore id0 (func_loc f) (length (func_arguments f)) hs),
    (new_assigns id0 (func_loc f) hs).
  assert (Hbody : getBody (transformed f)
                  = (filter (kept f) init
                     ++ [OpConst (new_tensor_names id0 hs);
                         OpConst (new_shape_and_slices id0 hs);
                         OpRestoreV2 (new_restore id0 (func_loc f)
                                        (length (func_arguments f)) hs)]
                     ++ map OpAssignVariable (new_assigns id0 (func_loc f) hs)
                     ++ [t]) :: map (filter (kept f)) others).
  { rewrite Htr. reflexivity. }
  split.
  { rewrite (runOnOperation_spec m fn f Hget Hver Hcast Hlim).
    destruct (patterns (getBody f)); [contradiction|reflexivity]. }
  split; [exact Hb|]. split; [exact Ht|]. split; [exact Hs|].
  split; [exact Hbody|].
  split; [apply (created_transformed f Hver Hpat)|].
  split; [reflexivity|]. split; [reflexivity|].
  split.
  { unfold new_assigns, hs, collected.
    now rewrite new_assigns_from_length, length_map. }
  intros entry He. rewrite Hbody in He. cbn [hd_error] in He.
  injection He as <-.
  rewrite getTerminator_app by discriminate.
  exact (getTerminator_snoc t (_ :: _ :: _ :: _) Ht).
Qed.

Lemma C7_witness :
  GetInitializerFunction two_vars kTfSavedModelInitializerRestoreType
  = Some (1, two_vars_init)
  /\ verified two_vars_init = true
  /\ casts_defined (getBody two_vars_init) = true
  /\ within_limits two_vars_init = true
  /\ 1 <= length (patterns (getBody two_vars_init))
  /\ exists (f' : FuncOp) (front : Block) (t : Operation) (others : list Block)
            (names_const shapes_const : ConstOp) (restore_op : RestoreV2Op)
            (assigns : list AssignVariableOp),
      runOnOperation two_vars = Ok (replace_nth 1 f' two_vars)
      /\ isTerminator t = true
      /\ getBody f'
         = (front
            ++ [OpConst names_const; OpConst shapes_const; OpRestoreV2 restore_op]
            ++ map OpAssignVariable assigns
            ++ [t]) :: others
      /\ length assigns = 2.
Proof.
  assert (H1 : GetInitializerFunction two_vars kTfSavedModelInitializerRestoreType
               = Some (1, two_vars_init)) by reflexivity.
  assert (H2 : verified two_vars_init = true) by reflexivity.
  assert (H3 : casts_defined (getBody two_vars_init) = true) by reflexivity.
  assert (H4 : within_limits two_vars_init = true) by reflexivity.
  assert (H5 : 1 <= length (patterns (getBody two_vars_init))) by (simpl; lia).
  repeat (split; [assumption|]).
  destruct (C7_inserted_before_terminator two_vars 1 two_vars_init H1 H2 H3 H4 H5)
    as (f' & front0 & front & t & others0 & others & nc & sc & r & assigns
        & Hrun & _ & Ht & _ & Hbody & _ & _ & _ & Hlen & _).
  exists f', front, t, others, nc, sc, r, assigns.
  repeat split; assumption.
Defined.

(** C3.  When no function of the module has the initializer type
    "restore_op", or when the "restore_op" initializer function holds no
    [AssignVariableOp(VarHandleOp, ConstOp)] pattern, the pass returns the
    module it was given: nothing is added, removed or modified.  In the
    second case the function is verified and no scanned operand is a block
    argument. *)
Theorem C3_module_unchanged (m : ModuleOp) :
  (forall f, In f m ->
             has_initializer_type kTfSavedModelInitializerRestoreType f = false)
  \/ (exists fn f,
         GetInitializerFunction m kTfSavedModelInitializerRestoreType = Some (fn, f)
         /\ verified f = true
         /\ casts_defined (getBody f) = true
         /\ patterns (getBody f) = []) ->
  runOnOperation m = Ok m.
Proof.
  intros [Hnone|(fn & f & Hget & Hver & Hcast & Hpat)].
  - unfold runOnOperation, GetInitializerFunction.
    apply find_indexed_none in Hnone. now rewrite Hnone.
  - unfold runOnOperation. rewrite Hget.
    rewrite (RemoveAssignVariableOpsAndConstOps_spec f Hver Hcast).
    cbn [bind]. unfold collected. rewrite Hpat. cbn [map].
    rewrite (no_patterns_stripped f Hpat), setBody_same.
    apply find_indexed_some in Hget as [Hnth _].
    now rewrite replace_nth_same.
Qed.

Lemma C3_witness :
  ((forall f, In f [main_func] ->
              has_initializer_type kTfSavedModelInitializerRestoreType f = false)
   /\ runOnOperation [main_func] = Ok [main_func])
  /\ ((exists fn f,
          GetInitializerFunction computed_module kTfSavedModelInitializerRestoreType
          = Some (fn, f)
          /\ verified f = true
          /\ casts_defined (getBody f) = true
          /\ patterns (getBody f) = [])
      /\ runOnOperation computed_module = Ok computed_module).
Proof.
  assert (H1 : forall f, In f [main_func] ->
                 has_initializer_type kTfSavedModelInitializerRestoreType f = false).
  { intros f [<-|[]]. reflexivity. }
  assert (H2 : exists fn f,
             GetInitializerFunction computed_module kTfSavedModelInitializerRestoreType
             = Some (fn, f)
             /\ verified f = true
             /\ casts_defined (getBody f) = true
             /\ patterns (getBody f) = []).
  { exists 0, computed_init. repeat split; reflexivity. }
  split; (split; [assumption|]).
  - apply (C3_module_unchanged [main_func]). left. exact H1.
  - apply (C3_module_unchanged computed_module). right. exact H2.
Defined.

(** An [AssignVariableOp] whose operand 0 is defined by an operation other
    than a [VarHandleOp], or whose operand 1 is defined by an operation
    other than a [ConstOp], is skipped: body and collected handles are as
    before. *)
Lemma strip_one_skips (body : Region) (hs : list VarHandleOp)
      (a : AssignVariableOp) (d : Operation) :
  getDefiningOp body (assign_resource a) = Some d ->
  match d with
  | OpVarHandle _ =>
      exists d', getDefiningOp body (assign_value a) = Some d'
                 /\ isConstOp d' = false
  | _ => True
  end ->
  strip_one (body, hs) a = Ok (body, hs).
Proof.
  intros Hd Hv. unfold strip_one. rewrite Hd.
  destruct d; try reflexivity.
  destruct Hv as (d' & Hd' & Hc). cbn [dyn_cast_VarHandleOp bind].
  rewrite Hd'. destruct d'; try reflexivity. discriminate.
Qed.

Lemma strip_one_block_argument (st : StripState) (a : AssignVariableOp) :
  is_block_argument (assign_resource a) = true -> strip_one st a = Fatal.
Proof.
  intros Hb. destruct st as [body hs]. unfold strip_one.
  destruct (assign_resource a); [reflexivity|discriminate].
Qed.

Lemma strip_loop_block_argument (range : list AssignVariableOp) (a : AssignVariableOp) :
  In a range -> is_block_argument (assign_resource a) = true ->
  forall st, strip_loop range st = Fatal.
Proof.
  intros Hin Hb. induction range as [|a' range IH]; [destruct Hin|].
  intros st. cbn [strip_loop].
  destruct Hin as [->|Hin].
  - now rewrite strip_one_block_argument.
  - destruct (strip_one st a'); cbn [bind]; auto.
Qed.

(** The same happens for operand 1, once operand 0 is found to be a
    [VarHandleOp]. *)
Lemma value_argument_is_fatal :
  verified value_arg_init = true
  /\ patterns (getBody value_arg_init) = []
  /\ runOnOperation value_arg_module = Fatal.
Proof. repeat split; vm_compute; reflexivity. Qed.

(** C4.  The scan does not skip an [AssignVariableOp] whose operand 0 is a
    function argument: [getDefiningOp] is null for a block argument and
    [dyn_cast] is applied to it, which is fatal; the pass does not return.
    (An operand defined by an operation of another kind is skipped without
    any change, see [strip_one_skips].) *)
Theorem C4_block_argument_operand_is_fatal
        (m : ModuleOp) (fn : nat) (f : FuncOp) (a : AssignVariableOp) :
  GetInitializerFunction m kTfSavedModelInitializerRestoreType = Some (fn, f) ->
  In a (getOps_AssignVariableOp (getBody f)) ->
  is_block_argument (assign_resource a) = true ->
  RemoveAssignVariableOpsAndConstOps f = Fatal
  /\ runOnOperation m = Fatal.
Proof.
  intros Hget Hin Hb.
  assert (H : RemoveAssignVariableOpsAndConstOps f = Fatal).
  { unfold RemoveAssignVariableOpsAndConstOps.
    now rewrite (strip_loop_block_argument _ a Hin Hb). }
  split; [exact H|].
  unfold runOnOperation. now rewrite Hget, H.
Qed.

Lemma C4_witness :
  GetInitializerFunction arg_module kTfSavedModelInitializerRestoreType
  = Some (0, arg_init)
  /\ In assign_arg (getOps_AssignVariableOp (getBody arg_init))
  /\ is_block_argument (assign_resource assign_arg) = true
  /\ verified arg_init = true
  /\ RemoveAssignVariableOpsAndConstOps arg_init = Fatal
  /\ runOnOperation arg_module = Fatal.
Proof.
  assert (H1 : GetInitializerFunction arg_module kTfSavedModelInitializerRestoreType
               = Some (0, arg_init)) by reflexivity.
  assert (H2 : In assign_arg (getOps_AssignVariableOp (getBody arg_init)))
    by (simpl; auto).
  assert (H3 : is_block_argument (assign_resource assign_arg) = true) by reflexivity.
  split; [exact H1|]. split; [exact H2|]. split; [exact H3|].
  split; [reflexivity|].
  exact (C4_block_argument_operand_is_fatal arg_module 0 arg_init assign_arg H1 H2 H3).
Defined.

(** [CreateShapeAndSlicesConst], called as [CreateRestoreV2Op] calls it
    with the number of tensor names converted to [int], returns a constant
    of type [tensor<N x !tf_type.string>] holding N empty strings. *)
Lemma CreateShapeAndSlicesConst_spec (tensor_names : list string)
      (builder : OpBuilder) (func_op : FuncOp) :
  (Z.of_nat (length tensor_names) <= INT_MAX)%Z ->
  exists func_op' c,
    CreateShapeAndSlicesConst (to_int (Z.of_nat (length tensor_names)))
                              builder func_op = Ok (func_op', c)
    /\ const_value c
       = DenseStringElementsAttr
           (RankedTensorType [Z.of_nat (length tensor_names)] tf_string)
           (repeat ""%string (length tensor_names)).
Proof.
  intros Hn. unfold CreateShapeAndSlicesConst, filled_vector.
  rewrite to_int_small by (split; [apply Nat2Z.is_nonneg|exact Hn]).
  replace (Z.of_nat (length tensor_names) <? 0)%Z with false
    by (symmetry; apply Z.ltb_ge, Nat2Z.is_nonneg).
  cbn [bind]. rewrite Nat2Z.id.
  unfold Create1DStringConst, create. eexists. eexists. split; [reflexivity|].
  cbn [const_value]. rewrite repeat_length.
  now rewrite to_int64_small by (split; [apply Nat2Z.is_nonneg|exact Hn]).
Qed.

(** C8.  The operand [shape_and_slices] of the [RestoreV2Op] the pass
    creates is the result of a constant the pass creates, whose value is a
    rank-1 string tensor with as many elements as there are tensor names,
    every one the empty string.  The tensor names are the shared names of
    the collected handles, one per qualifying pattern, so the count is the
    number of collected handles and of patterns. *)
Theorem C8_shape_and_slices_all_empty (f : FuncOp) :
  verified f = true ->
  casts_defined (getBody f) = true ->
  within_limits f = true ->
  1 <= length (patterns (getBody f)) ->
  exists (f1 : FuncOp) (hs : list VarHandleOp) (f' : FuncOp)
         (restore_op : RestoreV2Op) (names_const shapes_const : ConstOp)
         (names_type : TensorType) (names : list string),
    RemoveAssignVariableOpsAndConstOps f = Ok (f1, hs)
    /\ CreateRestoreV2Op hs f1 = Ok f'
    /\ In (OpRestoreV2 restore_op) (created f f')
    /\ In (OpConst names_const) (created f f')
    /\ In (OpConst shapes_const) (created f f')
    /\ restore_tensor_names restore_op = OpResult (const_id names_const) 0
    /\ restore_shape_and_slices restore_op = OpResult (const_id shapes_const) 0
    /\ const_value names_const = DenseStringElementsAttr names_type names
    /\ const_value shapes_const
       = DenseStringElementsAttr
           (RankedTensorType [Z.of_nat (length names)] tf_string)
           (repeat ""%string (length names))
    /\ hs = map pat_handle (patterns (getBody f))
    /\ names = map getSharedName hs
    /\ length names = length (patterns (getBody f))
    /\ const_value shapes_const
       = DenseStringElementsAttr
           (RankedTensorType [Z.of_nat (length hs)] tf_string)
           (repeat ""%string (length hs))
    /\ (forall values_type values,
          const_value shapes_const = DenseStringElementsAttr values_type values ->
          length values = length hs
          /\ forall i, i < length hs -> nth_error values i = Some ""%string).
Proof.
  intros Hver Hcast Hlim Hn.
  assert (Hpat : patterns (getBody f) <> [])
    by (intros E; rewrite E in Hn; simpl in Hn; lia).
  set (hs := collected (getBody f)).
  set (id0 := next_op_id f).
  exists (setBody f (stripped (getBody f))), hs, (transformed f),
    (new_restore id0 (func_loc f) (length (func_arguments f)) hs),
    (new_tensor_names id0 hs), (new_shape_and_slices id0 hs),
    (RankedTensorType [Z.of_nat (length (map getSharedName hs))] tf_string),
    (map getSharedName hs).
  split; [apply (RemoveAssignVariableOpsAndConstOps_spec f Hver Hcast)|].
  split; [apply (CreateRestoreV2Op_stripped f Hver Hcast Hlim Hpat)|].
  rewrite (created_transformed f Hver Hpat). unfold new_ops. fold hs id0.
  split; [simpl; auto|]. split; [simpl; auto|]. split; [simpl; auto|].
  split; [reflexivity|]. split; [reflexivity|]. split; [reflexivity|].
  unfold new_shape_and_slices, string_const. cbn [const_value].
  rewrite repeat_length, length_map.
  split; [reflexivity|]. split; [reflexivity|]. split; [reflexivity|].
  split; [unfold hs, collected; now rewrite length_map|].
  split; [reflexivity|].
  intros values_type values Hv. injection Hv as _ <-.
  split; [apply repeat_length|].
  intros i Hi. rewrite nth_error_repeat by exact Hi. reflexivity.
Qed.

Lemma C8_witness :
  verified two_vars_init = true
  /\ casts_defined (getBody two_vars_init) = true
  /\ within_limits two_vars_init = true
  /\ 1 <= length (patterns (getBody two_vars_init))
  /\ exists (f1 : FuncOp) (f' : FuncOp)
            (restore_op : RestoreV2Op) (names_const shapes_const : ConstOp)
            (names_type : TensorType),
      RemoveAssignVariableOpsAndConstOps two_vars_init = Ok (f1, [w1; w2])
      /\ CreateRestoreV2Op [w1; w2] f1 = Ok f'
      /\ In (OpRestoreV2 restore_op) (created two_vars_init f')
      /\ restore_shape_and_slices restore_op = OpResult (const_id shapes_const) 0
      /\ const_value names_const
         = DenseStringElementsAttr names_type ["w1"%string; "w2"%string]
      /\ const_value shapes_const
         = DenseStringElementsAttr (RankedTensorType [2%Z] tf_string)
                                   [""%string; ""%string].
Proof.
  assert (H1 : verified two_vars_init = true) by reflexivity.
  assert (H2 : casts_defined (getBody two_vars_init) = true) by reflexivity.
  assert (H3 : within_limits two_vars_init = true) by reflexivity.
  assert (H4 : 1 <= length (patterns (getBody two_vars_init))) by (simpl; lia).
  split; [exact H1|]. split; [exact H2|]. split; [exact H3|]. split; [exact H4|].
  destruct (C8_shape_and_slices_all_empty two_vars_init H1 H2 H3 H4)
    as (f1 & hs & f' & r & nc & sc & ty & names
        & Hs & Hc & Hr & _ & _ & _ & Hop & Hnv & _ & Hhs & Hnames & _ & Hv & _).
  assert (E : hs = [w1; w2]) by (rewrite Hhs; reflexivity).
  subst hs names.
  exists f1, f', r, nc, sc, ty.
  split; [exact Hs|]. split; [exact Hc|]. split; [exact Hr|].
  split; [exact Hop|]. split; [exact Hnv|]. exact Hv.
Defined.

Lemma count_names_ge (hs : list VarHandleOp) (h : VarHandleOp) :
  (forall h', In h' hs -> vh_id h' = vh_id h -> getSharedName h' = getSharedName h) ->
  occurrences (vh_id h) hs
  <= count_occ string_dec (map getSharedName hs) (getSharedName h).
Proof.
  unfold occurrences.
  induction hs as [|h' hs IH]; intros Hsame; [simpl; lia|].
  cbn [filter map count_occ].
  assert (IH' := IH (fun x Hx => Hsame x (or_intror Hx))).
  destruct (vh_id h' =? vh_id h) eqn:E.
  - apply Nat.eqb_eq in E. rewrite (Hsame h' (or_introl eq_refl) E).
    destruct (string_dec (getSharedName h) (getSharedName h)); [|congruence].
    simpl. lia.
  - destruct (string_dec (getSharedName h') (getSharedName h)); lia.
Qed.

Lemma occurrences_map (id : OpId) (ps : list Pattern) :
  occurrences id (map pat_handle ps)
  = length (filter (fun p => vh_id (pat_handle p) =? id) ps).
Proof.
  unfold occurrences. induction ps as [|p ps IH]; [reflexivity|].
  cbn [map filter]. destruct (vh_id (pat_handle p) =? id); simpl; congruence.
Qed.

(** C9.  The scan records the handle of every qualifying pattern, in the
    order of the assignments, once per pattern: a handle that is operand 0
    of k qualifying assignments occurs k times among the collected handles,
    and the tensor-names constant, which lists the shared names of the
    collected handles in the same order, holds its name at least k times. *)
Theorem C9_handle_recorded_per_pattern (f : FuncOp) :
  verified f = true ->
  casts_defined (getBody f) = true ->
  within_limits f = true ->
  1 <= length (patterns (getBody f)) ->
  exists (f1 : FuncOp) (hs : list VarHandleOp) (f' : FuncOp)
         (names_const : ConstOp) (names_type : TensorType),
    RemoveAssignVariableOpsAndConstOps f = Ok (f1, hs)
    /\ hs = map pat_handle (patterns (getBody f))
    /\ CreateRestoreV2Op hs f1 = Ok f'
    /\ In (OpConst names_const) (created f f')
    /\ const_value names_const
       = DenseStringElementsAttr names_type (map getSharedName hs)
    /\ forall h,
        In h hs ->
        occurrences (vh_id h) hs
        = length (filter (fun p => vh_id (pat_handle p) =? vh_id h)
                         (patterns (getBody f)))
        /\ occurrences (vh_id h) hs
           <= count_occ string_dec (map getSharedName hs) (getSharedName h).
Proof.
  intros Hver Hcast Hlim Hn.
  assert (Hpat : patterns (getBody f) <> [])
    by (intros E; rewrite E in Hn; simpl in Hn; lia).
  set (hs := collected (getBody f)).
  set (id0 := next_op_id f).
  exists (setBody f (stripped (getBody f))), hs, (transformed f),
    (new_tensor_names id0 hs),
    (RankedTensorType [Z.of_nat (length (map getSharedName hs))] tf_string).
  split; [apply (RemoveAssignVariableOpsAndConstOps_spec f Hver Hcast)|].
  split; [reflexivity|].
  split; [apply (CreateRestoreV2Op_stripped f Hver Hcast Hlim Hpat)|].
  split; [rewrite (created_transformed f Hver Hpat); simpl; auto|].
  split; [reflexivity|].
  assert (Hin : forall h, In h hs -> In (OpVarHandle h) (region_ops (getBody f))).
  { intros h Hh. unfold hs, collected in Hh.
    apply in_map_iff in Hh as (p & <- & Hp).
    apply (in_patterns f) in Hp as [_ Hp].
    apply pattern_of_some in Hp as [Hp _].
    now apply getDefiningOp_in in Hp as [Hp _]. }
  intros h Hh. split.
  - apply occurrences_map.
  - apply count_names_ge. intros h' Hh' Hid.
    assert (OpVarHandle h' = OpVarHandle h) as Heq.
    { eapply NoDup_map_eq; eauto using verified_NoDup. }
    now injection Heq as ->.
Qed.

Lemma C9_witness :
  verified twice_init = true
  /\ casts_defined (getBody twice_init) = true
  /\ within_limits twice_init = true
  /\ 1 <= length (patterns (getBody twice_init))
  /\ exists (f1 : FuncOp) (hs : list VarHandleOp) (f' : FuncOp)
            (names_const : ConstOp) (names_type : TensorType),
      RemoveAssignVariableOpsAndConstOps twice_init = Ok (f1, hs)
      /\ hs = [w1; w1]
      /\ CreateRestoreV2Op hs f1 = Ok f'
      /\ In (OpConst names_const) (created twice_init f')
      /\ const_value names_const
         = DenseStringElementsAttr names_type ["w1"%string; "w1"%string]
      /\ occurrences (vh_id w1) hs = 2.
Proof.
  assert (H1 : verified twice_init = true) by reflexivity.
  assert (H2 : casts_defined (getBody twice_init) = true) by reflexivity.
  assert (H3 : within_limits twice_init = true) by reflexivity.
  assert (H4 : 1 <= length (patterns (getBody twice_init))) by (simpl; lia).
  split; [exact H1|]. split; [exact H2|]. split; [exact H3|]. split; [exact H4|].
  destruct (C9_handle_recorded_per_pattern twice_init H1 H2 H3 H4)
    as (f1 & hs & f' & nc & ty & Hs & Hhs & Hc & Hin & Hv & Hocc).
  exists f1, hs, f', nc, ty.
  assert (E : hs = [w1; w1]) by (rewrite Hhs; reflexivity).
  split; [exact Hs|]. split; [exact E|]. split; [exact Hc|].
  split; [exact Hin|]. split; [rewrite Hv, E; reflexivity|].
  rewrite E. reflexivity.
Defined.

(** C10.  The scan looks at the [AssignVariableOp]s directly in the blocks
    of the body of the initializer function and at nothing below them:
    every collected handle is the handle of a pattern whose assignment
    stands directly in the body; every operation of the body that is neither
    an [AssignVariableOp] nor a [ConstOp] is in the body after the pass as it
    was, with the regions it holds and all they contain; and every other
    function of the module is what it was. *)
Theorem C10_only_body_level_scanned (m : ModuleOp) (fn : nat) (f : FuncOp) :
  GetInitializerFunction m kTfSavedModelInitializerRestoreType = Some (fn, f) ->
  verified f = true ->
  casts_defined (getBody f) = true ->
  within_limits f = true ->
  exists (m' : ModuleOp) (f1 : FuncOp) (hs : list VarHandleOp) (f' : FuncOp),
    RemoveAssignVariableOpsAndConstOps f = Ok (f1, hs)
    /\ runOnOperation m = Ok m'
    /\ length m' = length m
    /\ nth_error m' fn = Some f'
    /\ (forall j, j <> fn -> nth_error m' j = nth_error m j)
    /\ (forall h, In h hs ->
          exists a c,
            In (OpAssignVariable a) (region_ops (getBody f))
            /\ pattern_of (getBody f) a = Some (h, c))
    /\ (forall o, In o (region_ops (getBody f)) ->
          isAssignVariableOp o = false -> isConstOp o = false ->
          In o (region_ops (getBody f1)) /\ In o (region_ops (getBody f'))).
Proof.
  intros Hget Hver Hcast Hlim.
  pose proof (runOnOperation_spec m fn f Hget Hver Hcast Hlim) as Hrun.
  pose proof (RemoveAssignVariableOpsAndConstOps_spec f Hver Hcast) as Hstrip.
  pose proof (find_indexed_some _ _ _ _ Hget) as [Hnth _].
  assert (Hhs : forall h, In h (collected (getBody f)) ->
                  exists a c,
                    In (OpAssignVariable a) (region_ops (getBody f))
                    /\ pattern_of (getBody f) a = Some (h, c)).
  { intros h Hh. apply in_map_iff in Hh as (p & <- & Hp).
    apply (in_patterns f) in Hp as [Ha Hp].
    exists (pat_assign p), (pat_const p). split; [|exact Hp].
    now apply in_getOps_AssignVariableOp. }
  destruct (patterns (getBody f)) as [|p ps] eqn:Ep.
  - exists m, (setBody f (stripped (getBody f))), (collected (getBody f)), f.
    split; [exact Hstrip|]. split; [exact Hrun|]. split; [reflexivity|].
    split; [exact Hnth|]. split; [reflexivity|]. split; [exact Hhs|].
    intros o Ho Ha Hc. cbn [setBody getBody].
    rewrite (no_patterns_stripped f Ep). auto.
  - assert (Hpat : patterns (getBody f) <> []) by (rewrite Ep; discriminate).
    exists (replace_nth fn (transformed f) m),
      (setBody f (stripped (getBody f))), (collected (getBody f)), (transformed f).
    split; [exact Hstrip|]. split; [exact Hrun|].
    split; [apply length_replace_nth|].
    split; [eapply nth_error_replace_nth_same, Hnth|].
    split; [intros j Hj; apply nth_error_replace_nth_other; congruence|].
    split; [exact Hhs|].
    intros o Ho Ha Hc. cbn [setBody getBody].
    pose proof (other_ops_stripped f o Ho Ha Hc) as Hs.
    split; [exact Hs|].
    apply (in_transformed f Hver Hpat). now left.
Qed.

Lemma C10_witness :
  GetInitializerFunction nested_module kTfSavedModelInitializerRestoreType
  = Some (0, nested_init)
  /\ verified nested_init = true
  /\ casts_defined (getBody nested_init) = true
  /\ within_limits nested_init = true
  /\ exists (m' : ModuleOp) (f1 : FuncOp) (hs : list VarHandleOp) (f' : FuncOp),
      RemoveAssignVariableOpsAndConstOps nested_init = Ok (f1, hs)
      /\ hs = [w1]
      /\ runOnOperation nested_module = Ok m'
      /\ nth_error m' 0 = Some f'
      /\ nth_error m' 1 = Some main_func
      /\ In nested_if (region_ops (getBody f')).
Proof.
  assert (H1 : GetInitializerFunction nested_module kTfSavedModelInitializerRestoreType
               = Some (0, nested_init)) by reflexivity.
  assert (H2 : verified nested_init = true) by reflexivity.
  assert (H3 : casts_defined (getBody nested_init) = true) by reflexivity.
  assert (H4 : within_limits nested_init = true) by reflexivity.
  split; [exact H1|]. split; [exact H2|]. split; [exact H3|]. split; [exact H4|].
  destruct (C10_only_body_level_scanned nested_module 0 nested_init H1 H2 H3 H4)
    as (m' & f1 & hs & f' & Hs & Hrun & Hlen & Hnth & Hother & Hhs & Hkeep).
  exists m', f1, hs, f'.
  split; [exact Hs|].
  split; [|split; [exact Hrun|split; [exact Hnth|split]]].
  - assert (E : RemoveAssignVariableOpsAndConstOps nested_init
                = Ok (setBody nested_init (stripped (getBody nested_init)), [w1]))
      by reflexivity.
    rewrite E in Hs. now injection Hs as _ <-.
  - rewrite (Hother 1) by discriminate. reflexivity.
  - apply Hkeep; [simpl; auto 6|reflexivity|reflexivity].
Defined.

Section SharedConstant.
Variable f : FuncOp.
Hypothesis Hver : verified f = true.
Hypothesis Hcast : casts_defined (getBody f) = true.
Variables done rest : list AssignVariableOp.
Variable a : AssignVariableOp.
Hypothesis Hsplit : getOps_AssignVariableOp (getBody f) = done ++ a :: rest.
Variable h : VarHandleOp.
Variable c : ConstOp.
Hypothesis Hp : pattern_of (getBody f) a = Some (h, c).

Let r0 := getBody f.

Lemma split_NoDup : NoDup (map assign_id (done ++ a :: rest)).
Proof.
  rewrite <- Hsplit. apply assign_ids_NoDup, verified_NoDup, Hver.
Qed.

Lemma split_current_in : In a (getOps_AssignVariableOp r0).
Proof. unfold r0. rewrite Hsplit. apply in_or_app. right. now left. Qed.

Lemma not_among (l : list AssignVariableOp) (x : AssignVariableOp) :
  ~ In (assign_id x) (map assign_id l) ->
  existsb (has_assign_id (assign_id x)) l = false.
Proof.
  intros H. destruct (existsb _ l) eqn:E; [|reflexivity].
  exfalso. apply H. apply existsb_exists in E as (y & Hy & E).
  apply Nat.eqb_eq in E. rewrite <- E. now apply in_map.
Qed.

Lemma split_current_new : existsb (has_assign_id (assign_id a)) done = false.
Proof.
  apply not_among. pose proof split_NoDup as Hnd.
  rewrite map_app in Hnd. cbn [map] in Hnd.
  apply NoDup_remove_2 in Hnd. intros Hin. apply Hnd.
  apply in_or_app. now left.
Qed.

Lemma split_later_new (a' : AssignVariableOp) :
  In a' rest -> existsb (has_assign_id (assign_id a')) (done ++ [a]) = false.
Proof.
  intros Hin. apply not_among. pose proof split_NoDup as Hnd.
  replace (done ++ a :: rest) with ((done ++ [a]) ++ rest) in Hnd
    by now rewrite <- app_assoc.
  rewrite map_app in Hnd. intros Hd.
  apply (NoDup_app_disjoint _ _ (assign_id a') Hnd); [exact Hd|].
  now apply in_map.
Qed.

Lemma state_at_current :
  strip_loop done (r0, [])
  = Ok (state_after r0 done, map pat_handle (patterns_in r0 done)).
Proof.
  rewrite <- (state_after_nil r0) at 1.
  rewrite (strip_loop_spec r0 (verified_NoDup f Hver) (verified_defined f Hver) Hcast
                           done [] []).
  - reflexivity.
  - intros a' Ha'. unfold r0. rewrite Hsplit. apply in_or_app. now left.
  - cbn [app]. pose proof split_NoDup as Hnd. rewrite map_app in Hnd.
    now apply NoDup_app_remove_r in Hnd.
Qed.

Lemma uses_pattern_const : 1 <= op_uses (const_id c) (OpAssignVariable a).
Proof.
  rewrite (op_uses_pattern r0 (verified_NoDup f Hver) a h c c Hp
                           (const_of_pattern_in r0 a h c Hp)).
  now rewrite Nat.eqb_refl.
Qed.

Lemma const_present_at_current :
  In (OpConst c) (region_ops (state_after r0 done)).
Proof.
  unfold state_after. apply in_keep. split.
  - apply in_keep. split; [exact (const_of_pattern_in r0 a h c Hp)|reflexivity].
  - cbn [stripped_const]. apply negb_true_iff, andb_false_iff. right.
    apply Nat.eqb_neq.
    pose proof (region_uses_in (const_id c) _ _
                  (current_assign_kept r0 done a split_current_in split_current_new)).
    pose proof uses_pattern_const. lia.
Qed.

Lemma step_at_current (hs : list VarHandleOp) :
  strip_one (state_after r0 done, hs) a
  = Ok (state_after r0 (done ++ [a]), hs ++ [h]).
Proof.
  rewrite (strip_one_spec r0 (verified_NoDup f Hver) (verified_defined f Hver) Hcast
                          done a hs split_current_in split_current_new).
  unfold as_pattern, r0. now rewrite Hp.
Qed.

Lemma current_assign_gone :
  ~ In (OpAssignVariable a) (region_ops (state_after r0 (done ++ [a]))).
Proof.
  intros Hin. unfold state_after in Hin.
  apply in_keep in Hin as [Hin _]. apply in_keep in Hin as [_ Hk].
  cbn [stripped_assign] in Hk. unfold r0 in Hk. rewrite Hp, existsb_app in Hk.
  cbn [existsb] in Hk. unfold has_assign_id at 2 in Hk.
  rewrite Nat.eqb_refl, orb_true_r in Hk. discriminate.
Qed.

Lemma const_after_current :
  In (OpConst c) (region_ops (state_after r0 (done ++ [a])))
  <-> region_uses (const_id c) (erase (assign_id a) (state_after r0 done)) <> 0.
Proof.
  rewrite (uses_after_erase_current r0 (verified_NoDup f Hver) done a
             split_current_in split_current_new h c Hp).
  assert (Hk : negb (stripped_const r0 (done ++ [a]) (OpConst c)) = true
               <-> region_uses (const_id c) (after_assigns r0 (done ++ [a])) <> 0).
  { cbn [stripped_const]. rewrite existsb_app. cbn [existsb].
    unfold consumes at 2. unfold r0 at 2.
    rewrite Hp, Nat.eqb_refl. cbn [orb]. rewrite orb_true_r. cbn [andb].
    now rewrite negb_true_iff, Nat.eqb_neq. }
  rewrite <- Hk. unfold state_after at 1. split.
  - intros Hin. now apply in_keep in Hin as [_ Hin].
  - intros Hu. apply in_keep. split; [|exact Hu].
    apply in_keep. split; [exact (const_of_pattern_in r0 a h c Hp)|reflexivity].
Qed.

Lemma later_consumer_keeps_const (a' : AssignVariableOp) :
  In a' rest -> consumes r0 (const_id c) a' = true ->
  region_uses (const_id c) (after_assigns r0 (done ++ [a])) <> 0.
Proof.
  intros Hin Hc.
  assert (Ha' : In a' (getOps_AssignVariableOp r0)).
  { unfold r0. rewrite Hsplit. apply in_or_app. right. now right. }
  pose proof (region_uses_in (const_id c) _ _
                (current_assign_kept r0 (done ++ [a]) a' Ha' (split_later_new a' Hin)))
    as Hle.
  unfold consumes in Hc.
  destruct (pattern_of r0 a') as [[h' c']|] eqn:Ep'; [|discriminate].
  rewrite (op_uses_pattern r0 (verified_NoDup f Hver) a' h' c' c Ep'
                           (const_of_pattern_in r0 a h c Hp)) in Hle.
  rewrite Hc in Hle. lia.
Qed.

End SharedConstant.

(** C6.  When the scan reaches a qualifying [AssignVariableOp] [a] with
    constant [c] (the assignments [done] before it have been visited, [rest]
    are still to come), [c] is still in the body; the step erases [a],
    records its handle, and deletes [c] if and only if [c] has no use left
    in the body once [a] is erased.  In particular [c] survives the step
    when a later qualifying assignment takes its value from [c], and the
    handle of [a] is among the handles the scan returns. *)
Theorem C6_constant_erased_iff_unused
        (f : FuncOp) (done rest : list AssignVariableOp)
        (a : AssignVariableOp) (h : VarHandleOp) (c : ConstOp) :
  verified f = true ->
  casts_defined (getBody f) = true ->
  getOps_AssignVariableOp (getBody f) = done ++ a :: rest ->
  pattern_of (getBody f) a = Some (h, c) ->
  exists (body : Region) (hs : list VarHandleOp) (body' : Region)
         (f1 : FuncOp) (hs_all : list VarHandleOp),
    strip_loop done (getBody f, []) = Ok (body, hs)
    /\ In (OpConst c) (region_ops body)
    /\ strip_one (body, hs) a = Ok (body', hs ++ [h])
    /\ ~ In (OpAssignVariable a) (region_ops body')
    /\ (~ In (OpConst c) (region_ops body')
        <-> region_uses (const_id c) (erase (assign_id a) body) = 0)
    /\ (forall a' h',
          In a' rest -> pattern_of (getBody f) a' = Some (h', c) ->
          In (OpConst c) (region_ops body'))
    /\ RemoveAssignVariableOpsAndConstOps f = Ok (f1, hs_all)
    /\ In h hs_all.
Proof.
  intros Hver Hcast Hsplit Hp.
  set (r0 := getBody f).
  exists (state_after r0 done), (map pat_handle (patterns_in r0 done)),
    (state_after r0 (done ++ [a])),
    (setBody f (stripped r0)), (collected r0).
  pose proof (const_after_current f Hver done rest a Hsplit h c Hp) as Hiff.
  split; [exact (state_at_current f Hver Hcast done rest a Hsplit)|].
  split; [exact (const_present_at_current f Hver done rest a Hsplit h c Hp)|].
  split; [exact (step_at_current f Hver Hcast done rest a Hsplit h c Hp _)|].
  split; [exact (current_assign_gone f done a h c Hp)|].
  split; [|split; [|split]].
  - fold r0 in Hiff. rewrite Hiff. lia.
  - intros a' h' Hin Hp'. apply Hiff.
    rewrite (uses_after_erase_current r0 (verified_NoDup f Hver) done a
               (split_current_in f done rest a Hsplit)
               (split_current_new f Hver done rest a Hsplit) h c Hp).
    apply (later_consumer_keeps_const f Hver done rest a Hsplit h c Hp a' Hin).
    unfold consumes. unfold r0 in Hp'. rewrite Hp'. apply Nat.eqb_refl.
  - exact (RemoveAssignVariableOpsAndConstOps_spec f Hver Hcast).
  - unfold collected. apply in_map_iff.
    exists {| pat_assign := a; pat_handle := h; pat_const := c |}.
    split; [reflexivity|]. apply (in_patterns f). split; [|exact Hp].
    exact (split_current_in f done rest a Hsplit).
Qed.

Lemma C6_witness :
  verified shared_init = true
  /\ casts_defined (getBody shared_init) = true
  /\ getOps_AssignVariableOp (getBody shared_init) = [] ++ assign_a :: [assign_b]
  /\ pattern_of (getBody shared_init) assign_a
     = Some (var_handle 1 "a" t1xf32, shared_const)
  /\ exists (body : Region) (hs : list VarHandleOp) (body' : Region)
            (f1 : FuncOp) (hs_all : list VarHandleOp),
      strip_loop [] (getBody shared_init, []) = Ok (body, hs)
      /\ strip_one (body, hs) assign_a = Ok (body', hs ++ [var_handle 1 "a" t1xf32])
      /\ ~ In (OpAssignVariable assign_a) (region_ops body')
      /\ In (OpConst shared_const) (region_ops body')
      /\ RemoveAssignVariableOpsAndConstOps shared_init = Ok (f1, hs_all)
      /\ In (var_handle 1 "a" t1xf32) hs_all
      /\ ~ In (OpConst shared_const) (region_ops (getBody f1)).
Proof.
  assert (H1 : verified shared_init = true) by reflexivity.
  assert (H2 : casts_defined (getBody shared_init) = true) by reflexivity.
  assert (H3 : getOps_AssignVariableOp (getBody shared_init)
               = [] ++ assign_a :: [assign_b]) by reflexivity.
  assert (H4 : pattern_of (getBody shared_init) assign_a
               = Some (var_handle 1 "a" t1xf32, shared_const)) by reflexivity.
  split; [exact H1|]. split; [exact H2|]. split; [exact H3|]. split; [exact H4|].
  destruct (C6_constant_erased_iff_unused shared_init [] [assign_b] assign_a
              (var_handle 1 "a" t1xf32) shared_const H1 H2 H3 H4)
    as (body & hs & body' & f1 & hs_all
        & Hloop & _ & Hstep & Hgone & _ & Hlater & Hall & Hin).
  exists body, hs, body', f1, hs_all.
  split; [exact Hloop|]. split; [exact Hstep|]. split; [exact Hgone|].
  split; [apply (Hlater assign_b (var_handle 2 "b" t1xf32)); [now left|reflexivity]|].
  split; [exact Hall|]. split; [exact Hin|].
  assert (E : RemoveAssignVariableOpsAndConstOps shared_init
              = Ok (setBody shared_init
                      [[OpVarHandle (var_handle 1 "a" t1xf32);
                        OpVarHandle (var_handle 2 "b" t1xf32);
                        func_return 6]],
                    [var_handle 1 "a" t1xf32; var_handle 2 "b" t1xf32]))
    by reflexivity.
  rewrite E in Hall. injection Hall as <- _.
  cbn [setBody getBody region_ops concat app In].
  intros [H|[H|[H|[]]]]; discriminate.
Defined.

(* ================================================================== *)
(** ** Running the pass on its own output *)

Section FindFacts.
Context {A : Type}.

Lemma find_app_skip (p : A -> bool) (l1 mid l2 : list A) :
  (forall x, In x mid -> p x = false) ->
  find p (l1 ++ mid ++ l2) = find p (l1 ++ l2).
Proof.
  intros Hmid. induction l1 as [|x l1 IH]; simpl.
  - induction mid as [|y mid IH]; simpl; [reflexivity|].
    rewrite (Hmid y) by now left. apply IH. intros z Hz. apply Hmid. now right.
  - destruct (p x); auto.
Qed.

Lemma find_app_none (p : A -> bool) (l1 l2 : list A) :
  (forall x, In x l1 -> p x = false) -> find p (l1 ++ l2) = find p l2.
Proof.
  intros H. induction l1 as [|x l1 IH]; simpl; [reflexivity|].
  rewrite (H x) by now left. apply IH. intros z Hz. apply H. now right.
Qed.

Lemma find_indexed_replace (p : A -> bool) (l : list A) (i : nat) (x y : A) :
  find_indexed p l = Some (i, x) -> p y = true ->
  find_indexed p (replace_nth i y l) = Some (i, y).
Proof.
  revert i. induction l as [|z l IH]; simpl; intros i H Hy; [discriminate|].
  destruct (p z) eqn:E.
  - injection H as <- <-. simpl. now rewrite Hy.
  - destruct (find_indexed p l) as [[j w]|] eqn:F; [|discriminate].
    injection H as <- <-. simpl. rewrite E.
    now rewrite (IH j eq_refl Hy).
Qed.

End FindFacts.

Lemma find_by_id (l : list Operation) (o : Operation) :
  NoDup (map op_id l) -> In o l ->
  find (fun o' => op_id o' =? op_id o) l = Some o.
Proof.
  intros Hnd Hin.
  destruct (find (fun o' => op_id o' =? op_id o) l) as [o'|] eqn:E.
  - apply find_some in E as [Hin' E]. apply Nat.eqb_eq in E.
    f_equal. eapply NoDup_map_eq; eauto.
  - exfalso. apply (find_none _ _ E) in Hin.
    rewrite Nat.eqb_refl in Hin. discriminate.
Qed.

Lemma strip_loop_skips (body : Region) (range : list AssignVariableOp) :
  (forall a, In a range -> forall hs, strip_one (body, hs) a = Ok (body, hs)) ->
  forall hs, strip_loop range (body, hs) = Ok (body, hs).
Proof.
  induction range as [|a range IH]; intros H hs; [reflexivity|].
  cbn [strip_loop]. rewrite (H a) by now left. cbn [bind].
  apply IH. intros a' Ha'. apply H. now right.
Qed.

Lemma in_new_assigns_from (rid : OpId) (loc : Location) (hs : list VarHandleOp) :
  forall id i a,
    In a (new_assigns_from rid loc id i hs) ->
    exists h k, In h hs
                /\ assign_resource a = result_of (vh_id h)
                /\ assign_value a = OpResult rid k.
Proof.
  induction hs as [|h hs IH]; intros id i a; simpl; [tauto|].
  intros [<-|H].
  - exists h, i. simpl. auto.
  - apply IH in H as (h' & k & Hh & Hr & Hv). exists h', k. auto.
Qed.

Section SecondRun.
Variable f : FuncOp.
Hypothesis Hver : verified f = true.
Hypothesis Hcast : casts_defined (getBody f) = true.
Hypothesis Hpat : patterns (getBody f) <> [].

Let r0 := getBody f.
Let id0 := next_op_id f.
Let news := new_ops id0 (func_loc f) (length (func_arguments f)) (collected r0).

Lemma stripped_NoDup : NoDup (map op_id (region_ops (stripped r0))).
Proof.
  unfold r0. rewrite stripped_kept, region_ops_keep.
  apply NoDup_map_filter, verified_NoDup, Hver.
Qed.

(** An operation result defined before the pass has the same definition
    in the output as in what the scan left. *)
Lemma old_definition (owner k : nat) :
  owner < id0 ->
  getDefiningOp (getBody (transformed f)) (OpResult owner k)
  = getDefiningOp (stripped r0) (OpResult owner k).
Proof.
  intros Hlt. destruct (transformed_ops f Hver Hpat) as (l1 & l2 & Hs & Ht).
  cbn [getDefiningOp]. fold r0 in Hs. rewrite Ht, Hs.
  apply find_app_skip. intros o Ho.
  apply new_ops_ids in Ho. apply Nat.eqb_neq. fold id0 in Ho. lia.
Qed.

Lemma restore_definition (k : nat) :
  getDefiningOp (getBody (transformed f)) (OpResult (S (S id0)) k)
  = Some (OpRestoreV2 (new_restore id0 (func_loc f) (length (func_arguments f))
                                   (collected r0))).
Proof.
  destruct (transformed_ops f Hver Hpat) as (l1 & l2 & Hs & Ht).
  cbn [getDefiningOp]. fold r0 id0 in Hs, Ht. rewrite Ht.
  rewrite find_app_none.
  - unfold new_ops. cbn [app find op_id new_tensor_names new_shape_and_slices
                        string_const const_id new_restore restore_id].
    replace (id0 =? S (S id0)) with false by (symmetry; apply Nat.eqb_neq; lia).
    replace (S id0 =? S (S id0)) with false by (symmetry; apply Nat.eqb_neq; lia).
    now rewrite Nat.eqb_refl.
  - intros o Ho. apply Nat.eqb_neq.
    assert (op_id o < id0); [|lia].
    apply (stripped_below_mark f Hver). fold r0. rewrite Hs.
    apply in_or_app. now left.
Qed.

(** What the scan leaves defines the operands of the assignments it
    skipped as before. *)
Lemma skipped_definition (a : AssignVariableOp) (v : Value) (d : Operation) :
  In a (getOps_AssignVariableOp r0) ->
  pattern_of r0 a = None ->
  In v (getOperands (OpAssignVariable a)) ->
  getDefiningOp r0 v = Some d ->
  getDefiningOp (getBody (transformed f)) v = Some d.
Proof.
  intros Ha Hp Hv Hd.
  assert (Hin : In (OpAssignVariable a) (region_ops r0))
    by now apply in_getOps_AssignVariableOp.
  pose proof (getDefiningOp_in _ _ _ Hd) as (Hdin & k & ->).
  rewrite old_definition by (apply (verified_below_mark f Hver), Hdin).
  unfold r0. rewrite stripped_kept. apply getDefiningOp_keep; [exact Hd|].
  pose proof (verified_defined f Hver _ _ Hin Hv) as Hk.
  unfold operand_defined in Hk. fold r0 in Hk. rewrite Hd in Hk.
  apply Nat.ltb_lt in Hk.
  unfold kept. apply andb_true_iff. split; apply negb_true_iff.
  - destruct d; simpl in Hk |- *; try reflexivity. lia.
  - destruct d as [| c | | |]; try reflexivity.
    cbn [stripped_const]. apply andb_false_iff. right. apply Nat.eqb_neq.
    assert (Hkept : In (OpAssignVariable a)
                       (region_ops (after_assigns r0 (getOps_AssignVariableOp r0)))).
    { apply in_keep. split; [exact Hin|].
      cbn [stripped_assign]. rewrite Hp. now rewrite andb_false_r. }
    pose proof (region_uses_in (const_id c) _ _ Hkept) as Hu.
    assert (1 <= op_uses (const_id c) (OpAssignVariable a)); [|fold r0; lia].
    rewrite op_uses_assign. cbn [op_id] in Hv.
    destruct Hv as [E|[E|[]]]; rewrite E; cbn [is_result_of];
      rewrite Nat.eqb_refl; repeat destruct (is_result_of _ _); lia.
Qed.

Lemma old_assign_skipped (a : AssignVariableOp) (hs : list VarHandleOp) :
  In (OpAssignVariable a) (region_ops (stripped r0)) ->
  strip_one (getBody (transformed f), hs) a = Ok (getBody (transformed f), hs).
Proof.
  intros Hin. unfold r0 in Hin. rewrite stripped_kept in Hin.
  apply in_keep in Hin as [Hin Hk].
  assert (Ha : In a (getOps_AssignVariableOp r0))
    by now apply in_getOps_AssignVariableOp.
  assert (Hp : pattern_of r0 a = None).
  { unfold kept in Hk. apply andb_true_iff in Hk as [Hk _].
    cbn [stripped_assign] in Hk.
    rewrite (in_assigns_existsb f a Ha) in Hk. unfold r0.
    destruct (pattern_of (getBody f) a); [discriminate|reflexivity]. }
  pose proof Hcast as Hc. unfold casts_defined in Hc.
  rewrite forallb_forall in Hc. specialize (Hc a Ha).
  apply andb_true_iff in Hc as [Hres Hval]. apply negb_true_iff in Hres.
  destruct (operand_resolves r0 (verified_defined f Hver) _ (assign_resource a) Hin)
    as [d Hd]; [simpl; auto|exact Hres|].
  apply (strip_one_skips _ hs a d).
  - apply (skipped_definition a); simpl; auto.
  - destruct d as [h| | | |]; try exact I.
    fold r0 in Hval. rewrite Hd in Hval. apply negb_true_iff in Hval.
    destruct (operand_resolves r0 (verified_defined f Hver) _ (assign_value a) Hin)
      as [d' Hd']; [simpl; auto|exact Hval|].
    exists d'. split; [apply (skipped_definition a); simpl; auto|].
    unfold pattern_of in Hp. rewrite Hd, Hd' in Hp.
    destruct d'; try reflexivity. discriminate.
Qed.

Lemma new_assign_skipped (a : AssignVariableOp) (hs : list VarHandleOp) :
  In (OpAssignVariable a) news ->
  strip_one (getBody (transformed f), hs) a = Ok (getBody (transformed f), hs).
Proof.
  intros Hin. unfold news, new_ops in Hin.
  destruct Hin as [Hin|[Hin|[Hin|Hin]]]; try discriminate.
  apply in_map_iff in Hin as (a' & Ha' & Hin). injection Ha' as ->.
  apply in_new_assigns_from in Hin as (h & k & Hh & Hr & Hv).
  assert (Hvh : In (OpVarHandle h) (region_ops r0)).
  { unfold collected in Hh. apply in_map_iff in Hh as (p & <- & Hp).
    apply (in_patterns f) in Hp as [_ Hp].
    apply pattern_of_some in Hp as [Hp _].
    now apply getDefiningOp_in in Hp as [Hp _]. }
  apply (strip_one_skips _ hs a (OpVarHandle h)).
  - rewrite Hr. unfold result_of.
    rewrite old_definition
      by (apply (verified_below_mark f Hver (OpVarHandle h)), Hvh).
    cbn [getDefiningOp].
    apply (find_by_id _ (OpVarHandle h) stripped_NoDup).
    unfold r0. rewrite stripped_kept. apply in_keep. split; [exact Hvh|reflexivity].
  - eexists. split; [rewrite Hv; apply restore_definition|reflexivity].
Qed.

Lemma transformed_scan :
  RemoveAssignVariableOpsAndConstOps (transformed f) = Ok (transformed f, []).
Proof.
  unfold RemoveAssignVariableOpsAndConstOps.
  rewrite strip_loop_skips.
  - cbn [bind]. now rewrite setBody_same.
  - intros a Ha hs. apply in_getOps_AssignVariableOp in Ha.
    apply (in_transformed f Hver Hpat) in Ha as [Ha|Ha].
    + now apply old_assign_skipped.
    + now apply new_assign_skipped.
Qed.

End SecondRun.

(** C5, as stated, fails.  The first run on the module with two variables
    changes it and creates one [RestoreV2Op]; the second run, on the output
    of the first, returns its input: there is still exactly one
    [RestoreV2Op], not two. *)
Lemma C5_counterexample :
  runOnOperation two_vars = Ok two_vars_restored
  /\ two_vars_restored <> two_vars
  /\ length (restore_ops two_vars) = 0
  /\ length (restore_ops two_vars_restored) = 1
  /\ runOnOperation two_vars_restored = Ok two_vars_restored.
Proof.
  split; [vm_compute; reflexivity|].
  split.
  { intros H. apply (f_equal (fun m => length (restore_ops m))) in H.
    vm_compute in H. discriminate. }
  split; [vm_compute; reflexivity|].
  split; vm_compute; reflexivity.
Qed.

(** C5, amended.  The pass returns on an admissible module, and running it
    again on the module it returned returns that module unchanged: the new
    assignments take their values from the [RestoreV2Op], not from a
    constant, so the second scan collects no handle and no second
    [RestoreV2Op] is created. *)
Theorem C5_second_run_changes_nothing (m : ModuleOp) (fn : nat) (f : FuncOp) :
  GetInitializerFunction m kTfSavedModelInitializerRestoreType = Some (fn, f) ->
  verified f = true ->
  casts_defined (getBody f) = true ->
  within_limits f = true ->
  exists m1,
    runOnOperation m = Ok m1
    /\ runOnOperation m1 = Ok m1
    /\ length (restore_ops m1)
       = length (restore_ops m)
         + match patterns (getBody f) with [] => 0 | _ :: _ => 1 end.
Proof.
  intros Hget Hver Hcast Hlim.
  pose proof (runOnOperation_spec m fn f Hget Hver Hcast Hlim) as Hrun.
  destruct (patterns (getBody f)) as [|p ps] eqn:Ep.
  - exists m. split; [exact Hrun|]. split; [exact Hrun|]. lia.
  - assert (Hpat : patterns (getBody f) <> []) by (rewrite Ep; discriminate).
    exists (replace_nth fn (transformed f) m).
    split; [exact Hrun|].
    pose proof (find_indexed_some _ _ _ _ Hget) as [Hnth Htype].
    split.
    + unfold runOnOperation, GetInitializerFunction.
      rewrite (find_indexed_replace _ m fn f (transformed f) Hget).
      * rewrite (transformed_scan f Hver Hcast Hpat). cbn [bind].
        apply f_equal. apply replace_nth_same.
        eapply nth_error_replace_nth_same, Hnth.
      * destruct (transformed_eq f Hver Hpat) as (? & ? & ? & _ & _ & _ & ->).
        exact Htype.
    + unfold restore_ops.
      apply nth_error_split in Hnth as (l1 & l2 & -> & <-).
      assert (Hrep : replace_nth (length l1) (transformed f) (l1 ++ f :: l2)
                     = l1 ++ transformed f :: l2).
      { clear. induction l1 as [|x l1 IH]; simpl; [reflexivity|]. now rewrite IH. }
      rewrite Hrep, !flat_map_app. cbn [flat_map].
      rewrite !filter_app, !length_app.
      destruct (transformed_ops f Hver Hpat) as (k1 & k2 & Hs & ->).
      rewrite !filter_app, !length_app, new_ops_restore. cbn [length].
      assert (Hk : length (filter isRestoreV2Op (region_ops (getBody f)))
                   = length (filter isRestoreV2Op k1)
                     + length (filter isRestoreV2Op k2)).
      { rewrite <- length_app, <- filter_app, <- Hs.
        rewrite (stripped_kept f), region_ops_keep, filter_filter.
        f_equal. apply filter_ext. intros o.
        destruct o; cbn [isRestoreV2Op]; rewrite ?andb_false_r; reflexivity. }
      lia.
Qed.

Lemma C5_witness :
  GetInitializerFunction two_vars kTfSavedModelInitializerRestoreType
  = Some (1, two_vars_init)
  /\ verified two_vars_init = true
  /\ casts_defined (getBody two_vars_init) = true
  /\ within_limits two_vars_init = true
  /\ exists m1,
      runOnOperation two_vars = Ok m1
      /\ runOnOperation m1 = Ok m1
      /\ length (restore_ops m1) = 1.
Proof.
  assert (H1 : GetInitializerFunction two_vars kTfSavedModelInitializerRestoreType
               = Some (1, two_vars_init)) by reflexivity.
  assert (H2 : verified two_vars_init = true) by reflexivity.
  assert (H3 : casts_defined (getBody two_vars_init) = true) by reflexivity.
  assert (H4 : within_limits two_vars_init = true) by reflexivity.
  split; [exact H1|]. split; [exact H2|]. split; [exact H3|]. split; [exact H4|].
  destruct (C5_second_run_changes_nothing two_vars 1 two_vars_init H1 H2 H3 H4)
    as (m1 & Hr1 & Hr2 & Hn).
  exists m1. split; [exact Hr1|]. split; [exact Hr2|]. exact Hn.
Defined.

(* ================================================================== *)
(** ** Further properties: when the scan is fatal *)

Lemma casts_defined_forallb (r : Region) :
  casts_defined r = forallb (cast_defined r) (getOps_AssignVariableOp r).
Proof. reflexivity. Qed.

Lemma forallb_first_false {A : Type} (p : A -> bool) (l : list A) :
  forallb p l = false ->
  exists l1 x l2, l = l1 ++ x :: l2 /\ forallb p l1 = true /\ p x = false.
Proof.
  induction l as [|y l IH]; simpl; intros H; [discriminate|].
  destruct (p y) eqn:E.
  - destruct (IH H) as (l1 & x & l2 & -> & H1 & Hx).
    exists (y :: l1), x, l2. simpl. rewrite E. auto.
  - exists [], y, l. auto.
Qed.

Lemma strip_loop_app (l1 l2 : list AssignVariableOp) (st : StripState) :
  strip_loop (l1 ++ l2) st = bind (strip_loop l1 st) (strip_loop l2).
Proof.
  revert st. induction l1 as [|a l1 IH]; intros st; [reflexivity|].
  cbn [app strip_loop]. destruct (strip_one st a); cbn [bind]; auto.
Qed.

Section StripLocal.
Variable r0 : Region.
Hypothesis Hnd : NoDup (map op_id (region_ops r0)).
Hypothesis Hdef :
  forall o v, In o (region_ops r0) -> In v (getOperands o) ->
              operand_defined r0 v = true.

(** One step of the scan, for an assignment whose casts are defined. *)
Lemma strip_one_defined (done : list AssignVariableOp) (a : AssignVariableOp)
      (hs : list VarHandleOp) :
  In a (getOps_AssignVariableOp r0) ->
  existsb (has_assign_id (assign_id a)) done = false ->
  cast_defined r0 a = true ->
  strip_one (state_after r0 done, hs) a
  = Ok (state_after r0 (done ++ [a]), hs ++ map pat_handle (as_pattern r0 a)).
Proof.
  intros Hin Hnew Hc.
  assert (Ha : In (OpAssignVariable a) (region_ops r0))
    by now apply in_getOps_AssignVariableOp.
  apply andb_true_iff in Hc as [Hres Hval].
  apply negb_true_iff in Hres.
  destruct (operand_resolves r0 Hdef _ (assign_resource a) Ha) as [d Ed];
    [simpl; auto | exact Hres |].
  unfold strip_one.
  rewrite (defs_stable r0 Hdef done a Hin Hnew (assign_resource a))
    by (simpl; auto).
  rewrite (defs_stable r0 Hdef done a Hin Hnew (assign_value a))
    by (simpl; auto).
  rewrite Ed in Hval |- *.
  assert (Hskip : pattern_of r0 a = None ->
                  Ok (state_after r0 done, hs)
                  = Ok (state_after r0 (done ++ [a]),
                        hs ++ map pat_handle (as_pattern r0 a))).
  { intros Hp. rewrite (state_after_snoc_skip r0 Hnd done a Hin Hp).
    unfold as_pattern. rewrite Hp. simpl. now rewrite app_nil_r. }
  destruct d as [h| | | |]; simpl;
    try (apply Hskip; unfold pattern_of; rewrite Ed; reflexivity).
  apply negb_true_iff in Hval.
  destruct (operand_resolves r0 Hdef _ (assign_value a) Ha) as [d' Ed'];
    [simpl; auto | exact Hval |].
  rewrite Ed'.
  destruct d' as [|c| | |]; simpl;
    try (apply Hskip; unfold pattern_of; rewrite Ed, Ed'; reflexivity).
  assert (Hp : pattern_of r0 a = Some (h, c))
    by (unfold pattern_of; rewrite Ed, Ed'; reflexivity).
  rewrite (state_after_snoc r0 Hnd done a Hin Hnew h c Hp).
  unfold as_pattern. rewrite Hp. reflexivity.
Qed.

(** One step of the scan, for an assignment with a cast of a null
    defining operation. *)
Lemma strip_one_undefined (done : list AssignVariableOp) (a : AssignVariableOp)
      (hs : list VarHandleOp) :
  In a (getOps_AssignVariableOp r0) ->
  existsb (has_assign_id (assign_id a)) done = false ->
  cast_defined r0 a = false ->
  strip_one (state_after r0 done, hs) a = Fatal.
Proof.
  intros Hin Hnew Hc. unfold strip_one.
  rewrite (defs_stable r0 Hdef done a Hin Hnew (assign_resource a))
    by (simpl; auto).
  rewrite (defs_stable r0 Hdef done a Hin Hnew (assign_value a))
    by (simpl; auto).
  unfold cast_defined in Hc. apply andb_false_iff in Hc as [Hc|Hc].
  - apply negb_false_iff in Hc.
    destruct (assign_resource a); [reflexivity|discriminate].
  - destruct (getDefiningOp r0 (assign_resource a)) as [[h| | | |]|];
      try discriminate. cbn [dyn_cast_VarHandleOp bind].
    apply negb_false_iff in Hc.
    destruct (assign_value a); [reflexivity|discriminate].
Qed.

Lemma strip_loop_defined (range : list AssignVariableOp) :
  forall (done : list AssignVariableOp) (hs : list VarHandleOp),
    (forall a, In a range -> In a (getOps_AssignVariableOp r0)) ->
    NoDup (map assign_id (done ++ range)) ->
    forallb (cast_defined r0) range = true ->
    strip_loop range (state_after r0 done, hs)
    = Ok (state_after r0 (done ++ range),
          hs ++ map pat_handle (patterns_in r0 range)).
Proof.
  induction range as [|a rest IH]; intros done hs Hsub Hnd' Hc.
  - simpl. now rewrite !app_nil_r.
  - cbn [forallb] in Hc. apply andb_true_iff in Hc as [Hca Hc].
    cbn [strip_loop].
    rewrite strip_one_defined; [| apply Hsub; now left | | exact Hca].
    + cbn [bind]. rewrite IH; [| | | exact Hc].
      * rewrite <- !app_assoc. cbn [app patterns_in flat_map].
        unfold patterns_in. now rewrite map_app.
      * intros a' Ha'. apply Hsub. now right.
      * now rewrite <- app_assoc.
    + apply not_among. rewrite map_app in Hnd'. cbn [map] in Hnd'.
      apply NoDup_remove_2 in Hnd'. intros Hin. apply Hnd'.
      apply in_or_app. now left.
Qed.

Lemma strip_loop_undefined :
  forallb (cast_defined r0) (getOps_AssignVariableOp r0) = false ->
  strip_loop (getOps_AssignVariableOp r0) (r0, []) = Fatal.
Proof.
  intros Hc. apply forallb_first_false in Hc as (l1 & a & l2 & Hl & H1 & Ha).
  pose proof (assign_ids_NoDup r0 Hnd) as Hnd'. rewrite Hl in Hnd'.
  assert (Hsub : forall x, In x (l1 ++ a :: l2) -> In x (getOps_AssignVariableOp r0))
    by (intros x Hx; now rewrite Hl).
  rewrite Hl, strip_loop_app.
  rewrite <- (state_after_nil r0) at 1.
  rewrite (strip_loop_defined l1 [] []); cbn [app]; [| | | exact H1].
  - cbn [bind strip_loop].
    rewrite strip_one_undefined; [reflexivity | | | exact Ha].
    + apply Hsub, in_or_app. right. now left.
    + apply not_among. rewrite map_app in Hnd'. cbn [map] in Hnd'.
      apply NoDup_remove_2 in Hnd'. intros Hin. apply Hnd'.
      apply in_or_app. now left.
  - intros x Hx. apply Hsub, in_or_app. now left.
  - rewrite map_app in Hnd'. now apply NoDup_app_remove_r in Hnd'.
Qed.

End StripLocal.

(** X1.  On a verified function the scan has one way to fail: it is fatal
    exactly when, for some [AssignVariableOp] of the body, operand 0 is a
    block argument, or operand 0 is the result of a [VarHandleOp] and
    operand 1 is a block argument.  Otherwise it returns. *)
Theorem scan_fatal_iff_null_cast (f : FuncOp) :
  verified f = true ->
  (RemoveAssignVariableOpsAndConstOps f = Fatal
   <-> exists a, In a (getOps_AssignVariableOp (getBody f))
                 /\ cast_defined (getBody f) a = false)
  /\ (RemoveAssignVariableOpsAndConstOps f <> Fatal
      -> RemoveAssignVariableOpsAndConstOps f
         = Ok (setBody f (stripped (getBody f)), collected (getBody f))).
Proof.
  intros Hver.
  destruct (casts_defined (getBody f)) eqn:Hc.
  - pose proof (RemoveAssignVariableOpsAndConstOps_spec f Hver Hc) as Hs.
    split; [split|].
    + rewrite Hs. discriminate.
    + intros (a & Ha & Hca). rewrite casts_defined_forallb in Hc.
      rewrite forallb_forall in Hc. rewrite (Hc a Ha) in Hca. discriminate.
    + intros _. exact Hs.
  - assert (Hf : RemoveAssignVariableOpsAndConstOps f = Fatal).
    { unfold RemoveAssignVariableOpsAndConstOps.
      rewrite (strip_loop_undefined (getBody f) (verified_NoDup f Hver)
                 (verified_defined f Hver)); [reflexivity|].
      now rewrite <- casts_defined_forallb. }
    split; [split|].
    + intros _. rewrite casts_defined_forallb in Hc.
      apply forallb_first_false in Hc as (l1 & a & l2 & Hl & _ & Ha).
      exists a. split; [|exact Ha]. rewrite Hl. apply in_or_app. right. now left.
    + intros _. exact Hf.
    + intros Hne. contradiction.
Qed.

Lemma scan_fatal_iff_null_cast_witness :
  verified value_arg_init = true
  /\ RemoveAssignVariableOpsAndConstOps value_arg_init = Fatal
  /\ verified two_vars_init = true
  /\ RemoveAssignVariableOpsAndConstOps two_vars_init
     = Ok (setBody two_vars_init (stripped (getBody two_vars_init)),
           collected (getBody two_vars_init)).
Proof.
  assert (H1 : verified value_arg_init = true) by reflexivity.
  assert (H2 : verified two_vars_init = true) by reflexivity.
  split; [exact H1|]. split.
  - apply (scan_fatal_iff_null_cast value_arg_init H1).
    exists (assign 2 (OpResult 1 0) (BlockArgument EntryBlock 0)).
    split; [simpl; auto|reflexivity].
  - split; [exact H2|].
    apply (scan_fatal_iff_null_cast two_vars_init H2).
    intros H. vm_compute in H. discriminate.
Defined.

(* ================================================================== *)
(** ** Further properties: what the scan keeps *)

Lemma op_uses_direct (id : OpId) (k : nat) (o : Operation) :
  In (OpResult id k) (getOperands o) -> 1 <= op_uses id o.
Proof.
  intros Hin.
  assert (H : 1 <= length (filter (is_result_of id) (getOperands o))).
  { assert (Hf : In (OpResult id k) (filter (is_result_of id) (getOperands o))).
    { apply filter_In. split; [exact Hin|]. simpl. apply Nat.eqb_refl. }
    destruct (filter (is_result_of id) (getOperands o)); [destruct Hf|simpl; lia]. }
  destruct o; simpl in *; lia.
Qed.

Lemma list_max_lt {A : Type} (g : A -> nat) (l : list A) (n : nat) :
  0 < n -> (forall x, In x l -> g x < n) -> list_max (map g l) < n.
Proof.
  intros Hn. induction l as [|x l IH]; simpl; intros H; [exact Hn|].
  pose proof (H x (or_introl eq_refl)).
  assert (list_max (map g l) < n) by (apply IH; intros y Hy; apply H; now right).
  lia.
Qed.

Lemma flat_map_nil {A B : Type} (g : A -> list B) (l : list A) :
  (forall x, In x l -> g x = []) -> flat_map g l = [].
Proof.
  induction l as [|x l IH]; simpl; intros H; [reflexivity|].
  rewrite (H x) by now left. apply IH. intros y Hy. apply H. now right.
Qed.

Lemma op_id_le_max (o : Operation) : op_id o <= op_max_id o.
Proof. destruct o; simpl; lia. Qed.

Lemma verified_intro (f : FuncOp) :
  NoDup (map op_id (region_ops (getBody f))) ->
  (forall o v, In o (region_ops (getBody f)) -> In v (getOperands o) ->
               operand_defined (getBody f) v = true) ->
  (forall b, In b (getBody f) -> block_terminated b = true) ->
  (forall o, In o (region_ops (getBody f)) -> op_max_id o < next_op_id f) ->
  0 < next_op_id f ->
  verified f = true.
Proof.
  intros Hnd Hdef Hterm Hmax Hpos.
  unfold verified, verified_body.
  repeat (apply andb_true_iff; split).
  - now apply NoDup_nodupb.
  - apply forallb_forall. intros o Ho. apply forallb_forall. intros v Hv.
    exact (Hdef o v Ho Hv).
  - apply forallb_forall. exact Hterm.
  - apply Nat.ltb_lt. unfold region_max_id. now apply list_max_lt.
Qed.

Lemma verified_max_below (f : FuncOp) (o : Operation) :
  verified f = true -> In o (region_ops (getBody f)) ->
  op_max_id o < next_op_id f.
Proof.
  intros Hver Ho. unfold verified in Hver.
  apply andb_true_iff in Hver as [_ Hm]. apply Nat.ltb_lt in Hm.
  pose proof (list_max_in op_max_id _ _ Ho) as Hle.
  unfold region_max_id in Hm. lia.
Qed.

Section ScanKeeps.
Variable f : FuncOp.
Hypothesis Hver : verified f = true.

Let r0 := getBody f.

(** The definition of an operand of an operation the scan keeps is kept. *)
Lemma kept_definition (o : Operation) (v : Value) (d : Operation) :
  In o (region_ops r0) -> kept f o = true ->
  In v (getOperands o) ->
  getDefiningOp r0 v = Some d ->
  kept f d = true.
Proof.
  intros Ho Hk Hv Hd.
  pose proof (verified_defined f Hver o v Ho Hv) as Hdef.
  pose proof (getDefiningOp_in _ _ _ Hd) as (Hdin & k & ->).
  unfold operand_defined in Hdef. fold r0 in Hdef. rewrite Hd in Hdef.
  apply Nat.ltb_lt in Hdef.
  unfold kept. apply andb_true_iff. split; apply negb_true_iff.
  - destruct d; simpl in Hdef |- *; try reflexivity. lia.
  - destruct d as [| c | | |]; try reflexivity.
    cbn [stripped_const]. apply andb_false_iff. right. apply Nat.eqb_neq.
    assert (Hin : In o (region_ops (after_assigns (getBody f)
                                      (getOps_AssignVariableOp (getBody f))))).
    { apply in_keep. split; [exact Ho|].
      unfold kept in Hk. now apply andb_true_iff in Hk as [Hk _]. }
    pose proof (region_uses_in (const_id c) _ _ Hin).
    pose proof (op_uses_direct _ _ _ Hv). simpl in *. lia.
Qed.

Lemma stripped_definition (o : Operation) (v : Value) (d : Operation) :
  In o (region_ops (stripped r0)) ->
  In v (getOperands o) ->
  getDefiningOp r0 v = Some d ->
  getDefiningOp (stripped r0) v = Some d.
Proof.
  intros Ho Hv Hd. unfold r0 in *. rewrite stripped_kept in Ho |- *.
  apply in_keep in Ho as [Ho Hk].
  apply getDefiningOp_keep; [exact Hd|].
  exact (kept_definition o v d Ho Hk Hv Hd).
Qed.

Lemma stripped_operand_defined (o : Operation) (v : Value) :
  In o (region_ops (stripped r0)) ->
  In v (getOperands o) ->
  operand_defined (stripped r0) v = true.
Proof.
  intros Ho Hv.
  assert (Ho0 : In o (region_ops r0)).
  { unfold r0 in Ho. rewrite stripped_kept in Ho. now apply in_keep in Ho as [Ho _]. }
  pose proof (verified_defined f Hver o v Ho0 Hv) as Hdef.
  destruct v as [b n|owner k]; [reflexivity|].
  unfold operand_defined in Hdef |- *. fold r0 in Hdef.
  destruct (getDefiningOp r0 (OpResult owner k)) as [d|] eqn:Hd; [|discriminate].
  now rewrite (stripped_definition o _ d Ho Hv Hd).
Qed.

Lemma stripped_terminated (b : Block) :
  In b (stripped r0) -> block_terminated b = true.
Proof.
  unfold r0. rewrite stripped_kept. unfold keep_ops. intros Hb.
  apply in_map_iff in Hb as (b0 & <- & Hb0).
  destruct (verified_terminated f Hver b0 Hb0) as (init & t & -> & Ht).
  rewrite filter_app. cbn [filter]. rewrite (terminator_kept f t Ht).
  unfold block_terminated. rewrite rev_app_distr. exact Ht.
Qed.

Lemma scan_keeps_verified : verified (setBody f (stripped r0)) = true.
Proof.
  apply verified_intro; cbn [setBody getBody next_op_id].
  - apply (stripped_NoDup f Hver).
  - apply stripped_operand_defined.
  - apply stripped_terminated.
  - intros o Ho. apply (verified_max_below f o Hver).
    unfold r0 in Ho. rewrite stripped_kept in Ho. now apply in_keep in Ho as [Ho _].
  - unfold verified in Hver. apply andb_true_iff in Hver as [_ Hm].
    apply Nat.ltb_lt in Hm. lia.
Qed.

Hypothesis Hcast : casts_defined r0 = true.

(** An assignment the scan keeps is no pattern, before and after. *)
Lemma kept_assign_no_pattern (a : AssignVariableOp) :
  In a (getOps_AssignVariableOp (stripped r0)) ->
  In a (getOps_AssignVariableOp r0)
  /\ pattern_of r0 a = None
  /\ pattern_of (stripped r0) a = None
  /\ cast_defined (stripped r0) a = true.
Proof.
  intros Ha. apply in_getOps_AssignVariableOp in Ha.
  assert (Hs := Ha). unfold r0 in Ha. rewrite stripped_kept in Ha.
  apply in_keep in Ha as [Ha Hk].
  assert (Ha0 : In a (getOps_AssignVariableOp r0))
    by now apply in_getOps_AssignVariableOp.
  assert (Hp : pattern_of r0 a = None).
  { unfold kept in Hk. apply andb_true_iff in Hk as [Hk _].
    cbn [stripped_assign] in Hk.
    rewrite (in_assigns_existsb f a Ha0) in Hk. unfold r0.
    destruct (pattern_of (getBody f) a); [discriminate|reflexivity]. }
  pose proof Hcast as Hc. rewrite casts_defined_forallb in Hc.
  rewrite forallb_forall in Hc. specialize (Hc a Ha0).
  unfold cast_defined in Hc. apply andb_true_iff in Hc as [Hres Hval].
  assert (Hres' := Hres). apply negb_true_iff in Hres'.
  destruct (operand_resolves r0 (verified_defined f Hver) _ (assign_resource a) Ha)
    as [d Hd]; [simpl; auto|exact Hres'|].
  assert (Hd' : getDefiningOp (stripped r0) (assign_resource a) = Some d)
    by (apply (stripped_definition (OpAssignVariable a)); simpl; auto).
  split; [exact Ha0|]. split; [exact Hp|].
  unfold pattern_of, cast_defined. rewrite Hd', Hres. cbn [andb].
  rewrite Hd in Hval.
  destruct d as [h| | | |]; auto.
  assert (Hval' := Hval). apply negb_true_iff in Hval'.
  destruct (operand_resolves r0 (verified_defined f Hver) _ (assign_value a) Ha)
    as [d2 Hd2]; [simpl; auto|exact Hval'|].
  rewrite (stripped_definition (OpAssignVariable a) _ d2 Hs) by (simpl; auto).
  split; [|exact Hval].
  unfold pattern_of in Hp. rewrite Hd, Hd2 in Hp.
  destruct d2; try reflexivity. discriminate.
Qed.

Lemma stripped_no_patterns : patterns (stripped r0) = [].
Proof.
  unfold patterns, patterns_in. apply flat_map_nil. intros a Ha.
  destruct (kept_assign_no_pattern a Ha) as (_ & _ & Hp & _).
  unfold as_pattern. now rewrite Hp.
Qed.

Lemma stripped_casts_defined : casts_defined (stripped r0) = true.
Proof.
  rewrite casts_defined_forallb. apply forallb_forall. intros a Ha.
  now destruct (kept_assign_no_pattern a Ha) as (_ & _ & _ & Hc).
Qed.

End ScanKeeps.

(* ------------------------------------------------------------------ *)
(** *** Uses at any depth, and definitions before uses *)

(** Induction on an operation and the operations nested in it. *)
Lemma Operation_deep_ind (P : Operation -> Prop) :
  (forall op, P (OpVarHandle op)) ->
  (forall op, P (OpConst op)) ->
  (forall op, P (OpAssignVariable op)) ->
  (forall op, P (OpRestoreV2 op)) ->
  (forall id loc name operands result_types regions is_terminator,
      Forall (Forall (Forall P)) regions ->
      P (OtherOp id loc name operands result_types regions is_terminator)) ->
  forall o, P o.
Proof.
  intros H1 H2 H3 H4 H5. fix IH 1.
  intros [op|op|op|op|id loc name operands rts regions t].
  - apply H1.
  - apply H2.
  - apply H3.
  - apply H4.
  - apply H5.
    induction regions as [|r rs IHr]; constructor; [|exact IHr].
    induction r as [|b bs IHb]; constructor; [|exact IHb].
    induction b as [|o os IHo]; constructor; [apply IH|exact IHo].
Qed.

Lemma sum_map_flat_map {A : Type} (g : A -> nat) (h : A -> list Value)
      (p : Value -> bool) (l : list A) :
  Forall (fun x => g x = length (filter p (h x))) l ->
  sum_map g l = length (filter p (flat_map h l)).
Proof.
  unfold sum_map. induction 1 as [|x l Hx _ IH]; simpl; [reflexivity|].
  rewrite filter_app, length_app. congruence.
Qed.

(** The use count of the scan is the count of the operand slots, at any
    depth, that hold a result of the operation. *)
Lemma op_uses_deep (id : OpId) (o : Operation) :
  op_uses id o = length (filter (is_result_of id) (deep_operands o)).
Proof.
  induction o as [op|op|op|op|i loc name operands rts regions t IH]
    using Operation_deep_ind; try reflexivity.
  cbn [op_uses deep_operands]. rewrite filter_app, length_app. f_equal.
  apply sum_map_flat_map.
  eapply Forall_impl; [|exact IH]. intros r Hr.
  apply sum_map_flat_map.
  eapply Forall_impl; [|exact Hr]. intros b Hb.
  now apply sum_map_flat_map.
Qed.

Lemma op_uses_zero (id : OpId) (o : Operation) (v : Value) :
  op_uses id o = 0 -> In v (deep_operands o) -> is_result_of id v = false.
Proof.
  rewrite op_uses_deep. intros H Hv.
  destruct (is_result_of id v) eqn:E; [|reflexivity].
  assert (Hin : In v (filter (is_result_of id) (deep_operands o)))
    by (apply filter_In; auto).
  destruct (filter (is_result_of id) (deep_operands o)); [destruct Hin|discriminate].
Qed.

Lemma find_app_found {A : Type} (p : A -> bool) (l1 l2 : list A) (x : A) :
  find p l1 = Some x -> find p (l1 ++ l2) = Some x.
Proof.
  induction l1 as [|y l1 IH]; simpl; [discriminate|].
  destruct (p y); auto.
Qed.

Lemma available_args_le (n n' : nat) (seen : list Operation) (o : Operation)
      (v : Value) :
  n <= n' -> available n seen o v = true -> available n' seen o v = true.
Proof.
  intros Hle. destruct v as [[|j] k|owner k]; simpl; auto.
  intros H. apply Nat.ltb_lt in H. apply Nat.ltb_lt. lia.
Qed.

Lemma available_seen_app (n : nat) (seen more : list Operation) (o : Operation)
      (v : Value) :
  available n seen o v = true -> available n (seen ++ more) o v = true.
Proof.
  destruct v as [[|j] k|owner k]; simpl; auto.
  intros H. apply orb_true_iff in H as [H|H]; [|rewrite H; apply orb_true_r].
  destruct (find (fun d => op_id d =? owner) seen) as [d|] eqn:E; [|discriminate].
  now rewrite (find_app_found _ _ more _ E), H.
Qed.

Lemma dominated_from_app (n : nat) (l1 l2 : Block) :
  forall seen,
    dominated_from n seen (l1 ++ l2)
    = dominated_from n seen l1 && dominated_from n (seen ++ l1) l2.
Proof.
  induction l1 as [|o l1 IH]; intros seen; cbn [app dominated_from].
  - now rewrite app_nil_r.
  - rewrite IH, <- app_assoc, andb_assoc. reflexivity.
Qed.

Lemma dominated_from_args_le (n n' : nat) (b : Block) :
  n <= n' ->
  forall seen,
    dominated_from n seen b = true -> dominated_from n' seen b = true.
Proof.
  intros Hle. induction b as [|o b IH]; intros seen; cbn [dominated_from];
    [reflexivity|].
  intros H. apply andb_true_iff in H as [Ho Hb].
  apply andb_true_iff. split; [|now apply IH].
  rewrite forallb_forall in Ho |- *. intros v Hv.
  exact (available_args_le n n' _ _ _ Hle (Ho v Hv)).
Qed.

(** Deleting operations keeps definitions before uses, when no operation
    that stays uses, at any depth, an existing result of one that goes. *)
Lemma dominated_from_filter (n : nat) (keep : Operation -> bool)
      (U : list Operation) :
  (forall d o k, In d U -> keep d = false -> In o U -> keep o = true ->
                 In (OpResult (op_id d) k) (deep_operands o) ->
                 (k <? getNumResults d) = false) ->
  forall b seen,
    (forall x, In x seen -> In x U) ->
    (forall x, In x b -> In x U) ->
    dominated_from n seen b = true ->
    dominated_from n (filter keep seen) (filter keep b) = true.
Proof.
  intros Huse. induction b as [|o b IH]; intros seen Hseen Hb;
    cbn [dominated_from filter]; [reflexivity|].
  intros H. apply andb_true_iff in H as [Ho Hrest].
  assert (Hnext : dominated_from n (filter keep (seen ++ [o])) (filter keep b)
                  = true).
  { apply IH; [|intros x Hx; apply Hb; now right|exact Hrest].
    intros x Hx. apply in_app_iff in Hx as [Hx|[<-|[]]]; [now apply Hseen|].
    apply Hb. now left. }
  rewrite filter_app in Hnext. cbn [filter] in Hnext.
  destruct (keep o) eqn:Ek.
  - cbn [dominated_from]. apply andb_true_iff. split; [|exact Hnext].
    rewrite forallb_forall in Ho |- *. intros v Hv. specialize (Ho v Hv).
    destruct v as [[|j] k|owner k]; simpl in *; auto.
    apply orb_true_iff in Ho as [Ho|Ho]; [|rewrite Ho; apply orb_true_r].
    destruct (find (fun d => op_id d =? owner) seen) as [d|] eqn:E;
      [|discriminate].
    pose proof (find_some _ _ E) as [Hd Hid]. apply Nat.eqb_eq in Hid. subst owner.
    destruct (keep d) eqn:Ekd.
    + now rewrite (find_filter _ keep _ _ E Ekd), Ho.
    + rewrite (Huse d o k (Hseen d Hd) Ekd (Hb o (or_introl eq_refl)) Ek Hv) in Ho.
      discriminate.
  - now rewrite app_nil_r in Hnext.
Qed.

Section ScanDeep.
Variable f : FuncOp.
Hypothesis Hver : verified f = true.

Let r0 := getBody f.

(** A constant the scan erased has no use left, at any depth. *)
Lemma erased_const_unused (c : ConstOp) :
  kept f (OpConst c) = false ->
  region_uses (const_id c) (stripped r0) = 0.
Proof.
  intros Hk. unfold kept in Hk. cbn [stripped_assign negb andb] in Hk.
  apply negb_false_iff in Hk. cbn [stripped_const] in Hk.
  apply andb_true_iff in Hk as [_ Hu]. apply Nat.eqb_eq in Hu.
  unfold stripped, state_after.
  pose proof (region_uses_keep_le (const_id c)
                (fun o => negb (stripped_const r0 (getOps_AssignVariableOp r0) o))
                (after_assigns r0 (getOps_AssignVariableOp r0))) as Hle.
  unfold r0 in *. lia.
Qed.

Lemma erased_kinds (d : Operation) :
  kept f d = false -> isAssignVariableOp d = true \/ isConstOp d = true.
Proof. destruct d; simpl; auto; discriminate. Qed.

Lemma erased_unused_deep (d o : Operation) (k : nat) :
  In d (region_ops r0) -> kept f d = false ->
  In o (region_ops r0) -> kept f o = true ->
  In (OpResult (op_id d) k) (deep_operands o) ->
  (k <? getNumResults d) = false.
Proof.
  intros Hd Hkd Ho Hko Hv.
  destruct (erased_kinds d Hkd) as [Hk|Hk]; destruct d as [| c | a | |];
    try discriminate.
  - reflexivity.
  - exfalso.
    assert (Hin : In o (region_ops (stripped r0))).
    { unfold r0. rewrite stripped_kept. apply in_keep. now split. }
    pose proof (region_uses_in (const_id c) _ _ Hin) as Hle.
    rewrite (erased_const_unused c Hkd) in Hle.
    assert (Hz : op_uses (const_id c) o = 0) by lia.
    pose proof (op_uses_zero _ _ _ Hz Hv) as Hr.
    cbn [op_id is_result_of] in Hr. now rewrite Nat.eqb_refl in Hr.
Qed.

(** The scan keeps definitions before uses in every block. *)
Lemma stripped_dominated_from (n : nat) (b : Block) :
  In b r0 ->
  dominated_from n [] b = true ->
  dominated_from n [] (filter (kept f) b) = true.
Proof.
  intros Hb Hd.
  apply (dominated_from_filter n (kept f) (region_ops r0) erased_unused_deep
           b [] (fun x (H : In x []) => False_ind _ H)); [|exact Hd].
  intros x Hx. exact (in_region_ops r0 b x Hb Hx).
Qed.

Lemma stripped_dominated :
  dominated f = true -> dominated (setBody f (stripped r0)) = true.
Proof.
  unfold dominated. cbn [setBody getBody func_arguments]. unfold r0.
  rewrite stripped_kept. unfold keep_ops.
  pose proof stripped_dominated_from as Hs. unfold r0 in Hs.
  destruct (getBody f) as [|b [|b' bs]]; try discriminate.
  cbn [map]. apply Hs. now left.
Qed.

End ScanDeep.

(** X2.  The scan leaves a verified function: operations stay distinct,
    every block keeps its terminator, and every operand of an operation that
    is left still has its definition in the body.  No operation left uses a
    constant the scan erased, neither as an operand of its own nor in an
    operation nested in its regions at any depth: the erased constant has an
    empty use list in the body that is left.  In a body of one block the
    definitions still stand before their uses. *)
Theorem scan_keeps_function_verified (f : FuncOp) :
  verified f = true ->
  casts_defined (getBody f) = true ->
  exists f1 hs,
    RemoveAssignVariableOpsAndConstOps f = Ok (f1, hs)
    /\ verified f1 = true
    /\ (forall o v, In o (region_ops (getBody f1)) -> In v (getOperands o) ->
                    getDefiningOp (getBody f1) v = getDefiningOp (getBody f) v)
    /\ (forall c, In (OpConst c) (region_ops (getBody f)) ->
                  ~ In (OpConst c) (region_ops (getBody f1)) ->
                  use_empty (const_id c) (getBody f1) = true
                  /\ forall o v, In o (region_ops (getBody f1)) ->
                                 In v (deep_operands o) ->
                                 is_result_of (const_id c) v = false)
    /\ (dominated f = true -> dominated f1 = true).
Proof.
  intros Hver Hcast.
  exists (setBody f (stripped (getBody f))), (collected (getBody f)).
  split; [exact (RemoveAssignVariableOpsAndConstOps_spec f Hver Hcast)|].
  split; [exact (scan_keeps_verified f Hver)|].
  split.
  { intros o v Ho Hv. cbn [setBody getBody] in *.
    destruct (getDefiningOp (getBody f) v) as [d|] eqn:Hd.
    - exact (stripped_definition f Hver o v d Ho Hv Hd).
    - destruct v as [b n|owner k]; [reflexivity|].
      cbn [getDefiningOp] in *. rewrite stripped_kept, region_ops_keep.
      now apply find_filter_none. }
  split; [|exact (stripped_dominated f)].
  intros c Hin Hout. cbn [setBody getBody] in *.
  assert (Hk : kept f (OpConst c) = false).
  { destruct (kept f (OpConst c)) eqn:E; [|reflexivity].
    exfalso. apply Hout. rewrite stripped_kept. apply in_keep. now split. }
  pose proof (erased_const_unused f c Hk) as Hz.
  split; [unfold use_empty; now rewrite Hz|].
  intros o v Ho Hv.
  pose proof (region_uses_in (const_id c) _ _ Ho) as Hle.
  apply (op_uses_zero (const_id c) o v); [lia|exact Hv].
Qed.

Lemma scan_keeps_function_verified_witness :
  verified nested_use_init = true
  /\ casts_defined (getBody nested_use_init) = true
  /\ exists f1 hs,
      RemoveAssignVariableOpsAndConstOps nested_use_init = Ok (f1, hs)
      /\ verified f1 = true
      /\ dominated f1 = true.
Proof.
  assert (H1 : verified nested_use_init = true) by reflexivity.
  assert (H2 : casts_defined (getBody nested_use_init) = true) by reflexivity.
  split; [exact H1|]. split; [exact H2|].
  destruct (scan_keeps_function_verified nested_use_init H1 H2)
    as (f1 & hs & Hs & Hv & _ & _ & Hd).
  exists f1, hs. split; [exact Hs|]. split; [exact Hv|].
  apply Hd. reflexivity.
Defined.

(** X3.  The scan only deletes, and deletes only [AssignVariableOp]s and
    [ConstOp]s: every block of the body is the block it was with some
    operations filtered out, in the order they had; no other operation (a
    [VarHandleOp] in particular) is removed; name, arguments, attributes,
    result types and location of the function are untouched. *)
Theorem scan_only_deletes (f : FuncOp) :
  verified f = true ->
  casts_defined (getBody f) = true ->
  exists f1 hs keep,
    RemoveAssignVariableOpsAndConstOps f = Ok (f1, hs)
    /\ getBody f1 = map (filter keep) (getBody f)
    /\ (forall o, isAssignVariableOp o = false -> isConstOp o = false ->
                  keep o = true)
    /\ length (getBody f1) = length (getBody f)
    /\ sym_name f1 = sym_name f
    /\ func_arguments f1 = func_arguments f
    /\ func_attrs f1 = func_attrs f
    /\ func_result_types f1 = func_result_types f
    /\ func_loc f1 = func_loc f.
Proof.
  intros Hver Hcast.
  exists (setBody f (stripped (getBody f))), (collected (getBody f)), (kept f).
  split; [exact (RemoveAssignVariableOpsAndConstOps_spec f Hver Hcast)|].
  cbn [setBody getBody sym_name func_arguments func_attrs func_result_types func_loc].
  rewrite stripped_kept. unfold keep_ops.
  split; [reflexivity|].
  split.
  { intros o Ha Hc. destruct o; simpl in *; try discriminate; reflexivity. }
  split; [apply length_map|].
  repeat split.
Qed.

Lemma scan_only_deletes_witness :
  verified nested_init = true
  /\ casts_defined (getBody nested_init) = true
  /\ exists f1 hs keep,
      RemoveAssignVariableOpsAndConstOps nested_init = Ok (f1, hs)
      /\ getBody f1 = map (filter keep) (getBody nested_init)
      /\ keep nested_if = true.
Proof.
  assert (H1 : verified nested_init = true) by reflexivity.
  assert (H2 : casts_defined (getBody nested_init) = true) by reflexivity.
  split; [exact H1|]. split; [exact H2|].
  destruct (scan_only_deletes nested_init H1 H2)
    as (f1 & hs & keep & Hs & Hb & Hk & _).
  exists f1, hs, keep. split; [exact Hs|]. split; [exact Hb|].
  apply Hk; reflexivity.
Defined.

(** X4.  Scanning twice: the function the scan returns holds no pattern
    any more, and a second scan of it returns it unchanged with no handle
    collected. *)
Theorem scan_twice_collects_nothing (f : FuncOp) :
  verified f = true ->
  casts_defined (getBody f) = true ->
  exists f1 hs,
    RemoveAssignVariableOpsAndConstOps f = Ok (f1, hs)
    /\ patterns (getBody f1) = []
    /\ RemoveAssignVariableOpsAndConstOps f1 = Ok (f1, []).
Proof.
  intros Hver Hcast.
  exists (setBody f (stripped (getBody f))), (collected (getBody f)).
  split; [exact (RemoveAssignVariableOpsAndConstOps_spec f Hver Hcast)|].
  pose proof (stripped_no_patterns f Hver Hcast) as Hp.
  split; [exact Hp|].
  rewrite (RemoveAssignVariableOpsAndConstOps_spec _ (scan_keeps_verified f Hver)
             (stripped_casts_defined f Hver Hcast)).
  rewrite (no_patterns_stripped (setBody f (stripped (getBody f))) Hp).
  rewrite setBody_same. unfold collected.
  cbn [setBody getBody] in Hp |- *. now rewrite Hp.
Qed.

Lemma scan_twice_collects_nothing_witness :
  verified twice_init = true
  /\ casts_defined (getBody twice_init) = true
  /\ exists f1 hs,
      RemoveAssignVariableOpsAndConstOps twice_init = Ok (f1, hs)
      /\ length hs = 2
      /\ RemoveAssignVariableOpsAndConstOps f1 = Ok (f1, []).
Proof.
  assert (H1 : verified twice_init = true) by reflexivity.
  assert (H2 : casts_defined (getBody twice_init) = true) by reflexivity.
  split; [exact H1|]. split; [exact H2|].
  destruct (scan_twice_collects_nothing twice_init H1 H2)
    as (f1 & hs & Hs & _ & Hs2).
  exists f1, hs. split; [exact Hs|]. split; [|exact Hs2].
  assert (E : RemoveAssignVariableOpsAndConstOps twice_init
              = Ok (setBody twice_init (stripped (getBody twice_init)), [w1; w1]))
    by reflexivity.
  rewrite E in Hs. now injection Hs as _ <-.
Defined.

(* ================================================================== *)
(** ** Further properties: what the pass returns *)

Lemma new_assigns_from_seq (rid : OpId) (loc : Location) (hs : list VarHandleOp) :
  forall id i,
    map assign_id (new_assigns_from rid loc id i hs) = seq id (length hs).
Proof.
  induction hs as [|h hs IH]; intros id i; simpl; [reflexivity|].
  now rewrite IH.
Qed.

Lemma new_ops_seq (id0 : OpId) (loc : Location) (n : nat) (hs : list VarHandleOp) :
  map op_id (new_ops id0 loc n hs) = seq id0 (3 + length hs).
Proof.
  unfold new_ops, new_assigns. cbn [map op_id seq Nat.add].
  rewrite map_map. cbn [op_id].
  change (fun x : AssignVariableOp => assign_id x) with assign_id.
  now rewrite new_assigns_from_seq.
Qed.

Lemma in_new_assigns_from_bound (rid : OpId) (loc : Location)
      (hs : list VarHandleOp) :
  forall id i a,
    In a (new_assigns_from rid loc id i hs) ->
    exists h k, In h hs
                /\ assign_resource a = result_of (vh_id h)
                /\ assign_value a = OpResult rid k
                /\ k < i + length hs.
Proof.
  induction hs as [|h hs IH]; intros id i a; simpl; [tauto|].
  intros [<-|H].
  - exists h, i. simpl. repeat split; auto. lia.
  - apply IH in H as (h' & k & Hh & Hr & Hv & Hk).
    exists h', k. repeat split; auto. lia.
Qed.

Lemma new_ops_no_regions (id0 : OpId) (loc : Location) (n : nat)
      (hs : list VarHandleOp) (o : Operation) :
  In o (new_ops id0 loc n hs) -> op_max_id o = op_id o.
Proof.
  unfold new_ops. intros [<-|[<-|[<-|H]]]; try reflexivity.
  apply in_map_iff in H as (a & <- & _). reflexivity.
Qed.

Section PassKeeps.
Variable f : FuncOp.
Hypothesis Hver : verified f = true.
Hypothesis Hpat : patterns (getBody f) <> [].

Let r0 := getBody f.
Let id0 := next_op_id f.
Let hs := collected r0.
Let news := new_ops id0 (func_loc f) (length (func_arguments f)) hs.
Let f2 := transformed f.

Lemma transformed_NoDup : NoDup (map op_id (region_ops (getBody f2))).
Proof.
  destruct (transformed_ops f Hver Hpat) as (l1 & l2 & Hs & Ht).
  unfold f2. rewrite Ht, !map_app.
  apply (Permutation_NoDup (Permutation_app_swap_app _ _ _)).
  apply NoDup_app.
  - rewrite new_ops_seq. apply seq_NoDup.
  - rewrite <- map_app, <- Hs. apply (stripped_NoDup f Hver).
  - intros id Hnew Hold. rewrite new_ops_seq in Hnew. apply in_seq in Hnew.
    rewrite <- map_app, <- Hs in Hold.
    apply in_map_iff in Hold as (o & <- & Ho).
    pose proof (stripped_below_mark f Hver o Ho). lia.
Qed.

Lemma transformed_definition (o : Operation) (k : nat) :
  In o (region_ops (getBody f2)) ->
  getDefiningOp (getBody f2) (OpResult (op_id o) k) = Some o.
Proof.
  intros Ho. cbn [getDefiningOp]. apply find_by_id; [apply transformed_NoDup|exact Ho].
Qed.

Lemma in_transformed_old (o : Operation) :
  In o (region_ops (stripped r0)) -> In o (region_ops (getBody f2)).
Proof. intros Ho. apply (in_transformed f Hver Hpat). now left. Qed.

Lemma in_transformed_new (o : Operation) :
  In o news -> In o (region_ops (getBody f2)).
Proof. intros Ho. apply (in_transformed f Hver Hpat). now right. Qed.

Lemma collected_handle_in (h : VarHandleOp) :
  In h hs -> In (OpVarHandle h) (region_ops (stripped r0)).
Proof.
  intros Hh. unfold hs, collected in Hh.
  apply in_map_iff in Hh as (p & <- & Hp).
  apply (in_patterns f) in Hp as [_ Hp].
  apply pattern_of_some in Hp as [Hp _].
  apply getDefiningOp_in in Hp as [Hp _].
  unfold r0. rewrite stripped_kept. apply in_keep. split; [exact Hp|reflexivity].
Qed.

Lemma transformed_operand_defined (o : Operation) (v : Value) :
  In o (region_ops (getBody f2)) -> In v (getOperands o) ->
  operand_defined (getBody f2) v = true.
Proof.
  intros Ho Hv. apply (in_transformed f Hver Hpat) in Ho as [Ho|Ho].
  - pose proof (stripped_operand_defined f Hver o v Ho Hv) as Hd.
    destruct v as [b n|owner k]; [reflexivity|].
    unfold operand_defined in Hd |- *.
    destruct (getDefiningOp (stripped (getBody f)) (OpResult owner k)) as [d|] eqn:Ed;
      [|discriminate].
    pose proof (getDefiningOp_in _ _ _ Ed) as (Hdin & k' & Hk).
    injection Hk as -> ->.
    now rewrite (transformed_definition d k' (in_transformed_old d Hdin)).
  - fold id0 hs in Ho. unfold new_ops in Ho.
    destruct Ho as [<-|[<-|[<-|Ho]]]; try (destruct Hv; fail).
    + cbn [getOperands new_restore restore_prefix restore_tensor_names
             restore_shape_and_slices] in Hv.
      destruct Hv as [<-|[<-|[<-|[]]]]; [reflexivity| |].
      * unfold operand_defined, result_of.
        change id0 with (op_id (OpConst (new_tensor_names id0 hs))).
        rewrite transformed_definition; [reflexivity|].
        apply in_transformed_new. unfold news, new_ops. now left.
      * unfold operand_defined, result_of.
        change (S id0) with (op_id (OpConst (new_shape_and_slices id0 hs))).
        rewrite transformed_definition; [reflexivity|].
        apply in_transformed_new. unfold news, new_ops. right. now left.
    + apply in_map_iff in Ho as (a & <- & Ha).
      apply in_new_assigns_from_bound in Ha as (h & k & Hh & Hr & Hval & Hk).
      cbn [getOperands] in Hv. destruct Hv as [<-|[<-|[]]].
      * rewrite Hr. unfold operand_defined, result_of.
        change (vh_id h) with (op_id (OpVarHandle h)).
        rewrite transformed_definition; [reflexivity|].
        apply in_transformed_old, collected_handle_in, Hh.
      * rewrite Hval. unfold operand_defined.
        change (S (S id0))
          with (op_id (OpRestoreV2 (new_restore id0 (func_loc f)
                                      (length (func_arguments f)) hs))).
        rewrite transformed_definition.
        -- cbn [getNumResults new_restore restore_tensors].
           rewrite length_map. apply Nat.ltb_lt. simpl in Hk. exact Hk.
        -- apply in_transformed_new. unfold news, new_ops. right. right. now left.
Qed.

Lemma transformed_terminated (b : Block) :
  In b (getBody f2) -> block_terminated b = true.
Proof.
  destruct (transformed_eq f Hver Hpat) as (init & t & others & _ & Ht & Hs & Htr).
  unfold f2. rewrite Htr. cbn [with_restore getBody]. intros [<-|Hb].
  - unfold block_terminated. rewrite !app_assoc, rev_app_distr. exact Ht.
  - apply (stripped_terminated f Hver). rewrite Hs. now right.
Qed.

Lemma transformed_mark : next_op_id f2 = id0 + 3 + length hs.
Proof.
  destruct (transformed_eq f Hver Hpat) as (init & t & others & _ & _ & _ & Htr).
  unfold f2. rewrite Htr. reflexivity.
Qed.

Lemma transformed_verified : verified f2 = true.
Proof.
  apply verified_intro.
  - apply transformed_NoDup.
  - apply transformed_operand_defined.
  - apply transformed_terminated.
  - intros o Ho. rewrite transformed_mark.
    apply (in_transformed f Hver Hpat) in Ho as [Ho|Ho].
    + assert (op_max_id o < next_op_id f); [|unfold id0; lia].
      apply (verified_max_below f o Hver).
      unfold r0 in Ho. rewrite stripped_kept in Ho. now apply in_keep in Ho as [Ho _].
    + rewrite (new_ops_no_regions _ _ _ _ _ Ho).
      assert (Hin : In (op_id o) (map op_id news)) by (apply in_map; exact Ho).
      unfold news in Hin. rewrite new_ops_seq in Hin. apply in_seq in Hin. lia.
  - rewrite transformed_mark. lia.
Qed.

Hypothesis Hcast : casts_defined r0 = true.

Lemma transformed_assign_no_pattern (a : AssignVariableOp) :
  In a (getOps_AssignVariableOp (getBody f2)) ->
  pattern_of (getBody f2) a = None /\ cast_defined (getBody f2) a = true.
Proof.
  intros Ha. apply in_getOps_AssignVariableOp in Ha.
  assert (Hin := Ha).
  apply (in_transformed f Hver Hpat) in Ha as [Ha|Ha].
  - assert (Ha' : In a (getOps_AssignVariableOp (stripped r0)))
      by now apply in_getOps_AssignVariableOp.
    destruct (kept_assign_no_pattern f Hver Hcast a Ha') as (Ha0 & Hp0 & Hp & Hc).
    assert (Hdefs : forall v, In v (getOperands (OpAssignVariable a)) ->
                      getDefiningOp (getBody f2) v
                      = getDefiningOp (stripped r0) v).
    { intros v Hv. pose proof (stripped_operand_defined f Hver _ v Ha Hv) as Hd.
      destruct v as [b n|owner k]; [reflexivity|].
      unfold operand_defined in Hd.
      destruct (getDefiningOp (stripped (getBody f)) (OpResult owner k)) as [d|] eqn:Ed;
        [|discriminate].
      unfold r0. rewrite Ed.
      pose proof (getDefiningOp_in _ _ _ Ed) as (Hdin & k' & Hk).
      injection Hk as -> ->.
      exact (transformed_definition d k' (in_transformed_old d Hdin)). }
    unfold pattern_of, cast_defined in *.
    rewrite !Hdefs by (simpl; auto). auto.
  - fold id0 hs in Ha. unfold new_ops in Ha.
    destruct Ha as [Ha|[Ha|[Ha|Ha]]]; try discriminate.
    apply in_map_iff in Ha as (a' & Heq & Ha). injection Heq as ->.
    apply in_new_assigns_from_bound in Ha as (h & k & Hh & Hr & Hv & _).
    unfold pattern_of, cast_defined. rewrite Hr, Hv. unfold result_of.
    change (vh_id h) with (op_id (OpVarHandle h)).
    rewrite transformed_definition
      by (apply in_transformed_old, collected_handle_in, Hh).
    change (S (S id0))
      with (op_id (OpRestoreV2 (new_restore id0 (func_loc f)
                                  (length (func_arguments f)) hs))).
    rewrite transformed_definition
      by (apply in_transformed_new; unfold news, new_ops; right; right; now left).
    split; reflexivity.
Qed.

Lemma transformed_no_patterns : patterns (getBody f2) = [].
Proof.
  unfold patterns, patterns_in. apply flat_map_nil. intros a Ha.
  destruct (transformed_assign_no_pattern a Ha) as [Hp _].
  unfold as_pattern. now rewrite Hp.
Qed.

Lemma transformed_casts_defined : casts_defined (getBody f2) = true.
Proof.
  rewrite casts_defined_forallb. apply forallb_forall. intros a Ha.
  now destruct (transformed_assign_no_pattern a Ha) as [_ Hc].
Qed.

End PassKeeps.

(* ------------------------------------------------------------------ *)
(** *** Definitions before uses, after the pass *)

Lemma find_new_op (l rest : list Operation) (o : Operation) :
  (forall x, In x l -> op_id x < op_id o) ->
  find (fun d => op_id d =? op_id o) (l ++ o :: rest) = Some o.
Proof.
  intros Hl. rewrite find_app_none.
  - simpl. now rewrite Nat.eqb_refl.
  - intros x Hx. apply Nat.eqb_neq. specialize (Hl x Hx). lia.
Qed.

(** The new assignments stand after the [RestoreV2Op] and the handles. *)
Lemma new_assigns_dominated (n : nat) (r : RestoreV2Op) (loc : Location)
      (hs : list VarHandleOp) :
  forall (id i : nat) (seen : list Operation),
    find (fun d => op_id d =? restore_id r) seen = Some (OpRestoreV2 r) ->
    (forall h, In h hs ->
               find (fun d => op_id d =? vh_id h) seen = Some (OpVarHandle h)) ->
    i + length hs <= length (restore_tensors r) ->
    dominated_from n seen
      (map OpAssignVariable (new_assigns_from (restore_id r) loc id i hs)) = true.
Proof.
  induction hs as [|h hs IH]; intros id i seen Hr Hh Hi; [reflexivity|].
  cbn [new_assigns_from map dominated_from deep_operands getOperands
       assign_resource assign_value forallb available result_of].
  rewrite (Hh h (or_introl eq_refl)), Hr. cbn [getNumResults orb andb].
  replace (i <? length (restore_tensors r)) with true
    by (symmetry; apply Nat.ltb_lt; simpl in Hi; lia).
  cbn [orb andb]. apply IH.
  - now apply find_app_found.
  - intros h' Hh'. apply find_app_found, Hh. now right.
  - simpl in Hi. lia.
Qed.

Section PassDominated.
Variable f : FuncOp.
Hypothesis Hver : verified f = true.
Hypothesis Hpat : patterns (getBody f) <> [].
Hypothesis Hdom : dominated f = true.

(** In a body of one block the pass keeps definitions before uses: what
    the scan leaves keeps its order, and the new operations stand before the
    terminator, after the handles they assign to. *)
Lemma transformed_dominated : dominated (transformed f) = true.
Proof.
  destruct (transformed_eq f Hver Hpat) as (init & t & others & Hb & Ht & Hs & Htr).
  pose proof (stripped_NoDup f Hver) as Hnd.
  pose proof (stripped_below_mark f Hver) as Hlow.
  pose proof (collected_handle_in f) as Hhandle.
  rewrite Hs in Hnd, Hlow, Hhandle.
  rewrite Htr. unfold dominated in *. rewrite Hb in Hdom.
  destruct others as [|b' bs]; [|discriminate].
  cbn [with_restore getBody func_arguments setBody map next_op_id func_loc].
  cbn [map region_ops concat] in Hnd, Hlow, Hhandle.
  rewrite app_nil_r in Hnd, Hlow, Hhandle.
  set (n := length (func_arguments f)) in *.
  set (n' := length (func_arguments f ++ [file_prefix_argument])).
  assert (Hn : n <= n') by (unfold n, n'; rewrite length_app; lia).
  set (init' := filter (kept f) init) in *.
  (* what the scan left *)
  assert (Hleft : dominated_from n [] (init' ++ [t]) = true).
  { pose proof (dominated_from_filter n (kept f) (region_ops (getBody f))
                  (erased_unused_deep f) (init ++ [t]) []) as Hf.
    cbn [filter] in Hf. rewrite filter_app in Hf. cbn [filter] in Hf.
    rewrite (terminator_kept f t Ht) in Hf. apply Hf; [intros x []| |exact Hdom].
    intros x Hx. rewrite Hb. unfold region_ops. cbn [concat].
    now rewrite app_nil_r. }
  rewrite dominated_from_app in Hleft. cbn [app] in Hleft.
  apply andb_true_iff in Hleft as [Hinit Hterm].
  rewrite !dominated_from_app. cbn [app].
  apply andb_true_iff. split; [|apply andb_true_iff; split].
  - exact (dominated_from_args_le n n' init' Hn [] Hinit).
  - (* the new operations *)
    assert (Hlow' : forall x, In x init' -> op_id x < next_op_id f).
    { intros x Hx. apply Hlow, in_or_app. now left. }
    set (hs := collected (getBody f)) in *.
    set (id0 := next_op_id f) in *.
    set (c1 := new_tensor_names id0 hs).
    set (c2 := new_shape_and_slices id0 hs).
    set (r := new_restore id0 (func_loc f) n hs).
    unfold new_ops. fold c1 c2 r.
    cbn [dominated_from deep_operands getOperands forallb andb].
    assert (F1 : find (fun d => op_id d =? id0) ((init' ++ [OpConst c1]) ++ [OpConst c2])
                 = Some (OpConst c1)).
    { rewrite <- app_assoc. cbn [app].
      apply (find_new_op init' [OpConst c2] (OpConst c1)). exact Hlow'. }
    assert (F2 : find (fun d => op_id d =? S id0)
                      ((init' ++ [OpConst c1]) ++ [OpConst c2])
                 = Some (OpConst c2)).
    { apply (find_new_op (init' ++ [OpConst c1]) [] (OpConst c2)).
      intros x Hx. apply in_app_iff in Hx as [Hx|[<-|[]]].
      - specialize (Hlow' x Hx). simpl. lia.
      - simpl. lia. }
    cbn [restore_prefix restore_tensor_names restore_shape_and_slices r new_restore
         available result_of].
    rewrite F1, F2. cbn [getNumResults orb andb].
    replace (n <? n') with true
      by (symmetry; apply Nat.ltb_lt; unfold n, n'; rewrite length_app; simpl; lia).
    cbn [andb]. unfold new_assigns.
    apply (new_assigns_dominated n' r (func_loc f) hs (S (S (S id0))) 0).
    + apply (find_new_op ((init' ++ [OpConst c1]) ++ [OpConst c2]) [] (OpRestoreV2 r)).
      intros x Hx. apply in_app_iff in Hx as [Hx|[<-|[]]]; [|simpl; lia].
      apply in_app_iff in Hx as [Hx|[<-|[]]]; [|simpl; lia].
      specialize (Hlow' x Hx). simpl. lia.
    + intros h Hh. apply find_app_found, find_app_found, find_app_found.
      apply (find_by_id init' (OpVarHandle h)).
      * rewrite map_app in Hnd. now apply NoDup_app_remove_r in Hnd.
      * specialize (Hhandle h Hh). apply in_app_iff in Hhandle as [Hi|[Heq|[]]];
          [exact Hi|rewrite Heq in Ht; discriminate].
    + unfold r. cbn [restore_tensors new_restore]. rewrite length_map. lia.
  - (* the terminator *)
    cbn [dominated_from] in Hterm |- *. rewrite andb_true_r in Hterm |- *.
    rewrite forallb_forall in Hterm |- *. intros v Hv.
    apply available_seen_app, (available_args_le n n' _ _ _ Hn), Hterm, Hv.
Qed.

End PassDominated.

(** X5.  For an initializer function whose body is one block, with every
    value used - by an operation of the block or by one nested in it at any
    depth - defined by an operation standing before, by an operation inside
    the user or as an existing argument, the pass returns a module whose
    initializer function is of that kind again: the operations the scan
    leaves keep their order and lose no definition they use, and the new
    operations stand before the terminator, after the handles, the constants
    and the [RestoreV2Op] they read and below the new argument.  Besides,
    identities are distinct, every block is terminated, no qualifying
    pattern is left, no scanned operand is a block argument, and the
    function is still the one the lookup of the "restore_op" initializer
    finds, at the same position, under the same name, attributes and result
    types.  (A body of several blocks is not covered: the new operations
    always go to the entry block.) *)
Theorem pass_output_well_formed (m : ModuleOp) (fn : nat) (f : FuncOp) :
  GetInitializerFunction m kTfSavedModelInitializerRestoreType = Some (fn, f) ->
  verified f = true ->
  casts_defined (getBody f) = true ->
  within_limits f = true ->
  dominated f = true ->
  exists (m' : ModuleOp) (f' : FuncOp),
    runOnOperation m = Ok m'
    /\ GetInitializerFunction m' kTfSavedModelInitializerRestoreType = Some (fn, f')
    /\ dominated f' = true
    /\ verified f' = true
    /\ casts_defined (getBody f') = true
    /\ patterns (getBody f') = []
    /\ sym_name f' = sym_name f
    /\ func_attrs f' = func_attrs f
    /\ func_result_types f' = func_result_types f
    /\ func_loc f' = func_loc f.
Proof.
  intros Hget Hver Hcast Hlim Hdom.
  pose proof (runOnOperation_spec m fn f Hget Hver Hcast Hlim) as Hrun.
  destruct (patterns (getBody f)) as [|p ps] eqn:Ep.
  - exists m, f. repeat split; auto.
  - assert (Hpat : patterns (getBody f) <> []) by (rewrite Ep; discriminate).
    exists (replace_nth fn (transformed f) m), (transformed f).
    split; [exact Hrun|].
    pose proof (find_indexed_some _ _ _ _ Hget) as [_ Htype].
    assert (Hsame : sym_name (transformed f) = sym_name f
                    /\ func_attrs (transformed f) = func_attrs f
                    /\ func_result_types (transformed f) = func_result_types f
                    /\ func_loc (transformed f) = func_loc f).
    { destruct (transformed_eq f Hver Hpat) as (? & ? & ? & _ & _ & _ & ->).
      repeat split. }
    destruct Hsame as (Hn & Ha & Hr & Hl).
    split.
    { apply (find_indexed_replace _ m fn f (transformed f) Hget).
      unfold has_initializer_type in *. now rewrite Ha. }
    split; [exact (transformed_dominated f Hver Hpat Hdom)|].
    split; [exact (transformed_verified f Hver Hpat)|].
    split; [exact (transformed_casts_defined f Hver Hpat Hcast)|].
    split; [exact (transformed_no_patterns f Hver Hpat Hcast)|].
    auto.
Qed.

Lemma pass_output_well_formed_witness :
  GetInitializerFunction nested_use_module kTfSavedModelInitializerRestoreType
  = Some (0, nested_use_init)
  /\ verified nested_use_init = true
  /\ casts_defined (getBody nested_use_init) = true
  /\ within_limits nested_use_init = true
  /\ dominated nested_use_init = true
  /\ exists m' f',
      runOnOperation nested_use_module = Ok m'
      /\ GetInitializerFunction m' kTfSavedModelInitializerRestoreType = Some (0, f')
      /\ dominated f' = true
      /\ verified f' = true.
Proof.
  assert (H1 : GetInitializerFunction nested_use_module
                 kTfSavedModelInitializerRestoreType
               = Some (0, nested_use_init)) by reflexivity.
  assert (H2 : verified nested_use_init = true) by reflexivity.
  assert (H3 : casts_defined (getBody nested_use_init) = true) by reflexivity.
  assert (H4 : within_limits nested_use_init = true) by reflexivity.
  assert (H5 : dominated nested_use_init = true) by reflexivity.
  split; [exact H1|]. split; [exact H2|]. split; [exact H3|]. split; [exact H4|].
  split; [exact H5|].
  destruct (pass_output_well_formed nested_use_module 0 nested_use_init
              H1 H2 H3 H4 H5) as (m' & f' & Hr & Hg & Hd & Hv & _).
  exists m', f'. split; [exact Hr|]. split; [exact Hg|]. split; [exact Hd|exact Hv].
Defined.

(* ================================================================== *)
(** ** Further properties: the variables that are assigned *)

Lemma assigns_of_map (l : list AssignVariableOp) :
  flat_map as_AssignVariableOp (map OpAssignVariable l) = l.
Proof. induction l as [|a l IH]; simpl; [reflexivity|]. now rewrite IH. Qed.

Lemma assigns_of_filter (p : Operation -> bool) (l : list Operation) :
  flat_map as_AssignVariableOp (filter p l)
  = filter (fun a => p (OpAssignVariable a)) (flat_map as_AssignVariableOp l).
Proof.
  induction l as [|o l IH]; simpl; [reflexivity|].
  destruct o; simpl; destruct (p _) eqn:E; simpl; rewrite ?E; simpl;
    now rewrite IH.
Qed.

Lemma assigns_of_new_ops (id0 : OpId) (loc : Location) (n : nat)
      (hs : list VarHandleOp) :
  flat_map as_AssignVariableOp (new_ops id0 loc n hs) = new_assigns id0 loc hs.
Proof. unfold new_ops. cbn [flat_map as_AssignVariableOp app]. apply assigns_of_map. Qed.

Lemma new_assigns_from_resources (rid : OpId) (loc : Location)
      (hs : list VarHandleOp) :
  forall id i,
    map assign_resource (new_assigns_from rid loc id i hs)
    = map (fun h => result_of (vh_id h)) hs.
Proof.
  induction hs as [|h hs IH]; intros id i; simpl; [reflexivity|].
  now rewrite IH.
Qed.

Lemma Permutation_filter_split {A : Type} (p : A -> bool) (l : list A) :
  Permutation l (filter p l ++ filter (fun x => negb (p x)) l).
Proof.
  induction l as [|x l IH]; simpl; [constructor|].
  destruct (p x); simpl.
  - now constructor.
  - now apply Permutation_cons_app.
Qed.

Lemma patterns_in_assigns (r : Region) (l : list AssignVariableOp) :
  map pat_assign (patterns_in r l) = filter (is_pattern r) l.
Proof.
  unfold patterns_in, is_pattern, as_pattern.
  induction l as [|a l IH]; simpl; [reflexivity|].
  destruct (pattern_of r a) as [[h c]|]; simpl; now rewrite IH.
Qed.

Section AssignedVariables.
Variable f : FuncOp.
Hypothesis Hver : verified f = true.

Let r0 := getBody f.

Lemma pattern_resource (a : AssignVariableOp) (h : VarHandleOp) (c : ConstOp) :
  In a (getOps_AssignVariableOp r0) ->
  pattern_of r0 a = Some (h, c) ->
  assign_resource a = result_of (vh_id h).
Proof.
  intros Ha Hp. apply pattern_of_some in Hp as [Hh _].
  apply in_getOps_AssignVariableOp in Ha.
  pose proof (verified_defined f Hver _ (assign_resource a) Ha
                (or_introl eq_refl)) as Hd.
  destruct (getDefiningOp_in _ _ _ Hh) as (_ & k & Hk).
  unfold operand_defined in Hd. rewrite Hk in Hd |- *. rewrite <- Hk in Hd.
  fold r0 in Hd. rewrite Hh in Hd. cbn [getNumResults] in Hd.
  apply Nat.ltb_lt in Hd. unfold result_of. cbn [op_id]. f_equal. lia.
Qed.

Lemma pattern_resources :
  map (fun h => result_of (vh_id h)) (collected r0)
  = map (fun p => assign_resource (pat_assign p)) (patterns r0).
Proof.
  unfold collected. rewrite map_map. apply map_ext_in. intros p Hp.
  apply (in_patterns f) in Hp as [Ha Hp].
  symmetry. exact (pattern_resource _ _ _ Ha Hp).
Qed.

Lemma kept_assign (a : AssignVariableOp) :
  In a (getOps_AssignVariableOp r0) ->
  kept f (OpAssignVariable a) = negb (is_pattern r0 a).
Proof.
  intros Ha. unfold kept, is_pattern, r0 in *.
  cbn [stripped_assign stripped_const].
  rewrite (in_assigns_existsb f a Ha). cbn [andb negb].
  now rewrite andb_true_r.
Qed.

Lemma stripped_assigns :
  getOps_AssignVariableOp (stripped r0)
  = filter (fun a => negb (is_pattern r0 a)) (getOps_AssignVariableOp r0).
Proof.
  unfold r0 at 1. rewrite stripped_kept. unfold getOps_AssignVariableOp.
  rewrite region_ops_keep, assigns_of_filter.
  apply filter_ext_in. intros a Ha. now apply kept_assign.
Qed.

Hypothesis Hpat : patterns (getBody f) <> [].

Lemma transformed_assigns :
  Permutation
    (getOps_AssignVariableOp (getBody (transformed f)))
    (new_assigns (next_op_id f) (func_loc f) (collected r0)
     ++ getOps_AssignVariableOp (stripped r0)).
Proof.
  destruct (transformed_ops f Hver Hpat) as (l1 & l2 & Hs & Ht).
  unfold getOps_AssignVariableOp. rewrite Ht. fold r0 in Hs |- *. rewrite Hs.
  rewrite !flat_map_app, assigns_of_new_ops.
  apply Permutation_app_swap_app.
Qed.

Lemma transformed_resources :
  Permutation
    (map assign_resource (getOps_AssignVariableOp (getBody (transformed f))))
    (map assign_resource (getOps_AssignVariableOp r0)).
Proof.
  rewrite (Permutation_map _ transformed_assigns), map_app.
  unfold new_assigns. rewrite new_assigns_from_resources, pattern_resources.
  rewrite stripped_assigns.
  rewrite <- (map_map pat_assign assign_resource).
  unfold patterns. rewrite patterns_in_assigns, <- map_app.
  apply Permutation_map. symmetry. apply Permutation_filter_split.
Qed.

End AssignedVariables.

(** X6.  A mutating run keeps which variables are assigned.  The new
    [AssignVariableOp]s write, in order, to the resource values the removed
    pattern assignments wrote to; the assignments that are no pattern stay
    as they were; so the resource operands of the [AssignVariableOp]s of the
    body are, up to order, the same before and after the pass, each as many
    times. *)
Theorem pass_keeps_assigned_variables (m : ModuleOp) (fn : nat) (f : FuncOp) :
  GetInitializerFunction m kTfSavedModelInitializerRestoreType = Some (fn, f) ->
  verified f = true ->
  casts_defined (getBody f) = true ->
  within_limits f = true ->
  1 <= length (patterns (getBody f)) ->
  exists f' : FuncOp,
    runOnOperation m = Ok (replace_nth fn f' m)
    /\ map assign_resource (flat_map as_AssignVariableOp (created f f'))
       = map (fun p => assign_resource (pat_assign p)) (patterns (getBody f))
    /\ (forall a, In a (getOps_AssignVariableOp (getBody f)) ->
                  pattern_of (getBody f) a = None ->
                  In a (getOps_AssignVariableOp (getBody f')))
    /\ Permutation
         (map assign_resource (getOps_AssignVariableOp (getBody f')))
         (map assign_resource (getOps_AssignVariableOp (getBody f)))
    /\ length (getOps_AssignVariableOp (getBody f'))
       = length (getOps_AssignVariableOp (getBody f)).
Proof.
  intros Hget Hver Hcast Hlim Hn.
  assert (Hpat : patterns (getBody f) <> [])
    by (intros E; rewrite E in Hn; simpl in Hn; lia).
  exists (transformed f).
  pose proof (runOnOperation_spec m fn f Hget Hver Hcast Hlim) as Hrun.
  destruct (patterns (getBody f)) as [|p ps] eqn:Ep; [congruence|].
  rewrite <- Ep in *.
  split; [exact Hrun|].
  split.
  { rewrite (created_transformed f Hver Hpat), assigns_of_new_ops.
    unfold new_assigns. rewrite new_assigns_from_resources.
    apply (pattern_resources f Hver). }
  split.
  { intros a Ha Hp.
    apply (Permutation_in _ (Permutation_sym (transformed_assigns f Hver Hpat))).
    apply in_or_app. right. rewrite (stripped_assigns f).
    apply filter_In. split; [exact Ha|]. unfold is_pattern. now rewrite Hp. }
  pose proof (transformed_resources f Hver Hpat) as Hperm.
  split; [exact Hperm|].
  apply Permutation_length in Hperm. now rewrite !length_map in Hperm.
Qed.

Lemma pass_keeps_assigned_variables_witness :
  GetInitializerFunction two_vars kTfSavedModelInitializerRestoreType
  = Some (1, two_vars_init)
  /\ verified two_vars_init = true
  /\ casts_defined (getBody two_vars_init) = true
  /\ within_limits two_vars_init = true
  /\ 1 <= length (patterns (getBody two_vars_init))
  /\ exists f' : FuncOp,
      runOnOperation two_vars = Ok (replace_nth 1 f' two_vars)
      /\ length (getOps_AssignVariableOp (getBody f'))
         = length (getOps_AssignVariableOp (getBody two_vars_init)).
Proof.
  assert (H1 : GetInitializerFunction two_vars
                 kTfSavedModelInitializerRestoreType
               = Some (1, two_vars_init)) by reflexivity.
  assert (H2 : verified two_vars_init = true) by reflexivity.
  assert (H3 : casts_defined (getBody two_vars_init) = true) by reflexivity.
  assert (H4 : within_limits two_vars_init = true) by reflexivity.
  assert (H5 : 1 <= length (patterns (getBody two_vars_init)))
    by (vm_compute; lia).
  split; [exact H1|]. split; [exact H2|]. split; [exact H3|]. split; [exact H4|].
  split; [exact H5|].
  destruct (pass_keeps_assigned_variables two_vars 1 two_vars_init
              H1 H2 H3 H4 H5) as (f' & Hr & _ & _ & _ & Hl).
  exists f'. split; [exact Hr|exact Hl].
Defined.

(* ================================================================== *)
(** ** Further properties: when the pass is fatal *)

Section IntOverflow.
Local Open Scope Z_scope.

Lemma to_int_range (z : Z) :
  (z mod 4294967296 <= INT_MAX -> to_int z = z mod 4294967296)
  /\ (INT_MAX < z mod 4294967296 -> to_int z = z mod 4294967296 - 4294967296).
Proof.
  unfold to_int. split; intros H.
  - apply Z.leb_le in H. now rewrite H.
  - apply Z.leb_gt in H. now rewrite H.
Qed.

Lemma to_int_negative (z : Z) :
  to_int z < 0 <-> INT_MAX < z mod 4294967296.
Proof.
  pose proof (Z.mod_pos_bound z 4294967296 eq_refl) as Hb.
  destruct (to_int_range z) as [Hs Hl]. unfold INT_MAX in *.
  destruct (Z_le_gt_dec (z mod 4294967296) 2147483647) as [H|H].
  - rewrite (Hs H). lia.
  - rewrite Hl by lia. lia.
Qed.

Lemma filled_vector_fatal (size : Z) (value : string) :
  filled_vector size value = Fatal <-> size < 0.
Proof.
  unfold filled_vector. destruct (size <? 0) eqn:E.
  - apply Z.ltb_lt in E. tauto.
  - apply Z.ltb_ge in E. split; [discriminate|lia].
Qed.

Lemma CreateRestoreV2Op_overflow (hs : list VarHandleOp) (f : FuncOp) :
  INT_MAX < Z.of_nat (length hs) mod 4294967296 ->
  CreateRestoreV2Op hs f = Fatal.
Proof.
  intros Hn. unfold CreateRestoreV2Op.
  destruct (atBlockTerminator_front (getBody f)) as [builder|]; [|reflexivity].
  cbn [bind].
  destruct (InsertFilePrefixArgument f builder) as [[f1 arg]|]; [|reflexivity].
  cbn [bind].
  destruct (CreateTensorNamesConst (map getSharedName hs) builder f1) as [f2 c].
  unfold CreateShapeAndSlicesConst.
  assert (Hf : filled_vector (to_int (Z.of_nat (length (map getSharedName hs))))
                             ""%string = Fatal).
  { apply filled_vector_fatal, to_int_negative. now rewrite length_map. }
  rewrite Hf. reflexivity.
Qed.

End IntOverflow.

Lemma scan_undefined (f : FuncOp) :
  verified f = true ->
  casts_defined (getBody f) = false ->
  RemoveAssignVariableOpsAndConstOps f = Fatal.
Proof.
  intros Hver Hc. unfold RemoveAssignVariableOpsAndConstOps.
  rewrite (strip_loop_undefined (getBody f) (verified_NoDup f Hver)
             (verified_defined f Hver)); [reflexivity|].
  now rewrite <- casts_defined_forallb.
Qed.

(** X7.  When the pass aborts.  On a module whose "restore_op" initializer
    function is verified (with argument and pattern counts that fit
    [unsigned]) the pass is fatal in exactly two cases: a [dyn_cast] of the
    scan is applied to the null defining operation of a block argument, or
    there are more than [INT_MAX] qualifying patterns, in which case the
    count turns negative as the [int] passed to
    [CreateShapeAndSlicesConst]. *)
Theorem pass_fatal_iff (m : ModuleOp) (fn : nat) (f : FuncOp) :
  GetInitializerFunction m kTfSavedModelInitializerRestoreType = Some (fn, f) ->
  verified f = true ->
  (Z.of_nat (length (func_arguments f)) <= UINT_MAX)%Z ->
  (Z.of_nat (length (patterns (getBody f))) <= UINT_MAX)%Z ->
  (runOnOperation m = Fatal
   <-> casts_defined (getBody f) = false
       \/ (INT_MAX < Z.of_nat (length (patterns (getBody f))))%Z).
Proof.
  intros Hget Hver Hargs Hn.
  destruct (casts_defined (getBody f)) eqn:Hc.
  - destruct (Z_le_gt_dec (Z.of_nat (length (patterns (getBody f)))) INT_MAX)
      as [Hle|Hgt].
    + assert (Hlim : within_limits f = true).
      { unfold within_limits. apply andb_true_iff. split; now apply Z.leb_le. }
      rewrite (runOnOperation_spec m fn f Hget Hver Hc Hlim).
      split; [discriminate|]. intros [H|H]; [discriminate|lia].
    + split; [intros _; right; lia|]. intros _.
      unfold runOnOperation. rewrite Hget.
      rewrite (RemoveAssignVariableOpsAndConstOps_spec f Hver Hc). cbn [bind].
      assert (Hlen : length (collected (getBody f))
                     = length (patterns (getBody f)))
        by apply length_map.
      destruct (collected (getBody f)) as [|h hs] eqn:Eh.
      { rewrite <- Hlen in Hgt. simpl in Hgt. unfold INT_MAX in Hgt. lia. }
      rewrite CreateRestoreV2Op_overflow; [reflexivity|].
      rewrite Hlen. rewrite Z.mod_small; [lia|].
      unfold UINT_MAX in Hn. lia.
  - split; [intros _; now left|]. intros _.
    unfold runOnOperation. rewrite Hget.
    now rewrite (scan_undefined f Hver Hc).
Qed.

Lemma pass_fatal_iff_witness :
  (GetInitializerFunction value_arg_module kTfSavedModelInitializerRestoreType
   = Some (0, value_arg_init)
   /\ verified value_arg_init = true
   /\ (Z.of_nat (length (func_arguments value_arg_init)) <= UINT_MAX)%Z
   /\ (Z.of_nat (length (patterns (getBody value_arg_init))) <= UINT_MAX)%Z)
  /\ runOnOperation value_arg_module = Fatal.
Proof.
  assert (H1 : GetInitializerFunction value_arg_module
                 kTfSavedModelInitializerRestoreType
               = Some (0, value_arg_init)) by reflexivity.
  assert (H2 : verified value_arg_init = true) by reflexivity.
  assert (H3 : (Z.of_nat (length (func_arguments value_arg_init)) <= UINT_MAX)%Z)
    by (vm_compute; discriminate).
  assert (H4 : (Z.of_nat (length (patterns (getBody value_arg_init)))
                <= UINT_MAX)%Z)
    by (vm_compute; discriminate).
  split; [repeat split; assumption|].
  apply (pass_fatal_iff value_arg_module 0 value_arg_init H1 H2 H3 H4).
  left. reflexivity.
Defined.

(** X8.  [CreateShapeAndSlicesConst] receives the number of tensor names
    as an [int].  For a count [n], with [k] its low 32 bits: when [k]
    exceeds [INT_MAX] the [int] is negative and building the vector of
    empty strings is fatal; otherwise the constant holds [k] empty strings
    in a tensor of shape [k] - so for a count of 2^32 or more it would be
    shorter than the list of names. *)
Theorem shape_and_slices_size_is_int (n : nat) (builder : OpBuilder) (f : FuncOp) :
  let k := (Z.of_nat n mod 4294967296)%Z in
  (CreateShapeAndSlicesConst (to_int (Z.of_nat n)) builder f = Fatal
   <-> (INT_MAX < k)%Z)
  /\ ((k <= INT_MAX)%Z ->
      exists f' c,
        CreateShapeAndSlicesConst (to_int (Z.of_nat n)) builder f = Ok (f', c)
        /\ const_value c
           = DenseStringElementsAttr (RankedTensorType [k] tf_string)
                                     (repeat ""%string (Z.to_nat k))
        /\ const_loc c = NameLoc "shape_and_slices"
        /\ const_id c = next_op_id f
        /\ next_op_id f' = S (next_op_id f)).
Proof.
  intros k.
  pose proof (Z.mod_pos_bound (Z.of_nat n) 4294967296 eq_refl) as Hb.
  fold k in Hb.
  split.
  - unfold CreateShapeAndSlicesConst.
    destruct (filled_vector (to_int (Z.of_nat n)) ""%string) as [l|] eqn:E.
    + split; [discriminate|]. intros Hk.
      apply to_int_negative, (filled_vector_fatal _ ""%string) in Hk.
      congruence.
    + split; [|reflexivity]. intros _.
      now apply to_int_negative, (filled_vector_fatal _ ""%string).
  - intros Hk. unfold CreateShapeAndSlicesConst, filled_vector.
    destruct (to_int_range (Z.of_nat n)) as [Hs _]. rewrite (Hs Hk). fold k.
    replace (k <? 0)%Z with false by (symmetry; apply Z.ltb_ge; lia).
    cbn [bind]. unfold Create1DStringConst, create. cbn [fst snd].
    eexists _, _. split; [reflexivity|].
    cbn [const_value const_loc const_id next_op_id].
    rewrite repeat_length, Z2Nat.id by lia.
    rewrite to_int64_small by lia.
    repeat split.
Qed.

Lemma shape_and_slices_size_is_int_witness :
  exists f' c,
    CreateShapeAndSlicesConst (to_int 3) {| ip_block := 0; ip_before := 7 |}
                              two_vars_init = Ok (f', c)
    /\ const_value c
       = DenseStringElementsAttr (RankedTensorType [3%Z] tf_string)
                                 [""%string; ""%string; ""%string].
Proof.
  destruct (proj2 (shape_and_slices_size_is_int
                     3 {| ip_block := 0; ip_before := 7 |} two_vars_init))
    as (f' & c & Hc & Hv & _).
  - vm_compute. discriminate.
  - exists f', c. split; [exact Hc|exact Hv].
Defined.

(* ================================================================== *)
(** ** Further properties: [CreateRestoreV2Op] on any function *)

Lemma insert_before_length (ip : OpId) (new : Operation) (b : Block) :
  length (insert_before ip new b) = S (length b).
Proof.
  induction b as [|o b IH]; simpl; [reflexivity|].
  destruct (op_id o =? ip); simpl; [reflexivity|]. now rewrite IH.
Qed.

Lemma create_grows {OpTy : Type} (as_op : OpTy -> Operation) (builder : OpBuilder)
      (make : OpId -> OpTy) (f : FuncOp) :
  ip_block builder = 0 ->
  getBody f <> [] ->
  getBody (fst (create as_op builder make f)) <> []
  /\ length (region_ops (getBody (fst (create as_op builder make f))))
     = S (length (region_ops (getBody f))).
Proof.
  intros Hb Hne. unfold create. cbn [fst getBody]. rewrite Hb.
  destruct (getBody f) as [|front others]; [contradiction|].
  cbn [insert_in_block]. split; [discriminate|].
  unfold region_ops. cbn [concat]. rewrite !length_app, insert_before_length.
  reflexivity.
Qed.

Lemma assign_results_grows (builder : OpBuilder) (loc : Location)
      (hs : list VarHandleOp) :
  ip_block builder = 0 ->
  forall (rs : list (nat * Value)) (f : FuncOp),
    getBody f <> [] ->
    (forall idx v, In (idx, v) rs -> idx < length hs) ->
    exists f',
      assign_results builder loc hs rs f = Ok f'
      /\ func_arguments f' = func_arguments f
      /\ sym_name f' = sym_name f
      /\ func_attrs f' = func_attrs f
      /\ next_op_id f' = next_op_id f + length rs
      /\ length (region_ops (getBody f'))
         = length (region_ops (getBody f)) + length rs.
Proof.
  intros Hb. induction rs as [|[idx v] rs IH]; intros f Hne Hidx.
  - exists f. cbn [assign_results length]. rewrite !Nat.add_0_r. repeat split.
  - cbn [assign_results].
    destruct (nth_error hs idx) as [h|] eqn:Eh.
    2:{ apply nth_error_None in Eh.
        specialize (Hidx idx v (or_introl eq_refl)). lia. }
    set (make := fun id => {| assign_id := id; assign_loc := loc;
                              assign_resource := result_of (vh_id h);
                              assign_value := v |}).
    destruct (create_grows OpAssignVariable builder make f Hb Hne) as [Hne' Hlen].
    destruct (create OpAssignVariable builder make f) as [f1 a] eqn:Ec.
    cbn [fst] in Hne', Hlen.
    destruct (IH f1 Hne') as (f' & Hr & Ha & Hs & Hat & Hm & Hl).
    { intros i w Hin. apply (Hidx i w). now right. }
    exists f'. split; [exact Hr|].
    unfold create in Ec. injection Ec as <- _.
    cbn [func_arguments sym_name func_attrs next_op_id] in *.
    rewrite Ha, Hs, Hat, Hm, Hl, Hlen. cbn [length].
    repeat split; lia.
Qed.

Lemma atBlockTerminator_front_fatal (r : Region) :
  atBlockTerminator_front r = Fatal
  <-> forall init t, hd_error r = Some (init ++ [t]) -> isTerminator t = false.
Proof.
  unfold atBlockTerminator_front. destruct r as [|front others].
  - split; [discriminate|reflexivity].
  - cbn [hd_error]. unfold getTerminator.
    destruct (rev front) as [|t l] eqn:Er.
    + cbn [bind]. split; [|reflexivity]. intros _ init t H.
      injection H as ->. rewrite rev_app_distr in Er. discriminate.
    + assert (Hf : front = rev l ++ [t])
        by (rewrite <- (rev_involutive front), Er; reflexivity).
      destruct (isTerminator t) eqn:Et; cbn [bind].
      * split; [discriminate|]. intros H.
        rewrite (H (rev l) t) in Et; [discriminate|now rewrite Hf].
      * split; [|reflexivity]. intros _ init t' H.
        injection H as H. rewrite Hf in H.
        apply app_inj_tail in H as [_ <-]. exact Et.
Qed.

Lemma atBlockTerminator_front_block (r : Region) (builder : OpBuilder) :
  atBlockTerminator_front r = Ok builder -> ip_block builder = 0 /\ r <> [].
Proof.
  unfold atBlockTerminator_front. destruct r as [|front others]; [discriminate|].
  destruct (getTerminator front); cbn [bind]; [|discriminate].
  intros H. injection H as <-. split; [reflexivity|discriminate].
Qed.

(** X9.  [CreateRestoreV2Op] on any function and any list of handles,
    within the integer ranges.  It is fatal exactly when the body has no
    entry block or the entry block does not end in a terminator.  Otherwise
    it returns, whatever the handles are: the function has one more
    argument, appended last, and 3 + N more operations for N handles - also
    for N = 0, where a [RestoreV2Op] without result is created; it is the
    caller that skips the call for an empty list. *)
Theorem CreateRestoreV2Op_fatal_iff (hs : list VarHandleOp) (f : FuncOp) :
  (Z.of_nat (length (func_arguments f)) <= UINT_MAX)%Z ->
  (Z.of_nat (length hs) <= INT_MAX)%Z ->
  (CreateRestoreV2Op hs f = Fatal
   <-> forall init t, hd_error (getBody f) = Some (init ++ [t]) ->
                      isTerminator t = false)
  /\ (CreateRestoreV2Op hs f <> Fatal ->
      exists f',
        CreateRestoreV2Op hs f = Ok f'
        /\ func_arguments f' = func_arguments f ++ [file_prefix_argument]
        /\ sym_name f' = sym_name f
        /\ func_attrs f' = func_attrs f
        /\ next_op_id f' = next_op_id f + 3 + length hs
        /\ length (region_ops (getBody f'))
           = length (region_ops (getBody f)) + 3 + length hs).
Proof.
  intros Hargs Hn.
  rewrite <- atBlockTerminator_front_fatal.
  unfold CreateRestoreV2Op.
  destruct (atBlockTerminator_front (getBody f)) as [builder|] eqn:Eb.
  2:{ cbn [bind]. split; [tauto|]. intros H. now contradiction H. }
  apply atBlockTerminator_front_block in Eb as [Hb Hne].
  cbn [bind]. rewrite (InsertFilePrefixArgument_spec f builder Hargs). cbn [bind].
  unfold CreateTensorNamesConst, CreateShapeAndSlicesConst, Create1DStringConst.
  rewrite length_map.
  rewrite to_int_small by (split; [apply Nat2Z.is_nonneg|exact Hn]).
  unfold filled_vector.
  replace (Z.of_nat (length hs) <? 0)%Z with false
    by (symmetry; apply Z.ltb_ge, Nat2Z.is_nonneg).
  cbn [bind].
  set (f0 := setArguments f (func_arguments f ++ [file_prefix_argument])).
  assert (Hne0 : getBody f0 <> []) by exact Hne.
  match goal with |- context [create OpConst builder ?mk f0] =>
    set (make1 := mk) end.
  destruct (create_grows OpConst builder make1 f0 Hb Hne0) as [Hne1 Hl1].
  destruct (create OpConst builder make1 f0) as [f1 c1] eqn:E1.
  cbn [fst] in Hne1, Hl1.
  match goal with |- context [create OpConst builder ?mk f1] =>
    set (make2 := mk) end.
  destruct (create_grows OpConst builder make2 f1 Hb Hne1) as [Hne2 Hl2].
  destruct (create OpConst builder make2 f1) as [f2 c2] eqn:E2.
  cbn [fst] in Hne2, Hl2.
  match goal with |- context [create OpRestoreV2 builder ?mk f2] =>
    set (make3 := mk) end.
  destruct (create_grows OpRestoreV2 builder make3 f2 Hb Hne2) as [Hne3 Hl3].
  destruct (create OpRestoreV2 builder make3 f2) as [f3 r] eqn:E3.
  cbn [fst] in Hne3, Hl3.
  destruct (assign_results_grows builder (restore_loc r) hs Hb
              (enumerate (getResults r)) f3 Hne3)
    as (f' & Hr & Ha & Hs & Hat & Hm & Hl).
  { intros idx v Hin. unfold enumerate in Hin. apply in_combine_l in Hin.
    apply in_seq in Hin. unfold getResults in Hin.
    rewrite length_map, length_seq in Hin.
    unfold create in E3. injection E3 as _ <-.
    unfold make3 in Hin. cbn [restore_tensors] in Hin.
    rewrite length_map in Hin. lia. }
  rewrite Hr. split; [split; intros H; discriminate|].
  intros _. exists f'. split; [reflexivity|].
  assert (Hlen : length (enumerate (getResults r)) = length hs).
  { unfold enumerate, getResults.
    rewrite length_combine, !length_seq, length_map, length_seq, Nat.min_id.
    unfold create in E3. injection E3 as _ <-.
    unfold make3. cbn [restore_tensors]. apply length_map. }
  rewrite Hlen in Hm, Hl.
  unfold create in E1, E2, E3.
  injection E1 as <- _. injection E2 as <- _. injection E3 as <- _.
  cbn [func_arguments sym_name func_attrs next_op_id getBody setArguments f0] in *.
  rewrite Ha, Hs, Hat, Hm, Hl, Hl3, Hl2, Hl1.
  repeat split; lia.
Qed.

Lemma CreateRestoreV2Op_fatal_iff_witness :
  ((Z.of_nat (length (func_arguments main_func)) <= UINT_MAX)%Z
   /\ (Z.of_nat (length [w1; w2]) <= INT_MAX)%Z)
  /\ CreateRestoreV2Op [w1; w2] (setBody main_func []) = Fatal
  /\ exists f',
      CreateRestoreV2Op [] two_vars_init = Ok f'
      /\ length (region_ops (getBody f'))
         = length (region_ops (getBody two_vars_init)) + 3 + 0.
Proof.
  assert (H1 : (Z.of_nat (length (func_arguments (setBody main_func [])))
                <= UINT_MAX)%Z) by (vm_compute; discriminate).
  assert (H2 : (Z.of_nat (length [w1; w2]) <= INT_MAX)%Z)
    by (vm_compute; discriminate).
  assert (H3 : (Z.of_nat (length (func_arguments two_vars_init)) <= UINT_MAX)%Z)
    by (vm_compute; discriminate).
  assert (H4 : (Z.of_nat (@length VarHandleOp []) <= INT_MAX)%Z)
    by (vm_compute; discriminate).
  split; [split; [exact H1|exact H2]|].
  split.
  - apply (CreateRestoreV2Op_fatal_iff [w1; w2] (setBody main_func []) H1 H2).
    intros init t H. discriminate.
  - destruct (proj2 (CreateRestoreV2Op_fatal_iff [] two_vars_init H3 H4))
      as (f' & Hr & _ & _ & _ & _ & Hl).
    + vm_compute. discriminate.
    + exists f'. split; [exact Hr|exact Hl].
Defined.

(* ================================================================== *)
(** ** Further properties: the file prefix *)

(** X10.  In a mutating run the [RestoreV2Op] reads its checkpoint prefix
    from the argument the pass added: its operand [prefix] is the argument
    of the entry block with the number the function had arguments before,
    which is the position of the new scalar string argument; the arguments
    the function had keep their numbers, so block arguments already in use
    still denote the same arguments. *)
Theorem restore_reads_new_argument (m : ModuleOp) (fn : nat) (f : FuncOp) :
  GetInitializerFunction m kTfSavedModelInitializerRestoreType = Some (fn, f) ->
  verified f = true ->
  casts_defined (getBody f) = true ->
  within_limits f = true ->
  1 <= length (patterns (getBody f)) ->
  exists (f' : FuncOp) (restore_op : RestoreV2Op) (new_arg : Argument),
    runOnOperation m = Ok (replace_nth fn f' m)
    /\ In (OpRestoreV2 restore_op) (region_ops (getBody f'))
    /\ (forall r, In (OpRestoreV2 r) (created f f') -> r = restore_op)
    /\ restore_prefix restore_op
       = BlockArgument EntryBlock (length (func_arguments f))
    /\ nth_error (func_arguments f') (length (func_arguments f)) = Some new_arg
    /\ arg_type new_arg = RankedTensorType [] tf_string
    /\ length (func_arguments f') = S (length (func_arguments f))
    /\ (forall i, i < length (func_arguments f) ->
                  nth_error (func_arguments f') i = nth_error (func_arguments f) i).
Proof.
  intros Hget Hver Hcast Hlim Hn.
  assert (Hpat : patterns (getBody f) <> [])
    by (intros E; rewrite E in Hn; simpl in Hn; lia).
  pose proof (runOnOperation_spec m fn f Hget Hver Hcast Hlim) as Hrun.
  destruct (patterns (getBody f)) as [|p ps] eqn:Ep; [congruence|].
  rewrite <- Ep in *.
  exists (transformed f),
    (new_restore (next_op_id f) (func_loc f) (length (func_arguments f))
                 (collected (getBody f))),
    file_prefix_argument.
  split; [exact Hrun|].
  split.
  { apply (in_transformed f Hver Hpat). right. unfold new_ops.
    right. right. now left. }
  split.
  { intros r Hr. rewrite (created_transformed f Hver Hpat) in Hr.
    unfold new_ops in Hr. destruct Hr as [Hr|[Hr|[Hr|Hr]]]; try discriminate.
    - now injection Hr as <-.
    - apply in_map_iff in Hr as (a & Ha & _). discriminate. }
  split; [reflexivity|].
  destruct (transformed_eq f Hver Hpat) as (init & t & others & _ & _ & _ & ->).
  cbn [with_restore func_arguments setBody].
  split.
  { rewrite nth_error_app2 by lia. now rewrite Nat.sub_diag. }
  split; [reflexivity|].
  split; [rewrite length_app; simpl; lia|].
  intros i Hi. now rewrite nth_error_app1.
Qed.

Lemma restore_reads_new_argument_witness :
  GetInitializerFunction two_vars kTfSavedModelInitializerRestoreType
  = Some (1, two_vars_init)
  /\ verified two_vars_init = true
  /\ casts_defined (getBody two_vars_init) = true
  /\ within_limits two_vars_init = true
  /\ 1 <= length (patterns (getBody two_vars_init))
  /\ exists (f' : FuncOp) (restore_op : RestoreV2Op),
      runOnOperation two_vars = Ok (replace_nth 1 f' two_vars)
      /\ In (OpRestoreV2 restore_op) (region_ops (getBody f'))
      /\ restore_prefix restore_op = BlockArgument EntryBlock 0.
Proof.
  assert (H1 : GetInitializerFunction two_vars kTfSavedModelInitializerRestoreType
               = Some (1, two_vars_init)) by reflexivity.
  assert (H2 : verified two_vars_init = true) by reflexivity.
  assert (H3 : casts_defined (getBody two_vars_init) = true) by reflexivity.
  assert (H4 : within_limits two_vars_init = true) by reflexivity.
  assert (H5 : 1 <= length (patterns (getBody two_vars_init)))
    by (vm_compute; lia).
  split; [exact H1|]. split; [exact H2|]. split; [exact H3|]. split; [exact H4|].
  split; [exact H5|].
  destruct (restore_reads_new_argument two_vars 1 two_vars_init H1 H2 H3 H4 H5)
    as (f' & r & a & Hr & Hin & _ & Hp & _).
  exists f', r. split; [exact Hr|]. split; [exact Hin|exact Hp].
Defined.

(* ================================================================== *)
(** ** Further properties: bodies of several blocks *)

Lemma new_assign_for_handle (rid : OpId) (loc : Location) (hs : list VarHandleOp)
      (h : VarHandleOp) :
  In h hs ->
  forall id i,
    exists a, In a (new_assigns_from rid loc id i hs)
              /\ assign_resource a = result_of (vh_id h).
Proof.
  induction hs as [|h' hs IH]; intros Hin id i; [destruct Hin|].
  destruct Hin as [->|Hin].
  - eexists. split; [now left|reflexivity].
  - destruct (IH Hin (S id) (S i)) as (a & Ha & Hr).
    exists a. split; [now right|exact Hr].
Qed.

(** X11.  The new operations always go to the entry block.  When the
    handle of a qualifying pattern is defined in another block of the body,
    the entry block of the function the pass leaves holds an
    [AssignVariableOp] on that handle and no operation that defines it: the
    entry block, which runs first, then uses a value no operation before the
    use defines. *)
Theorem new_assignments_go_to_entry_block
        (m : ModuleOp) (fn : nat) (f : FuncOp) (p : Pattern) (front : Block) :
  GetInitializerFunction m kTfSavedModelInitializerRestoreType = Some (fn, f) ->
  verified f = true ->
  casts_defined (getBody f) = true ->
  within_limits f = true ->
  In p (patterns (getBody f)) ->
  hd_error (getBody f) = Some front ->
  ~ In (OpVarHandle (pat_handle p)) front ->
  exists (f' : FuncOp) (front' : Block) (a : AssignVariableOp),
    runOnOperation m = Ok (replace_nth fn f' m)
    /\ hd_error (getBody f') = Some front'
    /\ In (OpAssignVariable a) front'
    /\ assign_resource a = OpResult (vh_id (pat_handle p)) 0
    /\ In (OpAssignVariable a) (created f f')
    /\ (forall d, In d front' -> op_id d <> vh_id (pat_handle p))
    /\ In (OpVarHandle (pat_handle p)) (region_ops (getBody f')).
Proof.
  intros Hget Hver Hcast Hlim Hp Hfront Hout.
  assert (Hpat : patterns (getBody f) <> [])
    by (intros E; rewrite E in Hp; destruct Hp).
  pose proof (runOnOperation_spec m fn f Hget Hver Hcast Hlim) as Hrun.
  destruct (patterns (getBody f)) as [|p0 ps] eqn:Ep; [congruence|].
  rewrite <- Ep in *.
  assert (Hh : In (pat_handle p) (collected (getBody f)))
    by (unfold collected; now apply in_map).
  destruct (new_assign_for_handle (S (S (next_op_id f))) (func_loc f) _ _ Hh
              (S (S (S (next_op_id f)))) 0) as (a & Ha & Hr).
  fold (new_assigns (next_op_id f) (func_loc f) (collected (getBody f))) in Ha.
  assert (Hnew : In (OpAssignVariable a)
                    (new_ops (next_op_id f) (func_loc f)
                             (length (func_arguments f)) (collected (getBody f)))).
  { unfold new_ops. right. right. right. now apply in_map. }
  assert (Hvh : In (OpVarHandle (pat_handle p)) (region_ops (getBody f))).
  { apply (in_patterns f) in Hp as [_ Hp].
    apply pattern_of_some in Hp as [Hp _].
    now apply getDefiningOp_in in Hp as [Hp _]. }
  destruct (transformed_eq f Hver Hpat) as (init & t & others & Hb & Ht & Hs & Htr).
  rewrite Hb in Hfront. injection Hfront as <-.
  exists (transformed f),
    (filter (kept f) init
     ++ new_ops (next_op_id f) (func_loc f) (length (func_arguments f))
                (collected (getBody f))
     ++ [t]), a.
  split; [exact Hrun|].
  split; [rewrite Htr; reflexivity|].
  split; [apply in_or_app; right; apply in_or_app; now left|].
  split; [exact Hr|].
  split; [now rewrite (created_transformed f Hver Hpat)|].
  split.
  - intros d Hd Hid.
    assert (Hold : In d (init ++ [t]) -> False).
    { intros Hin. apply Hout.
      assert (Hdr : In d (region_ops (getBody f))).
      { rewrite Hb. unfold region_ops. cbn [concat]. apply in_or_app. now left. }
      rewrite <- (NoDup_map_eq op_id _ d (OpVarHandle (pat_handle p))
                    (verified_NoDup f Hver) Hdr Hvh Hid).
      exact Hin. }
    apply in_app_iff in Hd as [Hd|Hd].
    + apply filter_In in Hd as [Hd _]. apply Hold, in_or_app. now left.
    + apply in_app_iff in Hd as [Hd|Hd].
      * assert (Hin : In (op_id d)
                        (map op_id (new_ops (next_op_id f) (func_loc f)
                                      (length (func_arguments f))
                                      (collected (getBody f)))))
          by now apply in_map.
        rewrite new_ops_seq in Hin. apply in_seq in Hin.
        pose proof (verified_below_mark f Hver _ Hvh) as Hlt.
        cbn [op_id] in Hlt. lia.
      * apply Hold, in_or_app. now right.
  - apply (in_transformed f Hver Hpat). left.
    now apply (collected_handle_in f).
Qed.

Lemma new_assignments_go_to_entry_block_witness :
  GetInitializerFunction two_block_module kTfSavedModelInitializerRestoreType
  = Some (0, two_block_init)
  /\ verified two_block_init = true
  /\ casts_defined (getBody two_block_init) = true
  /\ within_limits two_block_init = true
  /\ exists (f' : FuncOp) (front' : Block) (a : AssignVariableOp),
      runOnOperation two_block_module = Ok (replace_nth 0 f' two_block_module)
      /\ hd_error (getBody f') = Some front'
      /\ In (OpAssignVariable a) front'
      /\ assign_resource a = OpResult 2 0
      /\ (forall d, In d front' -> op_id d <> 2).
Proof.
  assert (H1 : GetInitializerFunction two_block_module
                 kTfSavedModelInitializerRestoreType
               = Some (0, two_block_init)) by reflexivity.
  assert (H2 : verified two_block_init = true) by reflexivity.
  assert (H3 : casts_defined (getBody two_block_init) = true) by reflexivity.
  assert (H4 : within_limits two_block_init = true) by reflexivity.
  split; [exact H1|]. split; [exact H2|]. split; [exact H3|]. split; [exact H4|].
  destruct (new_assignments_go_to_entry_block
              two_block_module 0 two_block_init
              {| pat_assign := assign 4 (OpResult 2 0) (OpResult 3 0);
                 pat_handle := var_handle 2 "w1" t1xf32;
                 pat_const := const 3 t1xf32 [1%Z] |}
              [OtherOp 1 UnknownLoc "cf.br" [] [] [] true]
              H1 H2 H3 H4)
    as (f' & front' & a & Hr & Hf & Hin & Hres & _ & Hno & _).
  - simpl. auto.
  - reflexivity.
  - simpl. intros [H|[]]. discriminate.
  - exists f', front', a. repeat split; assumption.
Defined.
